(** * Observable objects: a shallow embedding of [src/observable.ts]

    The library wraps a data structure in [Proxy] objects ("façades"),
    registers every façade in a module-wide [WeakMap] and reports each
    intercepted modification to the registered observer callbacks, first at
    the modified façade and then at every ancestor.

    The embedding keeps the JavaScript object graph explicit: a heap of
    objects addressed by natural numbers, the registry as a finite map from
    façade addresses to their information record, and the observer callbacks
    as recorders that append the observation they receive to a call log. *)

From stdpp Require Import gmap strings list fin_maps pretty.
From Stdlib Require Import ZArith.

(** ** Values and objects *)

(** JavaScript values.  Numbers are the integers; a reference [VRef a] is an
    object living at address [a] of the heap; functions and symbols only
    carry an identity. *)
Inductive value : Type :=
  | VUndef
  | VNull
  | VBool (b : bool)
  | VNum (n : Z)
  | VStr (s : string)
  | VSym (d : string)
  | VFun (f : nat)
  | VRef (a : nat).

#[global] Instance value_eq_dec : EqDecision value.
Proof. solve_decision. Defined.

(** The result of the [typeof] operator. *)
Inductive jstype : Type :=
  | TUndefined | TObject | TBoolean | TNumber | TString | TSymbol | TFunction.

#[global] Instance jstype_eq_dec : EqDecision jstype.
Proof. solve_decision. Defined.

(** [typeof null] is ["object"]. *)
Definition typeof (v : value) : jstype :=
  match v with
  | VUndef => TUndefined
  | VNull => TObject
  | VBool _ => TBoolean
  | VNum _ => TNumber
  | VStr _ => TString
  | VSym _ => TSymbol
  | VFun _ => TFunction
  | VRef _ => TObject
  end.

(** Element types of the typed arrays whose elements are integers.  The
    floating-point and the BigInt arrays take the same branch of the source;
    their element types are not part of this embedding. *)
Inductive tkind : Type :=
  | Int8 | Uint8 | Uint8Clamped | Int16 | Uint16 | Int32 | Uint32.

(** The standard types that are passed through. *)
Inductive okind : Type := KError | KDate | KRegExp.

(** Heap objects.  A plain object is its own enumerable string-keyed
    properties in insertion order; an array is the list of its elements (a
    hole reads as [undefined]); a [Set] is the list of its members and a
    [Map] the list of its entries, in insertion order, [weak] telling the
    [WeakSet] and the [WeakMap] apart; [OOther] is an object of any other
    class; a proxy records its target and the [strict] flag its handler
    closes over. *)
Inductive obj : Type :=
  | OPlain (props : list (string * value))
  | OArray (elems : list value)
  | OSet (weak : bool) (items : list value)
  | OMap (weak : bool) (entries : list (value * value))
  | OTyped (k : tkind) (data : list Z)
  | OOpaque (k : okind)
  | OOther
  | OProxy (tgt : nat) (strict : bool).

(** ** Observations and the registry *)

Inductive otype : Type := Change | Delete.

Record Observation : Type := mkObservation {
  o_type : otype;
  o_target : value;
  o_path : value;
  o_valueNew : value;
  o_valueOld : value
}.

(** The information context of a façade.  [info_callbacks] is a [Set] of
    callbacks, kept in insertion order; a callback is identified by a
    number. *)
Record ObservableInfo : Type := mkInfo {
  info_raw : value;
  info_name : value;
  info_parent : value;
  info_callbacks : list nat;
  info_paused : gmap nat bool
}.

(** The program state: the heap, the [observableMap] (keyed by the address of
    the façade) and the log of the callback invocations. *)
Record state : Type := mkState {
  heap : list obj;
  observableMap : gmap nat ObservableInfo;
  calls : list (nat * Observation)
}.

Definition empty_state : state := mkState [] ∅ [].

(** ** Errors and the state monad *)

Inductive error : Type :=
  | Error (msg : string)   (* [throw new Error(msg)] *)
  | TypeError              (* thrown by a built-in operation *)
  | OutOfFuel              (* the recursion is deeper than the fuel *)
  | Unmodelled.            (* behaviour outside this embedding *)

Definition msg_convert : string := "can convert objects to observables only".
Definition msg_internal : string := "internal error: missing information context".
Definition msg_unsupported : string := "unsupported object type detected".
Definition msg_object : string := "argument has to be an object".
Definition msg_not_observable : string := "argument not an observable".
Definition msg_registered : string := "callback already registered for observation".
Definition msg_not_registered : string :=
  "callback not or no longer registered for observation".

(** A computation returns a value or throws, and in both cases leaves a
    state behind. *)
Inductive result (A : Type) : Type :=
  | Ok (a : A) (s : state)
  | Throw (e : error) (s : state).
Arguments Ok {A} a s.
Arguments Throw {A} e s.

Definition M (A : Type) : Type := state → result A.

Definition ret {A} (a : A) : M A := λ s, Ok a s.
Definition throw {A} (e : error) : M A := λ s, Throw e s.
Definition bind {A B} (m : M A) (f : A → M B) : M B :=
  λ s, match m s with
       | Ok a s' => f a s'
       | Throw e s' => Throw e s'
       end.
Definition get_state : M state := λ s, Ok s s.

Notation "'let*' x := m 'in' k" := (bind m (λ x, k))
  (at level 10, x pattern, m at level 100, k at level 200, only parsing).
Notation "m ;;; k" := (bind m (λ _, k))
  (at level 100, k at level 200, right associativity, only parsing).

Fixpoint forM {A} (l : list A) (body : A → M unit) : M unit :=
  match l with
  | [] => ret tt
  | x :: l' => body x ;;; forM l' body
  end.

(** ** Primitive operations *)

(** [String(v)]; the conversion of an object runs its [toString] method and
    is not modelled.  A number stands for an integer that JavaScript
    represents exactly (a magnitude below [2^53]); these are printed in
    decimal notation.  Larger magnitudes, which JavaScript rounds and
    prints in exponent notation from [1e21] on, are outside the
    embedding. *)
Definition to_String (v : value) : option string :=
  match v with
  | VUndef => Some "undefined"
  | VNull => Some "null"
  | VBool true => Some "true"
  | VBool false => Some "false"
  | VNum n => Some (pretty n)
  | VStr s => Some s
  | VSym d => Some ("Symbol(" +:+ d +:+ ")")
  | VFun _ | VRef _ => None
  end.

Definition js_String (v : value) : M string :=
  match to_String v with
  | Some str => ret str
  | None => throw Unmodelled
  end.

(** The conversion of a value in a template literal: as [String], but a
    symbol throws. *)
Definition js_template (v : value) : M string :=
  match v with
  | VSym _ => throw TypeError
  | _ => js_String v
  end.

Definition alloc (o : obj) : M value :=
  λ s, Ok (VRef (length (heap s)))
          (mkState (heap s ++ [o]) (observableMap s) (calls s)).

Definition deref (v : value) : M obj :=
  λ s, match v with
       | VRef a =>
           match heap s !! a with
           | Some o => Ok o s
           | None => Throw Unmodelled s
           end
       | _ => Throw Unmodelled s
       end.

Definition store (a : nat) (o : obj) : M unit :=
  λ s, Ok tt (mkState (<[a := o]> (heap s)) (observableMap s) (calls s)).

(** [observableMap.has] and [observableMap.get]; a key that is not an object
    is never found. *)
Definition observableMap_get (v : value) : M (option ObservableInfo) :=
  λ s, match v with
       | VRef a => Ok (observableMap s !! a) s
       | _ => Ok None s
       end.

Definition observableMap_has (v : value) : M bool :=
  let* oi := observableMap_get v in ret (bool_decide (is_Some oi)).

(** A callback records the observation it is called with. *)
Definition call (cb : nat) (o : Observation) : M unit :=
  λ s, Ok tt (mkState (heap s) (observableMap s) (calls s ++ [(cb, o)])).

(** Association lists with the update discipline of object properties and
    [Map] entries: an existing key keeps its position, a new key goes to the
    end. *)
Section alist.
Context {K V : Type} `{EqDecision K}.

Fixpoint alist_get (k : K) (l : list (K * V)) : option V :=
  match l with
  | [] => None
  | (k', v) :: l' => if decide (k = k') then Some v else alist_get k l'
  end.

Fixpoint alist_set (k : K) (v : V) (l : list (K * V)) : list (K * V) :=
  match l with
  | [] => [(k, v)]
  | (k', v') :: l' =>
      if decide (k = k') then (k, v) :: l' else (k', v') :: alist_set k v l'
  end.

Fixpoint alist_remove (k : K) (l : list (K * V)) : list (K * V) :=
  match l with
  | [] => []
  | (k', v') :: l' =>
      if decide (k = k') then alist_remove k l' else (k', v') :: alist_remove k l'
  end.
End alist.

(** The [i]-th argument of a call, [undefined] when it is missing. *)
Definition arg (i : nat) (args : list value) : value := default VUndef (args !! i).

(** ** The propagation engine *)

Fixpoint triggerObserver_rec (fuel : nat) (type : otype)
    (target path valueNew valueOld : value) : M unit :=
  match fuel with
  | 0 => throw OutOfFuel
  | S fuel' =>
      (* determine information context object *)
      let* oi := observableMap_get target in
      match oi with
      | None => throw (Error msg_internal)
      | Some info =>
          (* iterate and call all observer callbacks *)
          forM (info_callbacks info) (λ callback,
            if negb (default false (info_paused info !! callback))
            then call callback (mkObservation type target path valueNew valueOld)
            else ret tt) ;;;
          (* recursively trigger observers on parent objects *)
          if decide (info_parent info = VNull) then ret tt
          else
            let* n := js_String (info_name info) in
            let* p := js_template path in
            triggerObserver_rec fuel' type (info_parent info)
              (VStr (n +:+ "." +:+ p)) valueNew valueOld
      end
  end.

(** The façades on a parent chain are pairwise distinct heap objects unless
    the chain is cyclic, so the size of the heap bounds the depth of the
    recursion of every run that ends. *)
Definition triggerObserver (type : otype)
    (target path valueNew valueOld : value) : M unit :=
  let* s := get_state in
  triggerObserver_rec (S (length (heap s))) type target path valueNew valueOld.

(** ** Checking for an observable *)

Definition isObservable (object : value) : M bool :=
  if decide (typeof object = TObject) then observableMap_has object
  else throw (Error msg_object).

(** ** The proxy handlers *)

(** The target of a proxy and the [strict] flag of its handler. *)
Definition proxy_parts (proxy : value) : M (nat * bool) :=
  let* o := deref proxy in
  match o with
  | OProxy target strict => ret (target, strict)
  | _ => throw Unmodelled
  end.

Definition addInfo (proxy obj name parent : value) : M unit :=
  λ s, match proxy with
       | VRef a =>
           Ok tt (mkState (heap s)
                    (<[a := mkInfo obj name parent [] ∅]> (observableMap s))
                    (calls s))
       | _ => Throw Unmodelled s
       end.

(** *** Plain objects

    [Reflect.get], [Reflect.set] and [Reflect.deleteProperty] on the own
    properties of the target; inherited properties, accessors and
    non-writable properties are not modelled.  A plain object is the list
    of its own enumerable properties with a string name, in the order in
    which [Object.keys] lists them.  So the operations are those of the
    source for a property that the target has itself, and for a missing one
    whose name is not inherited from [Object.prototype] ([toString],
    [constructor], the accessor [__proto__], ...): reading an inherited
    name gives the inherited value, not [undefined].  A new property is
    added behind the others, as [Object.keys] lists it unless its name is
    an array index. *)
Definition plain_Reflect_get (target : nat) (p : string) : M value :=
  let* o := deref (VRef target) in
  match o with
  | OPlain props => ret (default VUndef (alist_get p props))
  | _ => throw Unmodelled
  end.

Definition plain_Reflect_set (target : nat) (p : string) (v : value) : M bool :=
  let* o := deref (VRef target) in
  match o with
  | OPlain props => store target (OPlain (alist_set p v props)) ;;; ret true
  | _ => throw Unmodelled
  end.

Definition plain_Reflect_deleteProperty (target : nat) (p : string) : M bool :=
  let* o := deref (VRef target) in
  match o with
  | OPlain props => store target (OPlain (alist_remove p props)) ;;; ret true
  | _ => throw Unmodelled
  end.

(** The [get] trap, and [Object.keys] through the proxy. *)
Definition plain_get (proxy : value) (p : string) : M value :=
  let* (target, _) := proxy_parts proxy in
  plain_Reflect_get target p.

Definition plain_keys (proxy : value) : M (list string) :=
  let* (target, _) := proxy_parts proxy in
  let* o := deref (VRef target) in
  match o with
  | OPlain props => ret (props.*1)
  | _ => throw Unmodelled
  end.

Definition plain_deleteProperty (proxy : value) (p : string) : M bool :=
  let* (target, _) := proxy_parts proxy in
  let* valueOld := plain_Reflect_get target p in
  let* result := plain_Reflect_deleteProperty target p in
  triggerObserver Delete proxy (VStr p) VUndef valueOld ;;;
  ret result.

(** *** Arrays

    The property keys of an array that are modelled are its indices; the key
    of index [i] is the string [String(i)].  An assignment beyond the end
    extends the array with holes. *)
Definition array_Reflect_get (target : nat) (i : nat) : M value :=
  let* o := deref (VRef target) in
  match o with
  | OArray elems => ret (default VUndef (elems !! i))
  | _ => throw Unmodelled
  end.

Definition array_write (i : nat) (v : value) (elems : list value) : list value :=
  if decide (i < length elems) then <[i := v]> elems
  else elems ++ replicate (i - length elems) VUndef ++ [v].

Definition array_Reflect_set (target : nat) (i : nat) (v : value) : M bool :=
  let* o := deref (VRef target) in
  match o with
  | OArray elems => store target (OArray (array_write i v elems)) ;;; ret true
  | _ => throw Unmodelled
  end.

Definition array_Reflect_deleteProperty (target : nat) (i : nat) : M bool :=
  let* o := deref (VRef target) in
  match o with
  | OArray elems => store target (OArray (<[i := VUndef]> elems)) ;;; ret true
  | _ => throw Unmodelled
  end.

Definition array_get (proxy : value) (i : nat) : M value :=
  let* (target, _) := proxy_parts proxy in
  array_Reflect_get target i.

Definition array_length (proxy : value) : M nat :=
  let* (target, _) := proxy_parts proxy in
  let* o := deref (VRef target) in
  match o with
  | OArray elems => ret (length elems)
  | _ => throw Unmodelled
  end.

Definition array_deleteProperty (proxy : value) (i : nat) : M bool :=
  let* (target, _) := proxy_parts proxy in
  let* valueOld := array_Reflect_get target i in
  let* result := array_Reflect_deleteProperty target i in
  triggerObserver Delete proxy (VStr (pretty i)) VUndef valueOld ;;;
  ret result.

(** The built-in array methods that are modelled: the result of the call and
    the elements afterwards. *)
Definition array_apply (target : nat) (p : string) (args : list value)
    (elems : list value) : M value :=
  if decide (p = "push") then
    store target (OArray (elems ++ args)) ;;;
    ret (VNum (Z.of_nat (length (elems ++ args))))
  else if decide (p = "pop") then
    store target (OArray (removelast elems)) ;;;
    ret (default VUndef (last elems))
  else if decide (p = "unshift") then
    store target (OArray (args ++ elems)) ;;;
    ret (VNum (Z.of_nat (length (args ++ elems))))
  else if decide (p = "shift") then
    store target (OArray (tail elems)) ;;;
    ret (default VUndef (head elems))
  else if decide (p = "reverse") then
    store target (OArray (reverse elems)) ;;;
    ret (VRef target)
  else throw Unmodelled.

(** A call [proxy.p(...args)] of a modifying method of an array façade. *)
Definition array_method (proxy : value) (p : string) (args : list value) : M value :=
  let* (target, _) := proxy_parts proxy in
  let* o := deref (VRef target) in
  match o with
  | OArray elems =>
      (* execute original method *)
      let* result := array_apply target p args elems in
      (* trigger observers *)
      (if decide (p = "push") then
         let* len := array_length proxy in
         triggerObserver Change proxy (VStr (pretty len)) (arg 0 args) VUndef
       else if decide (p = "pop") then
         let* len := array_length proxy in
         triggerObserver Change proxy (VStr (pretty (len + 1))) VUndef result
       else if decide (p = "unshift") then
         triggerObserver Change proxy (VStr (pretty 0)) (arg 0 args) VUndef
       else if decide (p = "shift") then
         triggerObserver Change proxy (VStr (pretty 0)) VUndef result
       else
         triggerObserver Change proxy (VStr "*") VUndef VUndef) ;;;
      ret result
  | _ => throw Unmodelled
  end.

(** *** Sets *)
Definition set_insert (v : value) (items : list value) : list value :=
  if decide (v ∈ items) then items else items ++ [v].

Definition set_remove (v : value) (items : list value) : list value :=
  filter (λ x, x ≠ v) items.

Definition is_ref (v : value) : bool :=
  match v with VRef _ => true | _ => false end.

(** The error of a [WeakSet] or [WeakMap] that is given a key that is not
    an object: a [TypeError]; for a symbol the outcome depends on the
    engine (newer ones accept a symbol that is not registered), which is
    outside the embedding. *)
Definition weak_key_error (v : value) : error :=
  match v with
  | VSym _ => Unmodelled
  | _ => TypeError
  end.

(** The built-in methods of [Set] and [WeakSet] that are modelled; a
    [WeakSet] holds objects only and has no [clear]. *)
Definition set_apply (target : nat) (weak : bool) (p : string)
    (args : list value) (items : list value) : M value :=
  if decide (p = "add") then
    if weak && negb (is_ref (arg 0 args)) then throw (weak_key_error (arg 0 args))
    else store target (OSet weak (set_insert (arg 0 args) items)) ;;;
         ret (VRef target)
  else if decide (p = "delete") then
    store target (OSet weak (set_remove (arg 0 args) items)) ;;;
    ret (VBool (bool_decide (arg 0 args ∈ items)))
  else if decide (p = "clear") then
    if weak then throw TypeError
    else store target (OSet weak []) ;;; ret VUndef
  else if decide (p = "has") then
    ret (VBool (bool_decide (arg 0 args ∈ items)))
  else throw Unmodelled.

(** The methods the [get] trap wraps: [add|delete|clear] on a [Set],
    [add|delete] on a [WeakSet]. *)
Definition set_modifying (weak : bool) (p : string) : bool :=
  bool_decide (p = "add") || bool_decide (p = "delete")
  || (negb weak && bool_decide (p = "clear")).

(** A method call [proxy.p(...args)] on a [Set] or [WeakSet] façade. *)
Definition set_method (proxy : value) (p : string) (args : list value) : M value :=
  let* (target, _) := proxy_parts proxy in
  let* o := deref (VRef target) in
  match o with
  | OSet weak items =>
      if set_modifying weak p then
        (* special case of modifying method *)
        (* execute original method *)
        let* result := set_apply target weak p args items in
        (* trigger observers *)
        (if decide (p = "add") then
           triggerObserver Change proxy (VStr "*") (arg 0 args) VUndef
         else if decide (p = "delete") then
           triggerObserver Change proxy (VStr "*") VUndef (arg 0 args)
         else
           triggerObserver Change proxy (VStr "*") VUndef VUndef) ;;;
        ret result
      else
        (* special case of non-modifying method, bound to the target *)
        set_apply target weak p args items
  | _ => throw Unmodelled
  end.

(** [Array.from(proxy.values())] *)
Definition set_values (proxy : value) : M (list value) :=
  let* (target, _) := proxy_parts proxy in
  let* o := deref (VRef target) in
  match o with
  | OSet _ items => ret items
  | _ => throw Unmodelled
  end.

(** *** Maps *)
(** The built-in methods of [Map] and [WeakMap] that are modelled; the keys
    of a [WeakMap] are objects and it has no [clear]. *)
Definition map_apply (target : nat) (weak : bool) (p : string)
    (args : list value) (entries : list (value * value)) : M value :=
  if decide (p = "set") then
    if weak && negb (is_ref (arg 0 args)) then throw (weak_key_error (arg 0 args))
    else store target (OMap weak (alist_set (arg 0 args) (arg 1 args) entries)) ;;;
         ret (VRef target)
  else if decide (p = "delete") then
    store target (OMap weak (alist_remove (arg 0 args) entries)) ;;;
    ret (VBool (bool_decide (is_Some (alist_get (arg 0 args) entries))))
  else if decide (p = "clear") then
    if weak then throw TypeError
    else store target (OMap weak []) ;;; ret VUndef
  else if decide (p = "get") then
    ret (default VUndef (alist_get (arg 0 args) entries))
  else if decide (p = "has") then
    ret (VBool (bool_decide (is_Some (alist_get (arg 0 args) entries))))
  else throw Unmodelled.

(** The methods the [get] trap wraps: [set|delete|clear] on a [Map],
    [set|delete] on a [WeakMap]. *)
Definition map_modifying (weak : bool) (p : string) : bool :=
  bool_decide (p = "set") || bool_decide (p = "delete")
  || (negb weak && bool_decide (p = "clear")).

(** A method call [proxy.p(...args)] on a [Map] or [WeakMap] façade. *)
Definition map_method (proxy : value) (p : string) (args : list value) : M value :=
  let* (target, _) := proxy_parts proxy in
  let* o := deref (VRef target) in
  match o with
  | OMap weak entries =>
      if map_modifying weak p then
        (* special case of modifying method *)
        (* remember old value *)
        let valueOld :=
          if decide (p = "set") then default VUndef (alist_get (arg 0 args) entries)
          else VUndef in
        (* execute original method *)
        let* result := map_apply target weak p args entries in
        (* trigger observers *)
        (if decide (p = "set") then
           triggerObserver Change proxy (arg 0 args) (arg 1 args) valueOld
         else if decide (p = "delete") then
           triggerObserver Change proxy (arg 0 args) VUndef (arg 1 args)
         else
           triggerObserver Change proxy (VStr "*") VUndef VUndef) ;;;
        ret result
      else
        (* special case of non-modifying method, bound to the target *)
        map_apply target weak p args entries
  | _ => throw Unmodelled
  end.

(** [Array.from(proxy.entries())] *)
Definition map_entries (proxy : value) : M (list (value * value)) :=
  let* (target, _) := proxy_parts proxy in
  let* o := deref (VRef target) in
  match o with
  | OMap _ entries => ret entries
  | _ => throw Unmodelled
  end.

(** *** Typed arrays *)

(** The conversion of an integer to the element type. *)
Definition wrap_unsigned (bits z : Z) : Z := (z `mod` 2 ^ bits)%Z.
Definition wrap_signed (bits z : Z) : Z :=
  ((z + 2 ^ (bits - 1)) `mod` 2 ^ bits - 2 ^ (bits - 1))%Z.

Definition tconv (k : tkind) (z : Z) : Z :=
  match k with
  | Int8 => wrap_signed 8 z
  | Uint8 => wrap_unsigned 8 z
  | Uint8Clamped => Z.max 0 (Z.min 255 z)
  | Int16 => wrap_signed 16 z
  | Uint16 => wrap_unsigned 16 z
  | Int32 => wrap_signed 32 z
  | Uint32 => wrap_unsigned 32 z
  end.

(** The conversion of an argument to an integer; strings and objects are
    not modelled. *)
Definition to_integer (v : value) : M Z :=
  match v with
  | VUndef | VNull => ret 0%Z
  | VBool b => ret (if b then 1 else 0)%Z
  | VNum n => ret n
  | _ => throw Unmodelled
  end.

(** A relative index: negative values count from the end. *)
Definition rel_index (len rel : Z) : Z :=
  if (rel <? 0)%Z then Z.max (len + rel) 0 else Z.min rel len.

(** The bounds [start] and [end] of [slice] and [fill] over [len] elements. *)
Definition bounds (len : nat) (start end_ : value) : M (nat * nat) :=
  let* rs := to_integer start in
  let* re := if decide (end_ = VUndef) then ret (Z.of_nat len) else to_integer end_ in
  ret (Z.to_nat (rel_index (Z.of_nat len) rs), Z.to_nat (rel_index (Z.of_nat len) re)).

(** [this.slice(start, end)] returns a new typed array. *)
Definition typed_slice (this : nat) (start end_ : value) : M value :=
  let* o := deref (VRef this) in
  match o with
  | OTyped k data =>
      let* (from, to) := bounds (length data) start end_ in
      alloc (OTyped k (take (to - from) (drop from data)))
  | _ => throw Unmodelled
  end.

Definition typed_fill (k : tkind) (n : Z) (from to : nat) (data : list Z) : list Z :=
  take from data ++ replicate (to - from) (tconv k n) ++ drop (from + (to - from)) data.

(** The built-in typed array methods that are modelled. *)
Definition typed_apply (this : nat) (p : string) (args : list value) : M value :=
  let* o := deref (VRef this) in
  match o with
  | OTyped k data =>
      if decide (p = "fill") then
        match arg 0 args with
        | VNum n =>
            let* (from, to) := bounds (length data) (arg 1 args) (arg 2 args) in
            store this (OTyped k (typed_fill k n from to data)) ;;;
            ret (VRef this)
        | _ => throw Unmodelled
        end
      else if decide (p = "reverse") then
        store this (OTyped k (reverse data)) ;;; ret (VRef this)
      else throw Unmodelled
  | _ => throw Unmodelled
  end.

(** A call [proxy.p(...args)] of a modifying method of a typed array façade;
    the wrapper is bound to the target, which is its [this]. *)
Definition typed_method (proxy : value) (p : string) (args : list value) : M value :=
  let* (this, _) := proxy_parts proxy in
  (* remember old value *)
  let* valueOld :=
    if decide (p = "fill") then typed_slice this (arg 1 args) (arg 2 args)
    else if decide (p = "reverse") then typed_slice this (VNum 0) VUndef
    else throw Unmodelled in
  (* execute original method *)
  let* result := typed_apply this p args in
  (* trigger observers *)
  (if decide (p = "fill") then
     let* valueNew := typed_slice this (arg 1 args) (arg 2 args) in
     triggerObserver Change proxy (arg 1 args) valueNew valueOld
   else
     triggerObserver Change proxy (VStr (pretty 0)) (VRef this) valueOld) ;;;
  ret result.

(** Reading and writing the element at an index; a typed array cannot
    grow, and the assigned number is converted to the element type. *)
Definition typed_Reflect_get (target : nat) (i : nat) : M value :=
  let* o := deref (VRef target) in
  match o with
  | OTyped _ data => ret (from_option VNum VUndef (data !! i))
  | _ => throw Unmodelled
  end.

Definition typed_Reflect_set (target : nat) (i : nat) (v : value) : M bool :=
  let* o := deref (VRef target) in
  match o, v with
  | OTyped k data, VNum n =>
      store target (OTyped k (<[i := tconv k n]> data)) ;;; ret true
  | _, _ => throw Unmodelled
  end.

(** *** The [set] traps

    The traps wrap an assigned object that is not yet observable, so they
    depend on the function that makes an observable. *)
Section set_traps.
Variable makeObservable : value → value → value → bool → M value.

Definition wrap_assigned (valueNew p receiver : value) (strict : bool) : M value :=
  if decide (typeof valueNew = TObject) then
    let* b := isObservable valueNew in
    if b then ret valueNew
    else makeObservable valueNew p receiver strict
  else ret valueNew.

Definition plain_set_with (proxy : value) (p : string) (valueNew : value) : M bool :=
  let* (target, strict) := proxy_parts proxy in
  let* valueOld := plain_Reflect_get target p in
  let* valueNew := wrap_assigned valueNew (VStr p) proxy strict in
  let* result := plain_Reflect_set target p valueNew in
  triggerObserver Change proxy (VStr p) valueNew valueOld ;;;
  ret result.

Definition array_set_with (proxy : value) (i : nat) (valueNew : value) : M bool :=
  let* (target, strict) := proxy_parts proxy in
  let* valueOld := array_Reflect_get target i in
  let* valueNew := wrap_assigned valueNew (VStr (pretty i)) proxy strict in
  let* result := array_Reflect_set target i valueNew in
  triggerObserver Change proxy (VStr (pretty i)) valueNew valueOld ;;;
  ret result.

Definition typed_set_with (proxy : value) (i : nat) (valueNew : value) : M bool :=
  let* (target, strict) := proxy_parts proxy in
  let* valueOld := typed_Reflect_get target i in
  let* valueNew := wrap_assigned valueNew (VStr (pretty i)) proxy strict in
  let* result := typed_Reflect_set target i valueNew in
  triggerObserver Change proxy (VStr (pretty i)) valueNew valueOld ;;;
  ret result.

(** The passes of [makeObservable] over the content of a new façade, which
    make the contained objects observable, too. *)

(** [for (const item of Array.from(proxy.values()))
       if (typeof item === "object") {
           proxy.delete(item)
           proxy.add(makeObservable(item, "", proxy, strict)) }] *)
Definition wrap_set_member (proxy : value) (strict : bool) (item : value) : M unit :=
  if decide (typeof item = TObject) then
    set_method proxy "delete" [item] ;;;
    let* w := makeObservable item (VStr "") proxy strict in
    set_method proxy "add" [w] ;;;
    ret tt
  else ret tt.

Definition wrap_set_members (proxy : value) (strict : bool) : M unit :=
  let* items := set_values proxy in
  forM items (wrap_set_member proxy strict).

(** [for (const [ key, item ] of Array.from(proxy.entries()))
       if (typeof item === "object") {
           proxy.delete(key)
           proxy.set(key, makeObservable(item, key, proxy, strict)) }] *)
Definition wrap_map_member (proxy : value) (strict : bool)
    (entry : value * value) : M unit :=
  let '(key, item) := entry in
  if decide (typeof item = TObject) then
    map_method proxy "delete" [key] ;;;
    let* w := makeObservable item key proxy strict in
    map_method proxy "set" [key; w] ;;;
    ret tt
  else ret tt.

Definition wrap_map_members (proxy : value) (strict : bool) : M unit :=
  let* items := map_entries proxy in
  forM items (wrap_map_member proxy strict).

(** [for (let i = 0; i < proxy.length; i++)
       if (typeof proxy[i] === "object")
           proxy[i] = makeObservable(proxy[i], String(i), proxy, strict)];
    the assignments leave the length as it is, so it is read once. *)
Definition wrap_array_member (proxy : value) (strict : bool) (i : nat) : M unit :=
  let* item := array_get proxy i in
  if decide (typeof item = TObject) then
    let* item := array_get proxy i in
    let* w := makeObservable item (VStr (pretty i)) proxy strict in
    array_set_with proxy i w ;;;
    ret tt
  else ret tt.

Definition wrap_array_members (proxy : value) (strict : bool) : M unit :=
  let* len := array_length proxy in
  forM (seq 0 len) (wrap_array_member proxy strict).

(** [for (const field of Object.keys(proxy))
       if (typeof proxy[field] === "object")
           proxy[field] = makeObservable(proxy[field], field, proxy, strict)] *)
Definition wrap_plain_member (proxy : value) (strict : bool) (field : string) : M unit :=
  let* item := plain_get proxy field in
  if decide (typeof item = TObject) then
    let* item := plain_get proxy field in
    let* w := makeObservable item (VStr field) proxy strict in
    plain_set_with proxy field w ;;;
    ret tt
  else ret tt.

Definition wrap_plain_members (proxy : value) (strict : bool) : M unit :=
  let* fields := plain_keys proxy in
  forM fields (wrap_plain_member proxy strict).
End set_traps.

(** ** Making an observable *)

Fixpoint makeObservable (fuel : nat) (obj name parent : value) (strict : bool)
    : M value :=
  match fuel with
  | 0 => throw OutOfFuel
  | S fuel' =>
    (* sanity check input *)
    if decide (typeof obj = TObject) then
      (* short-circuit operation *)
      let* registered := observableMap_has obj in
      if registered then ret obj
      else
        (* dispatch proxy creation according to target object type *)
        match obj with
        | VRef a =>
            let* o := deref obj in
            match o with
            | OSet weak _ =>
                let* proxy := alloc (OProxy a strict) in
                addInfo proxy obj name parent ;;;
                (* we cannot iterate over a WeakSet collection *)
                (if weak then ret tt
                 else wrap_set_members (makeObservable fuel') proxy strict) ;;;
                ret proxy
            | OMap weak _ =>
                let* proxy := alloc (OProxy a strict) in
                addInfo proxy obj name parent ;;;
                (* we cannot iterate over a WeakMap collection *)
                (if weak then ret tt
                 else wrap_map_members (makeObservable fuel') proxy strict) ;;;
                ret proxy
            | OTyped _ _ =>
                let* proxy := alloc (OProxy a strict) in
                addInfo proxy obj name parent ;;;
                ret proxy
            | OArray _ =>
                let* proxy := alloc (OProxy a strict) in
                addInfo proxy obj name parent ;;;
                wrap_array_members (makeObservable fuel') proxy strict ;;;
                ret proxy
            | OPlain _ =>
                let* proxy := alloc (OProxy a strict) in
                addInfo proxy obj name parent ;;;
                wrap_plain_members (makeObservable fuel') proxy strict ;;;
                ret proxy
            | OOpaque _ =>
                (* just pass-through standard object types *)
                ret obj
            | OOther =>
                if strict then throw (Error msg_unsupported) else ret obj
            | OProxy _ _ =>
                (* a proxy that this library did not create *)
                throw Unmodelled
            end
        | VNull =>
            (* no [instanceof] test holds, and [Object.getPrototypeOf(null)]
               throws *)
            throw TypeError
        | _ => throw Unmodelled
        end
    else throw (Error msg_convert)
  end.

Definition plain_set (fuel : nat) : value → string → value → M bool :=
  plain_set_with (makeObservable fuel).
Definition array_set (fuel : nat) : value → nat → value → M bool :=
  array_set_with (makeObservable fuel).
Definition typed_set (fuel : nat) : value → nat → value → M bool :=
  typed_set_with (makeObservable fuel).

(** ** The API *)

Definition observable (fuel : nat) (obj : value) (strict : bool) : M value :=
  let* b := isObservable obj in
  if b then ret obj
  else makeObservable fuel obj (VStr "") VNull strict.

Definition raw (observable : value) : M value :=
  let* b := isObservable observable in
  if b then
    let* oi := observableMap_get observable in
    match oi with
    | Some info => ret (info_raw info)
    | None => throw TypeError
    end
  else throw (Error msg_not_observable).

(** The handle of an observer closes over the information context, which is
    identified by the address of its façade, and over the callback. *)
Record Observer : Type := mkObserver {
  observer_info : nat;
  observer_callback : nat
}.

Definition update_info (a : nat) (f : ObservableInfo → ObservableInfo) : M unit :=
  λ s, Ok tt (mkState (heap s) (alter f a (observableMap s)) (calls s)).

Definition observer (observable : value) (callback : nat) : M Observer :=
  let* b := isObservable observable in
  if b then
    let* oi := observableMap_get observable in
    match observable, oi with
    | VRef a, Some info =>
        if decide (callback ∈ info_callbacks info) then
          throw (Error msg_registered)
        else
          (* store observer callback *)
          update_info a (λ info,
            mkInfo (info_raw info) (info_name info) (info_parent info)
              (info_callbacks info ++ [callback])
              (<[callback := false]> (info_paused info))) ;;;
          (* return observer handle *)
          ret (mkObserver a callback)
    | _, _ => throw TypeError
    end
  else throw (Error msg_not_observable).

Definition set_paused (b : bool) (o : Observer) (info : ObservableInfo) : ObservableInfo :=
  mkInfo (info_raw info) (info_name info) (info_parent info)
    (info_callbacks info) (<[observer_callback o := b]> (info_paused info)).

Definition pause (o : Observer) : M unit :=
  update_info (observer_info o) (set_paused true o).

Definition resume (o : Observer) : M unit :=
  update_info (observer_info o) (set_paused false o).

Definition destroy (o : Observer) : M unit :=
  let* s := get_state in
  match observableMap s !! observer_info o with
  | Some info =>
      if decide (observer_callback o ∈ info_callbacks info) then
        update_info (observer_info o) (λ info,
          mkInfo (info_raw info) (info_name info) (info_parent info)
            (filter (λ c, c ≠ observer_callback o) (info_callbacks info))
            (info_paused info))
      else throw (Error msg_not_registered)
  | None => throw Unmodelled
  end.

(** ** Running a program *)

(** The state a computation leaves behind, and the value it returns. *)
Definition final {A} (r : result A) : state :=
  match r with Ok _ s => s | Throw _ s => s end.

Definition returned {A} (r : result A) : option A :=
  match r with Ok a _ => Some a | Throw _ _ => None end.

(** ** Scenario: bubbling through a three-level record *)

(** The record [{a: {b: {c: 1}}}]: the innermost object at address 0, the
    middle one at 1 and the root at 2. *)
Definition nested_record : state :=
  mkState [OPlain [("c", VNum 1)]; OPlain [("b", VRef 0)]; OPlain [("a", VRef 1)]]
          ∅ [].

(** Wrap the root, register callback 1 on the root façade and callback 2 on
    the middle façade [root.a], then run [root.a.b.c = 2]. *)
Definition bubbling : M unit :=
  let* root := observable 4 (VRef 2) true in
  let* _ := observer root 1 in
  let* middle := plain_get root "a" in
  let* _ := observer middle 2 in
  let* inner := plain_get middle "b" in
  plain_set 4 inner "c" (VNum 2) ;;;
  ret tt.

(** The same program with the second observer on the innermost façade
    [root.a.b]. *)
Definition bubbling_innermost : M unit :=
  let* root := observable 4 (VRef 2) true in
  let* _ := observer root 1 in
  let* middle := plain_get root "a" in
  let* inner := plain_get middle "b" in
  let* _ := observer inner 2 in
  plain_set 4 inner "c" (VNum 2) ;;;
  ret tt.


(** ** Scenario: deleting a key of a [Map] *)

(** The map [{"k" → 5}], wrapped, with callback 1 observing it; then
    [m.delete("k")]. *)
Definition keyed_collection : state :=
  mkState [OMap false [(VStr "k", VNum 5)]] ∅ [].

Definition delete_present_key : M value :=
  let* m := observable 2 (VRef 0) true in
  let* _ := observer m 1 in
  map_method m "delete" [VStr "k"].

(** ** Scenario: appending to and removing from the end of an array *)

(** The array [[1, 2]], wrapped, with callback 1 observing it; then
    [q.push(3)] and [q.pop()]. *)
Definition sequence : state :=
  mkState [OArray [VNum 1; VNum 2]] ∅ [].

Definition append_at_end : M value :=
  let* q := observable 2 (VRef 0) true in
  let* _ := observer q 1 in
  array_method q "push" [VNum 3].

Definition append_then_remove : M value :=
  let* q := observable 2 (VRef 0) true in
  let* _ := observer q 1 in
  array_method q "push" [VNum 3] ;;;
  array_method q "pop" [].

(** ** Scenario: filling a range of a typed array *)

(** The [Uint8Array] [[1, 2, 3]], wrapped, with callback 1 observing it;
    then [b.fill(7, 1, 3)]. *)
Definition numeric_buffer : state :=
  mkState [OTyped Uint8 [1; 2; 3]%Z] ∅ [].

Definition fill_range : M value :=
  let* b := observable 2 (VRef 0) true in
  let* _ := observer b 1 in
  typed_method b "fill" [VNum 7; VNum 1; VNum 3].

(** The same buffer as the member [h] of a record, observed at the root. *)
Definition record_with_buffer : state :=
  mkState [OTyped Uint8 [1; 2; 3]%Z; OPlain [("h", VRef 0)]] ∅ [].

Definition fill_range_nested : M value :=
  let* root := observable 3 (VRef 1) true in
  let* _ := observer root 1 in
  let* b := plain_get root "h" in
  typed_method b "fill" [VNum 7; VNum 1; VNum 3].

(** ** Scenario: an observed empty record *)

(** The empty record [{}], wrapped; its façade is at address 1. *)
Definition observed_record : state :=
  final (observable 2 (VRef 0) true (mkState [OPlain []] ∅ [])).

(** ** Scenario: wrapping a raw value twice *)

(** The empty record [{}], not wrapped. *)
Definition raw_record : state := mkState [OPlain []] ∅ [].

Definition wrap_twice : M (value * value) :=
  let* p1 := observable 2 (VRef 0) true in
  let* p2 := observable 2 (VRef 0) true in
  ret (p1, p2).

(** ** Scenario: [null] as a member

    Assigning [null] to a property of the wrapped empty record, and wrapping
    the record [{a: null}]. *)
Definition assign_null : M bool :=
  let* r := observable 2 (VRef 0) true in
  plain_set 2 r "x" VNull.

Definition record_with_null : state := mkState [OPlain [("a", VNull)]] ∅ [].

(** ** Scenario: a [Date] *)

Definition a_date : state := mkState [OOpaque KDate] ∅ [].

Definition wrap_date_is_wrapped : M bool :=
  let* p := observable 2 (VRef 0) true in
  isObservable p.

Definition unwrap_wrapped_date : M value :=
  let* p := observable 2 (VRef 0) true in
  raw p.

(** ** Scenario: a record that holds a [WeakMap]

    The record [{m: wm}] at address 3, where the [WeakMap] [wm] at address 2
    maps the key object at address 0 to the plain object at address 1. *)
Definition record_with_weakmap : state :=
  mkState [OPlain []; OPlain [("n", VNum 1)]; OMap true [(VRef 0, VRef 1)];
           OPlain [("m", VRef 2)]] ∅ [].

(** Wrap the root and read [root.m.get(key)] through the façades; is the
    value observable? *)
Definition weakmap_value_is_wrapped : M bool :=
  let* root := observable 3 (VRef 3) true in
  let* wm := plain_get root "m" in
  let* d := map_method wm "get" [VRef 0] in
  isObservable d.

(** ** Scenario: a record that holds a façade with a raw element

    The array at address 1 is wrapped (its façade is at address 3) and the
    record at address 0 is appended to it through the façade, which stores
    its argument as it is.  The record [{q: façade}] at address 2 is
    wrapped afterwards, and [root.q[0]] is read through the façades. *)
Definition record_with_pushed : state :=
  mkState [OPlain []; OArray []; OPlain [("q", VRef 3)]] ∅ [].

Definition push_raw_element : M unit :=
  let* q := observable 3 (VRef 1) true in
  array_method q "push" [VRef 0] ;;;
  ret tt.

Definition pushed_state : state := final (push_raw_element record_with_pushed).

Definition pushed_element_is_wrapped : M (value * value * bool) :=
  let* root := observable 3 (VRef 2) true in
  let* q := plain_get root "q" in
  let* d := array_get q 0 in
  let* b := isObservable d in
  ret (root, d, b).

(** ** Scenario: the structure of the repository's test

    The object of the test "basic usage", without its [Float32Array]: the
    root record at address 12 holds scalars, a nested record, an array with
    a nested array, a [Set] and a [Map] with an array member, a typed array,
    a [RegExp] and a [Date].  Every object lives at a higher address than
    its members, so the successor of the address is a rank. *)
Definition sample_structure : state :=
  mkState
    [ OPlain [("d3", VStr "foo")];
      OPlain [("d2", VRef 0)];
      OPlain [("d1", VRef 1)];
      OArray [VNum 1; VNum 2; VNum 3];
      OArray [VNum 7; VNum 42; VRef 3];
      OArray [VNum 1; VNum 2; VNum 3];
      OSet false [VNum 7; VNum 42; VRef 5];
      OArray [VNum 1; VNum 2; VNum 3];
      OMap false [(VStr "g1", VNum 7); (VStr "g2", VNum 42); (VStr "g3", VRef 7)];
      OTyped Uint8 [1; 2; 3]%Z;
      OOpaque KRegExp;
      OOpaque KDate;
      OPlain [("a", VBool true); ("b", VNum 1); ("c", VStr "foo");
              ("d", VRef 2); ("e", VRef 4); ("f", VRef 6); ("g", VRef 8);
              ("h", VRef 9); ("j", VRef 10); ("k", VRef 11)] ]
    ∅ [].

Definition sample_root : obj :=
  OPlain [("a", VBool true); ("b", VNum 1); ("c", VStr "foo");
          ("d", VRef 2); ("e", VRef 4); ("f", VRef 6); ("g", VRef 8);
          ("h", VRef 9); ("j", VRef 10); ("k", VRef 11)].

(** The statements of the test: callback 1 observes the root façade and
    callback 2 the façade [objO.d.d1]. *)
Definition basic_usage : M unit :=
  let* objO := observable 14 (VRef 12) true in
  let* _ := observer objO 1 in
  let* d := plain_get objO "d" in
  let* d1 := plain_get d "d1" in
  let* _ := observer d1 2 in
  plain_set 14 objO "a" (VBool false) ;;;
  plain_set 14 objO "b" (VNum 2) ;;;
  plain_set 14 objO "c" (VStr "bar") ;;;
  let* d2 := plain_get d1 "d2" in
  plain_set 14 d2 "d3" (VStr "bar") ;;;
  let* e := plain_get objO "e" in
  array_deleteProperty e 2 ;;;
  let* f := plain_get objO "f" in
  set_method f "add" [VNum 7] ;;;
  let* g := plain_get objO "g" in
  map_method g "set" [VStr "g4"; VNum 0] ;;;
  let* h := plain_get objO "h" in
  typed_method h "fill" [VNum 7; VNum 1; VNum 3] ;;;
  typed_set 14 h 2 (VNum 8) ;;;
  ret tt.

(** ** Scenario: assigning a nested record below an observed root

    The record [{a: {}}] is wrapped and callback 7 is registered on its
    root façade (address 5; the façade of [a] is at address 6).  The raw
    record [{y: {z: {}}, n: 0}] at address 4 is ready to be assigned to
    [root.a.x]. *)
Definition assign_scene : state :=
  final ((let* root := observable 3 (VRef 1) true in observer root 7)
           (mkState [ OPlain []; OPlain [("a", VRef 0)];
                      OPlain [];
                      OPlain [("z", VRef 2)];
                      OPlain [("y", VRef 3); ("n", VNum 0)] ] ∅ [])).

Definition assign_nested : M bool :=
  plain_set 6 (VRef 6) "x" (VRef 4).

(** ** Well-formed states *)

(** The kind of an object: the object without its members. *)
Definition shape (o : obj) : obj :=
  match o with
  | OPlain _ => OPlain []
  | OArray _ => OArray []
  | OSet weak _ => OSet weak []
  | OMap weak _ => OMap weak []
  | o => o
  end.

(** The members of an object that [makeObservable] visits: the property
    values of a plain object, the elements of an array, the members of a
    [Set] and the values of a [Map]; it does not iterate a [WeakSet] or a
    [WeakMap]. *)
Definition members (o : obj) : list value :=
  match o with
  | OPlain props => props.*2
  | OArray elems => elems
  | OSet false items => items
  | OMap false entries => entries.*2
  | _ => []
  end.

(** The kinds that get a façade, and the kinds that are passed through. *)
Definition container (o : obj) : bool :=
  match o with
  | OPlain _ | OArray _ | OSet _ _ | OMap _ _ | OTyped _ _ => true
  | _ => false
  end.

Definition passthrough (strict : bool) (o : obj) : bool :=
  match o with
  | OOpaque _ => true
  | OOther => negb strict
  | _ => false
  end.

Definition supported (strict : bool) (o : obj) : bool :=
  container o || passthrough strict o.

(** The values [String] converts, and those a template literal converts. *)
Definition nameable (v : value) : bool :=
  match v with VFun _ | VRef _ => false | _ => true end.

Definition printable (v : value) : bool :=
  match v with VSym _ | VFun _ | VRef _ => false | _ => true end.

Definition is_registered (s : state) (a : nat) : bool :=
  match observableMap s !! a with Some _ => true | None => false end.

(** The state with more callback invocations logged. *)
Definition add_calls (l : list (nat * Observation)) (s : state) : state :=
  mkState (heap s) (observableMap s) (calls s ++ l).

(** The invocations at one façade: its callbacks that are not paused, in
    registration order. *)
Definition deliveries (info : ObservableInfo) (o : Observation)
    : list (nat * Observation) :=
  (λ cb, (cb, o)) <$>
    filter (λ cb, default false (info_paused info !! cb) = false)
           (info_callbacks info).

(** The state after a proxy of [x] has been created and registered, and the
    state after the object at [x] has been replaced. *)
Definition with_proxy (x : nat) (st : bool) (info : ObservableInfo) (s : state) : state :=
  mkState (heap s ++ [OProxy x st])
          (<[length (heap s) := info]> (observableMap s))
          (calls s).

Definition with_obj (x : nat) (o : obj) (s : state) : state :=
  mkState (<[x := o]> (heap s)) (observableMap s) (calls s).

(** The callback [cb] is registered on the façade [A] and not paused. *)
Definition active (om : gmap nat ObservableInfo) (A : value) (cb : nat) : Prop :=
  ∃ a info, A = VRef a ∧ om !! a = Some info ∧
            cb ∈ info_callbacks info ∧
            default false (info_paused info !! cb) = false.

(** [bubbles om t p A q]: in the registry [om], an event with the path [p]
    at the façade [t] reaches the ancestor [A] with the path [q]. *)
Inductive bubbles (om : gmap nat ObservableInfo) :
    value → value → value → value → Prop :=
  | bubbles_here t p : bubbles om t p t p
  | bubbles_up a info n ps p A q :
      om !! a = Some info →
      info_parent info ≠ VNull →
      to_String (info_name info) = Some n →
      printable p = true →
      to_String p = Some ps →
      bubbles om (info_parent info) (VStr (n +:+ "." +:+ ps)) A q →
      bubbles om (VRef a) p A q.

Section invariants.
(** A rank on the addresses: the members of an object that are not yet
    observable have a smaller rank than the object, so the object graph
    that [makeObservable] walks has no cycle.  Objects of rank 0 are
    outside the part of the heap that is walked. *)
Variable rk : nat → nat.
Variable strict : bool.

(** A member [c] of an object of rank [r] can be made observable: it is
    not [null], and if it is an object it is registered or it is of a
    supported kind and of a smaller rank. *)
Definition okchild (s : state) (r : nat) (c : value) : bool :=
  match c with
  | VRef b =>
      is_registered s b
      || match heap s !! b with
         | Some o => supported strict o && (0 <? rk b) && (rk b <? r)
         | None => false
         end
  | VNull => false
  | _ => true
  end.

(** A member that needs no wrapping: a value that is not an object, a
    façade, or an object that is passed through. *)
Definition settled (s : state) (c : value) : bool :=
  match c with
  | VRef b =>
      is_registered s b
      || match heap s !! b with
         | Some o => passthrough strict o
         | None => false
         end
  | VNull => false
  | _ => true
  end.

(** The property keys of a plain object are distinct; the key of a [Map]
    entry that holds an object can be converted in a template literal. *)
Definition wf_obj (o : obj) : bool :=
  match o with
  | OPlain props => bool_decide (NoDup props.*1)
  | OMap false entries =>
      forallb (λ e, negb (bool_decide (typeof e.2 = TObject)) || printable e.1)
              entries
  | _ => true
  end.

(** The parent of a façade is [null] or an older façade, and then the name
    of the façade can be converted by [String]. *)
Definition parent_ok (s : state) (a : nat) (info : ObservableInfo) : bool :=
  match info_parent info with
  | VNull => true
  | VRef p => (p <? a) && is_registered s p && nameable (info_name info)
  | _ => false
  end.

(** The invariant of the state; [pend] lists the façades that are under
    construction, whose members are not yet all settled. *)
Record Inv (pend : list nat) (s : state) : Prop := {
  inv_reg : ∀ a info,
    observableMap s !! a = Some info →
    a < length (heap s) ∧ parent_ok s a info;
  inv_obj : ∀ a o,
    heap s !! a = Some o → 0 < rk a →
    wf_obj o ∧ Forall (λ c, okchild s (rk a) c) (members o);
  inv_settled : ∀ a t st o,
    is_registered s a → heap s !! a = Some (OProxy t st) → a ∉ pend →
    heap s !! t = Some o →
    Forall (λ c, settled s c) (members o)
}.

(** The invariant as a check that computes. *)
Definition check_reg (s : state) : bool :=
  forallb (λ e, (e.1 <? length (heap s)) && parent_ok s e.1 e.2)
          (map_to_list (observableMap s)).

Definition check_obj (s : state) : bool :=
  forallb (λ e, (rk e.1 =? 0)
                || (wf_obj e.2 && forallb (okchild s (rk e.1)) (members e.2)))
          (imap pair (heap s)).

Definition check_settled (s : state) : bool :=
  forallb (λ e, match heap s !! e.1 with
                | Some (OProxy t _) =>
                    match heap s !! t with
                    | Some o => forallb (settled s) (members o)
                    | None => true
                    end
                | _ => true
                end)
          (map_to_list (observableMap s)).

(** A well-formed state: the registry and the objects pass the check.  In
    a fully observable state the members of every façade are settled, too. *)
Definition well_formed (s : state) : bool :=
  check_reg s && check_obj s.

Definition wf_state (s : state) : bool :=
  well_formed s && check_settled s.

(** [ext r s s']: the state [s'] extends [s] by a run that only modified
    objects of a rank between 0 and [r], both excluded. *)
Record ext (r : nat) (s s' : state) : Prop := {
  ext_len : length (heap s) ≤ length (heap s');
  ext_map : ∀ a,
    a < length (heap s) → observableMap s' !! a = observableMap s !! a;
  ext_shape : ∀ a o,
    heap s !! a = Some o → ∃ o', heap s' !! a = Some o' ∧ shape o' = shape o;
  ext_frame : ∀ a o,
    heap s !! a = Some o → rk a = 0 ∨ r ≤ rk a → heap s' !! a = Some o;
  ext_calls : calls s `prefix_of` calls s'
}.

(** The arguments [name] and [parent] of [makeObservable]. *)
Definition parent_arg_ok (s : state) (name parent : value) : bool :=
  match parent with
  | VNull => true
  | VRef p => is_registered s p && nameable name
  | _ => false
  end.

(** The slots of an object that are assigned through the [set] trap of its
    façade: the properties of a plain object and the elements of an array,
    under their keys. *)
Definition slots (o : obj) : list (string * value) :=
  match o with
  | OPlain props => props
  | OArray elems => imap (λ i c, (pretty i, c)) elems
  | _ => []
  end.

(** What a call [makeObservable(obj, name, parent, strict)] on the object
    at [x] returns: a façade is returned as it is, an object that is
    passed through as well, and a container gets a new façade, which is
    registered with [obj], [name] and [parent].  While the new façade of a
    plain object or an array is built, every slot that holds an object
    fires a change event, which is seen by the active callbacks of the
    ancestors. *)
Definition member_events (s : state) (x : nat) (info : ObservableInfo)
    (s' : state) : Prop :=
  ∀ o, heap s !! x = Some o →
    ∃ L, calls s' = calls s ++ L ∧
      ∀ f c A q cb,
        (f, c) ∈ slots o → typeof c = TObject →
        bubbles (<[length (heap s) := info]> (observableMap s))
                (VRef (length (heap s))) (VStr f) A q →
        active (observableMap s) A cb →
        ∃ w, (cb, mkObservation Change A q w c) ∈ L.

Definition outcome (s : state) (x : nat) (name parent : value)
    (w : value) (s' : state) : Prop :=
  if is_registered s x then w = VRef x ∧ s' = s
  else
    match heap s !! x with
    | Some o =>
        if passthrough strict o then w = VRef x ∧ s' = s
        else
          w = VRef (length (heap s)) ∧
          observableMap s' !! length (heap s) =
            Some (mkInfo (VRef x) name parent [] ∅) ∧
          heap s' !! length (heap s) = Some (OProxy x strict) ∧
          member_events s x (mkInfo (VRef x) name parent [] ∅) s'
    | None => False
    end.

(** The specification of [makeObservable] with the fuel [n]. *)
Definition mk_spec (n : nat) : Prop :=
  ∀ x name parent s r pend,
    Inv pend s →
    okchild s r (VRef x) →
    r ≤ n → 0 < n →
    parent_arg_ok s name parent →
    ∃ w s',
      makeObservable n (VRef x) name parent strict s = Ok w s' ∧
      Inv pend s' ∧ ext r s s' ∧ outcome s x name parent w s'.
End invariants.

(** ** Reachability through a façade *)

(** [reach s v d]: the value [d] is reached from the façade [v] by reading
    members through façades. *)
Inductive reach (s : state) : value → value → Prop :=
  | reach_here v : reach s v v
  | reach_member a t st o c d :
      is_registered s a →
      heap s !! a = Some (OProxy t st) →
      heap s !! t = Some o →
      c ∈ members o →
      reach s c d →
      reach s (VRef a) d.

(** ** The events of an operation *)

(** The registry is in order: every façade is an object of the heap, and
    its parent link leads to an older façade. *)
Definition registry_ok (s : state) : Prop :=
  ∀ a info, observableMap s !! a = Some info →
            a < length (heap s) ∧ parent_ok s a info.

(** [reaches om type t path vn vo (cb, o)]: the invocation of [cb] with [o]
    is due to an event of the kind [type] with the values [vn] and [vo]
    that was triggered at the façade [t] with the path [path]: [o] is that
    event as it is seen from a façade [A] the event bubbles to, and [cb] is
    an active callback of [A]. *)
Definition reaches (om : gmap nat ObservableInfo) (type : otype)
    (t path vn vo : value) (e : nat * Observation) : Prop :=
  ∃ A q, e.2 = mkObservation type A q vn vo ∧
         bubbles om t path A q ∧ active om A e.1.

(** [fires s m type path vn vo L]: the call log [L] is that of one event
    triggered at the façade [m]: the callbacks of [m] that are not paused
    are invoked first, in registration order, the invocations at other
    façades follow (none when [m] has no parent), and an invocation is
    logged exactly when the event bubbles to an active callback. *)
Definition fires (s : state) (m : nat) (type : otype) (path vn vo : value)
    (L : list (nat * Observation)) : Prop :=
  (∃ info L',
     observableMap s !! m = Some info ∧
     L = deliveries info (mkObservation type (VRef m) path vn vo) ++ L' ∧
     (info_parent info = VNull → L' = []) ∧
     ∀ e, e ∈ L' → o_target e.2 ≠ VRef m) ∧
  ∀ e, e ∈ L ↔ reaches (observableMap s) type (VRef m) path vn vo e.

(** ** Scenario: observers on two levels

    The record [{a: {b: {c: 1}}}], wrapped (the façades of the root, of
    [root.a] and of [root.a.b] are at the addresses 3, 4 and 5), with
    callback 1 on the root façade and callback 2 on the façade of
    [root.a]. *)
Definition two_observers : state :=
  final ((let* root := observable 4 (VRef 2) true in
          let* _ := observer root 1 in
          let* middle := plain_get root "a" in
          let* _ := observer middle 2 in
          ret tt) nested_record).

(** ** Scenario: the observed structure of the repository's test

    The structure of the test, wrapped, with callback 1 on the root façade
    (address 13).  The façades of the array [e], the [Set] [f], the [Map]
    [g] and the typed array [h] are at the addresses 17, 19, 21 and 23,
    over the raw objects at 4, 6, 8 and 9. *)
Definition observed_sample : state :=
  final ((let* objO := observable 14 (VRef 12) true in
          let* _ := observer objO 1 in
          ret tt) sample_structure).

(** A value that a [set] trap stores as it is, without a call of
    [makeObservable]: a value that is not an object, or a façade. *)
Definition as_is (s : state) (v : value) : bool :=
  match v with
  | VRef b => is_registered s b
  | VNull => false
  | _ => true
  end.

(** The [get] trap of a typed array façade at an index: the property is
    not a function, so the trap returns [Reflect.get(target, p, receiver)]. *)
Definition typed_get (proxy : value) (i : nat) : M value :=
  let* (target, _) := proxy_parts proxy in
  typed_Reflect_get target i.

(** An update of the information context of one façade that keeps its
    name and its parent. *)
Definition keeps_links (g : ObservableInfo → ObservableInfo) : Prop :=
  ∀ i, info_name (g i) = info_name i ∧ info_parent (g i) = info_parent i.

(** [grows s s']: the state [s'] is [s] after a run that may have added
    objects and façades and changed the members of objects: every object of
    [s] is still there and of the same kind, the information context of
    every façade of [s] is as it was, and the call log has only been
    extended. *)
Record grows (s s' : state) : Prop := {
  grows_len : length (heap s) ≤ length (heap s');
  grows_map : ∀ a,
    a < length (heap s) → observableMap s' !! a = observableMap s !! a;
  grows_shape : ∀ a o,
    heap s !! a = Some o → ∃ o', heap s' !! a = Some o' ∧ shape o' = shape o;
  grows_calls : calls s `prefix_of` calls s'
}.

(** A computation whose runs, returning or throwing, only let the state
    grow. *)
Definition keeps {A} (m : M A) : Prop := ∀ s, grows s (final (m s)).

(** ** Scenario: a record that holds an instance of another class

    The record [{n: 1, o: obj}] at address 1, where [obj], at address 0, is
    an instance of a class that is neither a collection nor passed
    through. *)
Definition record_with_instance : state :=
  mkState [OOther; OPlain [("n", VNum 1); ("o", VRef 0)]] ∅ [].


(** ** The part of a structure that a wrap walks *)

(** The member [c] is entered by [makeObservable]: it is an object that is
    not yet observable and of a kind that gets a façade. *)
Definition enters (s : state) (c : value) : option nat :=
  match c with
  | VRef b =>
      if is_registered s b then None
      else match heap s !! b with
           | Some o => if container o then Some b else None
           | None => None
           end
  | _ => None
  end.

(** The raw objects that get a façade when the object at [x] is wrapped
    with the fuel [n]: the object itself and, member by member, the objects
    that are entered below it. *)
Fixpoint nodes (n : nat) (s : state) (x : nat) : list nat :=
  match n with
  | 0 => []
  | S n' =>
      x :: match heap s !! x with
           | Some o =>
               flat_map (λ c, match enters s c with
                              | Some b => nodes n' s b
                              | None => []
                              end) (members o)
           | None => []
           end
  end.

(** The slots that are assigned through the [set] trap of a new façade
    while the object at [x] is wrapped, in the order of the assignments,
    each with its path relative to the façade of [x] and its content
    before the wrap: for every slot that holds an object, first the slots
    below the member, when the member is entered, then the slot itself. *)
Definition slot_event (below : nat → list (string * value)) (s : state)
    (fc : string * value) : list (string * value) :=
  if decide (typeof fc.2 = TObject) then
    match enters s fc.2 with
    | Some b => (λ pv, (fc.1 +:+ "." +:+ pv.1, pv.2)) <$> below b
    | None => []
    end ++ [fc]
  else [].

Fixpoint slot_events (n : nat) (s : state) (x : nat) : list (string * value) :=
  match n with
  | 0 => []
  | S n' =>
      match heap s !! x with
      | Some o => flat_map (slot_event (slot_events n' s) s) (slots o)
      | None => []
      end
  end.

(** The members of the walked objects are replaced through [set] traps
    only: a [Set] or a [Map] that is walked holds no object, whose
    replacement would go through [delete] and [add] or [set]. *)
Definition quiet (o : obj) : bool :=
  match o with
  | OPlain _ | OArray _ => true
  | _ => forallb (λ c, negb (bool_decide (typeof c = TObject))) (members o)
  end.

Fixpoint set_traps_only (n : nat) (s : state) (x : nat) : bool :=
  match n with
  | 0 => true
  | S n' =>
      match heap s !! x with
      | Some o =>
          quiet o &&
          forallb (λ c, match enters s c with
                        | Some b => set_traps_only n' s b
                        | None => true
                        end) (members o)
      | None => true
      end
  end.

(** The invocations of the callback [cb] at the façade [A] in a call
    log. *)
Definition seen_by (cb A : nat) (L : list (nat * Observation))
    : list (nat * Observation) :=
  filter (λ e, e.1 = cb ∧ o_target e.2 = VRef A) L.

(** [wrapped_as strict s c w]: in the state [s], the value [w] is what the
    wrap puts in the place of the object [c] in a slot: [w] is observable
    or passed through, and it is [c] itself or a façade around [c]. *)
Definition wrapped_as (strict : bool) (s : state) (c w : value) : Prop :=
  settled strict s w ∧
  (w = c ∨
   ∃ a b, c = VRef b ∧ w = VRef a ∧ heap s !! a = Some (OProxy b strict)).

(** The log of a callback that sees the events of the slots [E], one
    change event for each in their order, under the path prefix [pre]:
    the old value is the former content of the slot and the new value is
    what the wrap has put in its place, as the final state [s] has it. *)
Definition slot_log (strict : bool) (s : state) (cb A : nat) (pre : string)
    (L : list (nat * Observation)) (E : list (string * value)) : Prop :=
  Forall2 (λ e pv, ∃ w, e = (cb, mkObservation Change (VRef A)
                                 (VStr (pre +:+ pv.1)) w pv.2) ∧
                        wrapped_as strict s pv.2 w) L E.

(** The objects walked, and the check of the walk, below a member. *)
Definition nodes_of (n : nat) (s : state) (c : value) : list nat :=
  match enters s c with Some b => nodes n s b | None => [] end.

Definition traps_of (n : nat) (s : state) (c : value) : bool :=
  match enters s c with Some b => set_traps_only n s b | None => true end.

Definition events_of (n : nat) (s : state) (c : value) : list (string * value) :=
  match enters s c with Some b => slot_events n s b | None => [] end.

(** The statement about the events of a call of [makeObservable] with the
    fuel [n], as the callback [cb] of the façade [A] sees them: the call
    is made for the member [nm] of the façade [pm], whose events reach
    [A] with the path prefix [pre]. *)
Section log_spec.
Variable rk : nat → nat.
Variable strict : bool.
Variable cb A : nat.
Variable infoA : ObservableInfo.

Definition log_spec (n : nat) : Prop :=
  ∀ x nm pm pre s r pend,
    Inv rk strict pend s →
    enters s (VRef x) = Some x →
    okchild rk strict s r (VRef x) →
    r ≤ n → 0 < n →
    is_registered s pm →
    (∀ p, bubbles (observableMap s) (VRef pm) (VStr (nm +:+ "." +:+ p))
            (VRef A) (VStr (pre +:+ p))) →
    observableMap s !! A = Some infoA →
    set_traps_only n s x = true →
    NoDup (nodes n s x) →
    ∃ s' L,
      makeObservable n (VRef x) (VStr nm) (VRef pm) strict s =
        Ok (VRef (length (heap s))) s' ∧
      calls s' = calls s ++ L ∧
      slot_log strict s' cb A pre (seen_by cb A L) (slot_events n s x) ∧
      (∀ a o, heap s !! a = Some o → a ∉ nodes n s x → heap s' !! a = Some o).
End log_spec.

(** ** Inherited properties *)

(** The properties of [Object.prototype]: a plain object whose prototype
    is [Object.prototype] inherits them, so reading one of these names
    gives the inherited value when the object has no property of its own
    with the name, and [__proto__] is an accessor.  The embedding of a
    plain object holds its own properties only; statements about reading,
    assigning or deleting a property with an arbitrary name are made for
    the names that the object has itself or that are not inherited. *)
Definition Object_prototype_names : list string :=
  [ "constructor"; "__defineGetter__"; "__defineSetter__"; "hasOwnProperty";
    "__lookupGetter__"; "__lookupSetter__"; "isPrototypeOf";
    "propertyIsEnumerable"; "toString"; "valueOf"; "__proto__";
    "toLocaleString" ].

Definition inherited_name (k : string) : bool :=
  bool_decide (k ∈ Object_prototype_names).

Definition own_key (k : string) (props : list (string * value)) : bool :=
  bool_decide (k ∈ props.*1).

(** [Object.keys] lists the properties whose name is an array index first,
    in the order of the indices, and the other names in the order of their
    creation.  A name that is an array index starts with a digit; the
    order of the properties of a record is stated for the other names. *)
Definition index_like (k : string) : bool :=
  match k with
  | String c _ =>
      (48 <=? Ascii.nat_of_ascii c) && (Ascii.nat_of_ascii c <=? 57)
  | EmptyString => false
  end.
(** ** Basic facts about the monad *)

Lemma bind_Ok {A B} (m : M A) (f : A → M B) s b s' :
  bind m f s = Ok b s' ↔ ∃ a s1, m s = Ok a s1 ∧ f a s1 = Ok b s'.
Proof.
  unfold bind. split.
  - destruct (m s) as [a s1|e s1] eqn:E; [eauto | discriminate].
  - intros (a & s1 & -> & Hf). exact Hf.
Qed.

Lemma bind_eq {A B} (m : M A) (f : A → M B) s a s1 :
  m s = Ok a s1 → bind m f s = f a s1.
Proof. unfold bind. by intros ->. Qed.

Lemma bind_throw {A B} (m : M A) (f : A → M B) s e s1 :
  m s = Throw e s1 → bind m f s = Throw e s1.
Proof. unfold bind. by intros ->. Qed.

(** C1, as stated, fails: the middle observer does not receive the path
    ["c"] followed by the root observer receiving ["b.c"].  The root façade
    is at address 3 and the middle façade at address 4. *)
Lemma bubbling_paths_as_stated_fail :
  calls (final (bubbling nested_record)) ≠
    [ (2, mkObservation Change (VRef 4) (VStr "c") (VNum 2) (VNum 1));
      (1, mkObservation Change (VRef 3) (VStr "b.c") (VNum 2) (VNum 1)) ].
Proof. vm_compute. intros [=]. Qed.

(** C1, amended: setting [c] to 2 yields exactly two events, innermost
    first: the middle observer receives a change with the path ["b.c"], then
    the root observer receives a change with the path ["a.b.c"]; both carry
    the old value 1 and the new value 2. *)
Theorem bubbling_paths :
  bubbling nested_record =
    Ok tt (final (bubbling nested_record)) ∧
  calls (final (bubbling nested_record)) =
    [ (2, mkObservation Change (VRef 4) (VStr "b.c") (VNum 2) (VNum 1));
      (1, mkObservation Change (VRef 3) (VStr "a.b.c") (VNum 2) (VNum 1)) ].
Proof. split; vm_compute; reflexivity. Qed.

(** With the second observer on the innermost façade (address 5) the root
    observer still receives the full path ["a.b.c"]. *)
Lemma bubbling_innermost_paths :
  calls (final (bubbling_innermost nested_record)) =
    [ (2, mkObservation Change (VRef 5) (VStr "c") (VNum 2) (VNum 1));
      (1, mkObservation Change (VRef 3) (VStr "a.b.c") (VNum 2) (VNum 1)) ].
Proof. vm_compute. reflexivity. Qed.

(** ** The repository's test

    The embedding reproduces the observations that the test "basic usage"
    expects, in their order (the statement on the [Float32Array] left out):
    the root façade is at address 13, [objO.d.d1] at 15, the façade of the
    deleted element [objO.e[2]] at 18, and the slices of the typed array at
    24 and 25. *)
Lemma basic_usage_test :
  basic_usage sample_structure = Ok tt (final (basic_usage sample_structure)) ∧
  calls (final (basic_usage sample_structure)) =
    [ (1, mkObservation Change (VRef 13) (VStr "a") (VBool false) (VBool true));
      (1, mkObservation Change (VRef 13) (VStr "b") (VNum 2) (VNum 1));
      (1, mkObservation Change (VRef 13) (VStr "c") (VStr "bar") (VStr "foo"));
      (2, mkObservation Change (VRef 15) (VStr "d2.d3") (VStr "bar") (VStr "foo"));
      (1, mkObservation Change (VRef 13) (VStr "d.d1.d2.d3") (VStr "bar") (VStr "foo"));
      (1, mkObservation Delete (VRef 13) (VStr "e.2") VUndef (VRef 18));
      (1, mkObservation Change (VRef 13) (VStr "f.*") (VNum 7) VUndef);
      (1, mkObservation Change (VRef 13) (VStr "g.g4") (VNum 0) VUndef);
      (1, mkObservation Change (VRef 13) (VStr "h.1") (VRef 25) (VRef 24));
      (1, mkObservation Change (VRef 13) (VStr "h.2") (VNum 8) (VNum 7)) ] ∧
  heap (final (basic_usage sample_structure)) !! 24 = Some (OTyped Uint8 [2; 3]%Z) ∧
  heap (final (basic_usage sample_structure)) !! 25 = Some (OTyped Uint8 [7; 7]%Z).
Proof. repeat split; vm_compute; reflexivity. Qed.

(** ** Scenario: deleting a key of a [Map] *)

(** C4 at the failing input: [delete("k")] on the façade of the map
    [{"k" → 5}] fires one change event whose path is the key, but whose
    [valueOld] is [undefined] (the wrapper passes [args[1]]), not the prior
    value 5. *)
Theorem map_delete_reports_no_prior_value :
  delete_present_key keyed_collection =
    Ok (VBool true) (final (delete_present_key keyed_collection)) ∧
  calls (final (delete_present_key keyed_collection)) =
    [ (1, mkObservation Change (VRef 1) (VStr "k") VUndef VUndef) ].
Proof. split; vm_compute; reflexivity. Qed.

(** ** Scenario: appending to and removing from the end of an array *)

(** C5 at the failing input: on the façade of [[1, 2]], [push(3)] fires a
    change event with the path ["3"], the new length and not the new length
    minus 1, and the following [pop()] fires a change event with the path
    ["3"], the old length and not the old length minus 1. *)
Theorem push_pop_paths_off_by_one :
  append_then_remove sequence =
    Ok (VNum 3) (final (append_then_remove sequence)) ∧
  calls (final (append_then_remove sequence)) =
    [ (1, mkObservation Change (VRef 1) (VStr "3") (VNum 3) VUndef);
      (1, mkObservation Change (VRef 1) (VStr "3") VUndef (VNum 3)) ].
Proof. split; vm_compute; reflexivity. Qed.

(** ** Scenario: filling a range of a typed array *)

(** C8 at the failing input: [fill(7, 1, 3)] on the façade of [[1, 2, 3]]
    fires exactly one change event at the observer, whose old value is a
    typed array [[2, 3]] and whose new value is a typed array [[7, 7]], and
    the buffer becomes [[1, 7, 7]]; the path of the event is the number 1
    that was passed as [args[1]], not the string ["1"]. *)
Theorem fill_event_path_is_a_number :
  fill_range numeric_buffer = Ok (VRef 0) (final (fill_range numeric_buffer)) ∧
  calls (final (fill_range numeric_buffer)) =
    [ (1, mkObservation Change (VRef 1) (VNum 1) (VRef 3) (VRef 2)) ] ∧
  heap (final (fill_range numeric_buffer)) !! 2 = Some (OTyped Uint8 [2; 3]%Z) ∧
  heap (final (fill_range numeric_buffer)) !! 3 = Some (OTyped Uint8 [7; 7]%Z) ∧
  heap (final (fill_range numeric_buffer)) !! 0 = Some (OTyped Uint8 [1; 7; 7]%Z).
Proof. repeat split; vm_compute; reflexivity. Qed.

(** Seen from an observer on a parent, the same event has the string path
    ["h.1"]: the template literal of the propagation converts the number. *)
Lemma fill_event_path_at_parent :
  calls (final (fill_range_nested record_with_buffer)) =
    [ (1, mkObservation Change (VRef 2) (VStr "h.1") (VRef 5) (VRef 4)) ].
Proof. vm_compute. reflexivity. Qed.

(** ** Non-object arguments *)

(** Every argument whose [typeof] is not ["object"] is rejected by
    [isObservable], [observable] and [makeObservable], in strict and in
    lenient mode, and the state is left as it was. *)
Lemma non_object_rejected (v : value) (s : state) :
  typeof v ≠ TObject →
  isObservable v s = Throw (Error msg_object) s ∧
  (∀ fuel strict, observable fuel v strict s = Throw (Error msg_object) s) ∧
  (∀ fuel name parent strict,
     makeObservable (S fuel) v name parent strict s = Throw (Error msg_convert) s).
Proof.
  intros Hty. split; [|split].
  - unfold isObservable. by destruct (decide _).
  - intros fuel strict. unfold observable, isObservable, bind.
    by destruct (decide _).
  - intros fuel name parent strict. simpl. by destruct (decide _).
Qed.

(** C6 at the failing input: [null] passes the [typeof] test, so
    [isObservable(null)] returns [false] instead of raising, and
    [observable(null)] fails with the [TypeError] of
    [Object.getPrototypeOf(null)] instead of the contract violation. *)
Theorem null_is_not_rejected (s : state) :
  isObservable VNull s = Ok false s ∧
  (∀ fuel strict, observable (S fuel) VNull strict s = Throw TypeError s).
Proof. split; [reflexivity | intros; reflexivity]. Qed.

(** The same gap shows inside the library: the [set] trap and the pass over
    the members test [typeof] only, so assigning [null] through a façade and
    wrapping a record with a [null] member both fail with that
    [TypeError]. *)
Lemma null_member_throws :
  returned (assign_null raw_record) = None ∧
  (∃ s, assign_null raw_record = Throw TypeError s) ∧
  (∃ s, observable 2 (VRef 0) true record_with_null = Throw TypeError s).
Proof. split; [reflexivity|]. split; eexists; vm_compute; reflexivity. Qed.

(** ** The observer registry *)

Lemma set_paused_idemp (b : bool) (o : Observer) (info : ObservableInfo) :
  set_paused b o (set_paused b o info) = set_paused b o info.
Proof. unfold set_paused. simpl. by rewrite insert_insert_eq. Qed.

Lemma update_info_idemp (a : nat) (f : ObservableInfo → ObservableInfo) (s : state) :
  (∀ i, f (f i) = f i) →
  update_info a f (final (update_info a f s)) = update_info a f s.
Proof.
  intros Hf. unfold update_info. simpl. do 2 f_equal.
  rewrite alter_alter_eq. apply alter_ext. intros i _. apply Hf.
Qed.

(** Registering a callback that the façade already holds raises, and the
    state stays as it was. *)
Lemma observer_duplicate (s : state) (a : nat) (info : ObservableInfo) (cb : nat) :
  observableMap s !! a = Some info →
  cb ∈ info_callbacks info →
  observer (VRef a) cb s = Throw (Error msg_registered) s.
Proof.
  intros Ha Hcb. unfold observer, isObservable, observableMap_has, bind. simpl.
  rewrite Ha. rewrite bool_decide_true by eauto. simpl.
  rewrite Ha. by rewrite decide_True.
Qed.

(** Destroying a handle whose callback the façade does not hold raises. *)
Lemma destroy_stale (s : state) (o : Observer) (info : ObservableInfo) :
  observableMap s !! observer_info o = Some info →
  observer_callback o ∉ info_callbacks info →
  destroy o s = Throw (Error msg_not_registered) s.
Proof.
  intros Ha Hcb. unfold destroy, bind. simpl. rewrite Ha.
  by rewrite decide_False.
Qed.

Lemma pause_returns (o : Observer) (s : state) :
  pause o s = Ok tt (final (pause o s)).
Proof. reflexivity. Qed.

Lemma resume_returns (o : Observer) (s : state) :
  resume o s = Ok tt (final (resume o s)).
Proof. reflexivity. Qed.

(** What a successful [observer] call leaves behind. *)
Lemma observer_Ok (s s1 : state) (f : value) (cb : nat) (o : Observer) :
  observer f cb s = Ok o s1 →
  ∃ a info,
    f = VRef a ∧ o = mkObserver a cb ∧
    observableMap s !! a = Some info ∧
    (cb ∉ info_callbacks info) ∧
    heap s1 = heap s ∧ calls s1 = calls s ∧
    observableMap s1 =
      <[a := mkInfo (info_raw info) (info_name info) (info_parent info)
               (info_callbacks info ++ [cb])
               (<[cb := false]> (info_paused info))]> (observableMap s).
Proof.
  unfold observer, isObservable, observableMap_has, bind.
  destruct (decide (typeof f = TObject)) as [Hty|]; [|discriminate].
  destruct f as [| | | | | | |a]; simpl; try discriminate.
  destruct (observableMap s !! a) as [info|] eqn:Ha; simpl; [|discriminate].
  rewrite Ha.
  destruct (decide (cb ∈ info_callbacks info)) as [|Hn]; [discriminate|].
  unfold update_info, ret. intros [= <- <-]. exists a, info. simpl.
  repeat split; try done.
  apply map_eq. intros i. rewrite lookup_alter. destruct (decide (a = i)) as [->|].
  - by rewrite lookup_insert_eq, Ha.
  - by rewrite lookup_insert_ne.
Qed.

(** C9: once [observer] has registered a callback on a façade, registering
    the same callback on it again raises the duplicate-registration error
    and leaves the state unchanged; [pause] and [resume] never raise and a
    repeated call changes nothing; [destroy] removes the callback, and a
    second [destroy] of the same handle raises the stale-handle error. *)
Theorem observer_guards (s s1 : state) (f : value) (cb : nat) (o : Observer) :
  observer f cb s = Ok o s1 →
  observer f cb s1 = Throw (Error msg_registered) s1 ∧
  (∀ s2, pause o s2 = Ok tt (final (pause o s2)) ∧
         pause o (final (pause o s2)) = pause o s2) ∧
  (∀ s2, resume o s2 = Ok tt (final (resume o s2)) ∧
         resume o (final (resume o s2)) = resume o s2) ∧
  ∃ s2, destroy o s1 = Ok tt s2 ∧
        (∀ info, observableMap s2 !! observer_info o = Some info →
                 cb ∉ info_callbacks info) ∧
        destroy o s2 = Throw (Error msg_not_registered) s2.
Proof.
  intros Hobs.
  destruct (observer_Ok _ _ _ _ _ Hobs)
    as (a & info & -> & -> & Ha & Hfresh & Hheap & Hcalls & Hmap).
  split; [|split; [|split]].
  - eapply observer_duplicate.
    + rewrite Hmap. apply lookup_insert_eq.
    + simpl. set_solver.
  - intros s2. split; [apply pause_returns|].
    apply update_info_idemp, set_paused_idemp.
  - intros s2. split; [apply resume_returns|].
    apply update_info_idemp, set_paused_idemp.
  - unfold destroy at 1. unfold bind, get_state. simpl.
    rewrite Hmap, lookup_insert_eq. simpl.
    rewrite decide_True by set_solver.
    eexists. split; [reflexivity|]. split.
    + simpl. intros info'. rewrite lookup_alter, decide_True by done.
      rewrite Hmap, lookup_insert_eq. simpl. intros [= <-]. simpl.
      rewrite list_elem_of_filter. by intros [? _].
    + eapply destroy_stale; simpl.
      * rewrite lookup_alter, decide_True by done.
        by rewrite Hmap, lookup_insert_eq.
      * simpl. rewrite list_elem_of_filter. by intros [? _].
Qed.

Lemma observer_guards_witness :
  observer (VRef 1) 7 observed_record =
    Ok (mkObserver 1 7) (final (observer (VRef 1) 7 observed_record)) ∧
  observer (VRef 1) 7 (final (observer (VRef 1) 7 observed_record)) =
    Throw (Error msg_registered) (final (observer (VRef 1) 7 observed_record)).
Proof.
  assert (H : observer (VRef 1) 7 observed_record =
    Ok (mkObserver 1 7) (final (observer (VRef 1) 7 observed_record)))
    by reflexivity.
  split; [exact H|].
  exact (proj1 (observer_guards _ _ _ _ _ H)).
Defined.

(** ** Running the primitive operations *)

Lemma deref_eq (s : state) (a : nat) (o : obj) :
  heap s !! a = Some o → deref (VRef a) s = Ok o s.
Proof. unfold deref. by intros ->. Qed.

Lemma proxy_parts_eq (s : state) (a t : nat) (st : bool) :
  heap s !! a = Some (OProxy t st) → proxy_parts (VRef a) s = Ok (t, st) s.
Proof.
  intros H. unfold proxy_parts. by rewrite (bind_eq _ _ _ _ _ (deref_eq _ _ _ H)).
Qed.

Lemma add_calls_app (l1 l2 : list (nat * Observation)) (s : state) :
  add_calls l2 (add_calls l1 s) = add_calls (l1 ++ l2) s.
Proof. unfold add_calls. simpl. by rewrite app_assoc. Qed.

Lemma add_calls_nil (s : state) : add_calls [] s = s.
Proof. destruct s. unfold add_calls. simpl. by rewrite app_nil_r. Qed.

(** ** The propagation engine *)

Lemma forM_callbacks (info : ObservableInfo) (o : Observation)
    (cbs : list nat) (s : state) :
  forM cbs (λ callback,
      if negb (default false (info_paused info !! callback))
      then call callback o else ret tt) s =
  Ok tt (add_calls ((λ cb, (cb, o)) <$>
           filter (λ cb, default false (info_paused info !! cb) = false) cbs) s).
Proof.
  revert s. induction cbs as [|cb cbs IH]; intros s; simpl.
  - unfold ret. by rewrite add_calls_nil.
  - rewrite filter_cons. unfold bind.
    destruct (default false (info_paused info !! cb)) eqn:E.
    + rewrite decide_False by done. apply IH.
    + rewrite decide_True by done. unfold call. simpl. rewrite IH.
      unfold add_calls. simpl. by rewrite <- app_assoc.
Qed.

Lemma deliveries_active (om : gmap nat ObservableInfo) (a : nat)
    (info : ObservableInfo) (o : Observation) (cb : nat) :
  om !! a = Some info → active om (VRef a) cb → (cb, o) ∈ deliveries info o.
Proof.
  intros Ha (a' & info' & [= <-] & Ha' & Hin & Hp).
  rewrite Ha in Ha'. injection Ha' as <-.
  unfold deliveries. apply list_elem_of_fmap. exists cb. split; [done|].
  apply list_elem_of_filter. done.
Qed.

(** The propagation succeeds when the parent chain leads through older,
    registered façades whose names convert to strings; it changes nothing
    but the call log, and every active callback of every façade the event
    bubbles to is invoked with the event as seen from there. *)
Lemma triggerObserver_rec_spec (type : otype) (valueNew valueOld : value) (fuel : nat) :
  ∀ (a : nat) (info : ObservableInfo) (path : value) (s : state),
    (∀ a info, observableMap s !! a = Some info → parent_ok s a info) →
    observableMap s !! a = Some info →
    a < fuel →
    info_parent info = VNull ∨ printable path →
    ∃ L,
      triggerObserver_rec fuel type (VRef a) path valueNew valueOld s =
        Ok tt (add_calls L s) ∧
      ∀ A q cb,
        bubbles (observableMap s) (VRef a) path A q →
        active (observableMap s) A cb →
        (cb, mkObservation type A q valueNew valueOld) ∈ L.
Proof.
  induction fuel as [|fuel IH]; intros a info path s Hreg Ha Hlt Hpath; [lia|].
  simpl. unfold bind at 1. simpl. rewrite Ha.
  rewrite (bind_eq _ _ _ _ _ (forM_callbacks _ _ _ _)).
  fold (deliveries info (mkObservation type (VRef a) path valueNew valueOld)).
  set (L0 := deliveries _ _).
  pose proof (Hreg _ _ Ha) as Hpar. unfold parent_ok in Hpar.
  destruct (decide (info_parent info = VNull)) as [Hnull|Hnn].
  - exists L0. split; [done|].
    intros A q cb Hb Hact. inversion Hb; subst.
    + eapply deliveries_active; eauto.
    + congruence.
  - destruct (info_parent info) as [| | | | | | |p] eqn:Hp; try done.
    apply andb_True in Hpar as [Hpar Hname]. apply andb_True in Hpar as [Hlt' Hregp].
    apply Is_true_true, Nat.ltb_lt in Hlt'.
    destruct Hpath as [|Hpr]; [done|].
    assert (∃ n, to_String (info_name info) = Some n) as [n Hn].
    { destruct (info_name info); simpl in *; try done; eauto. destruct b; eauto. }
    assert (∃ ps, to_String path = Some ps) as [ps Hps].
    { destruct path; simpl in *; try done; eauto. destruct b; eauto. }
    unfold js_String. rewrite Hn. unfold bind at 1. simpl.
    assert (js_template path (add_calls L0 s) = Ok ps (add_calls L0 s)) as Ht.
    { unfold js_template, js_String. rewrite Hps. by destruct path. }
    rewrite (bind_eq _ _ _ _ _ Ht).
    unfold is_registered in Hregp.
    destruct (observableMap s !! p) as [pinfo|] eqn:Hpi; [|done].
    destruct (IH p pinfo (VStr (n +:+ "." +:+ ps)) (add_calls L0 s))
      as (L1 & Hrun & Hev); [exact Hreg|exact Hpi|lia|by right|].
    exists (L0 ++ L1). rewrite Hrun, add_calls_app. split; [done|].
    intros A q cb Hb Hact. apply elem_of_app. inversion Hb; subst.
    + left. eapply deliveries_active; eauto.
    + right. apply Hev; [|exact Hact]. simpl.
      match goal with H : observableMap s !! a = Some ?i |- _ =>
        rewrite Ha in H; injection H as <- end.
      rewrite Hp in *.
      match goal with H1 : to_String (info_name info) = Some ?m |- _ =>
        rewrite Hn in H1; injection H1 as <- end.
      match goal with H1 : to_String path = Some ?m |- _ =>
        rewrite Hps in H1; injection H1 as <- end.
      assumption.
Qed.

Lemma triggerObserver_spec (type : otype) (valueNew valueOld : value)
    (a : nat) (info : ObservableInfo) (path : value) (s : state) :
  (∀ a info, observableMap s !! a = Some info →
             a < length (heap s) ∧ parent_ok s a info) →
  observableMap s !! a = Some info →
  info_parent info = VNull ∨ printable path →
  ∃ L,
    triggerObserver type (VRef a) path valueNew valueOld s = Ok tt (add_calls L s) ∧
    ∀ A q cb,
      bubbles (observableMap s) (VRef a) path A q →
      active (observableMap s) A cb →
      (cb, mkObservation type A q valueNew valueOld) ∈ L.
Proof.
  intros Hreg Ha Hpath. unfold triggerObserver, bind, get_state.
  apply triggerObserver_rec_spec with (info := info); try done.
  - intros a' info' H. by apply Hreg.
  - apply Hreg in Ha as [Hlt _]. lia.
Qed.

(** ** Kinds *)

Lemma container_shape (o o' : obj) :
  shape o' = shape o → container o' = container o.
Proof. destruct o, o'; simpl; congruence. Qed.

Lemma passthrough_shape (strict : bool) (o o' : obj) :
  shape o' = shape o → passthrough strict o' = passthrough strict o.
Proof. destruct o, o'; simpl; congruence. Qed.

Lemma supported_shape (strict : bool) (o o' : obj) :
  shape o' = shape o → supported strict o' = supported strict o.
Proof.
  intros H. unfold supported.
  by rewrite (container_shape _ _ H), (passthrough_shape _ _ _ H).
Qed.

Lemma passthrough_not_container (strict : bool) (o : obj) :
  passthrough strict o → container o = false.
Proof. by destruct o. Qed.

(** ** Extension of states *)

Section ext_lemmas.
Variable rk : nat → nat.
Variable strict : bool.

Lemma ext_refl (r : nat) (s : state) : ext rk r s s.
Proof. constructor; eauto. Qed.

Lemma ext_trans (r : nat) (s1 s2 s3 : state) :
  ext rk r s1 s2 → ext rk r s2 s3 → ext rk r s1 s3.
Proof.
  intros [L1 M1 S1 F1 C1] [L2 M2 S2 F2 C2]. constructor.
  - lia.
  - intros a Ha. rewrite M2 by lia. by apply M1.
  - intros a o Ho. destruct (S1 _ _ Ho) as (o1 & Ho1 & E1).
    destruct (S2 _ _ Ho1) as (o2 & Ho2 & E2). exists o2. split; [done|congruence].
  - intros a o Ho Hr. eapply F2; [|done]. by eapply F1.
  - by etrans.
Qed.

Lemma ext_weaken (r r' : nat) (s s' : state) :
  r ≤ r' → ext rk r s s' → ext rk r' s s'.
Proof.
  intros Hr [L1 M1 S1 F1 C1]. constructor; try done.
  intros a o Ho [H0|Hge]; apply F1; auto. right. lia.
Qed.

Lemma ext_add_calls (r : nat) (l : list (nat * Observation)) (s : state) :
  ext rk r s (add_calls l s).
Proof. constructor; simpl; eauto. by apply prefix_app_r. Qed.

Lemma is_registered_lt (pend : list nat) (s : state) (a : nat) :
  Inv rk strict pend s → is_registered s a → a < length (heap s).
Proof.
  intros HI Hr. unfold is_registered in Hr.
  destruct (observableMap s !! a) eqn:E; [|done].
  by apply (inv_reg _ _ _ _ HI) in E as [? _].
Qed.

Lemma is_registered_ext (pend : list nat) (r : nat) (s s' : state) (a : nat) :
  Inv rk strict pend s → ext rk r s s' →
  is_registered s a → is_registered s' a.
Proof.
  intros HI He Hr. pose proof (is_registered_lt _ _ _ HI Hr) as Hlt.
  unfold is_registered in *. by rewrite (ext_map _ _ _ _ He).
Qed.

Lemma okchild_ext (pend : list nat) (r0 r : nat) (s s' : state) (c : value) :
  Inv rk strict pend s → ext rk r0 s s' →
  okchild rk strict s r c → okchild rk strict s' r c.
Proof.
  intros HI He. destruct c as [| | | | | | |b]; simpl; try done.
  intros [Hr|Hraw]%orb_True; apply orb_True.
  - left. by eapply is_registered_ext.
  - right. destruct (heap s !! b) as [o|] eqn:Ho; [|done].
    destruct (ext_shape _ _ _ _ He _ _ Ho) as (o' & -> & Hsh).
    by rewrite (supported_shape _ _ _ Hsh).
Qed.

Lemma settled_ext (pend : list nat) (r0 : nat) (s s' : state) (c : value) :
  Inv rk strict pend s → ext rk r0 s s' →
  settled strict s c → settled strict s' c.
Proof.
  intros HI He. destruct c as [| | | | | | |b]; simpl; try done.
  intros [Hr|Hraw]%orb_True; apply orb_True.
  - left. by eapply is_registered_ext.
  - right. destruct (heap s !! b) as [o|] eqn:Ho; [|done].
    destruct (ext_shape _ _ _ _ He _ _ Ho) as (o' & -> & Hsh).
    by rewrite (passthrough_shape _ _ _ Hsh).
Qed.

Lemma Inv_add_calls (pend : list nat) (l : list (nat * Observation)) (s : state) :
  Inv rk strict pend s → Inv rk strict pend (add_calls l s).
Proof.
  intros [R O S]. constructor.
  - exact R.
  - exact O.
  - exact S.
Qed.

Lemma Inv_pend_more (pend pend' : list nat) (s : state) :
  pend ⊆ pend' → Inv rk strict pend s → Inv rk strict pend' s.
Proof.
  intros Hsub [R O S]. constructor; try done.
  intros a t st o Hr Ha Hn Ho. eapply S; eauto.
Qed.
End ext_lemmas.

(** ** Association lists *)

Section alist_lemmas.
Context {K V : Type} `{EqDecision K}.
Implicit Types (l : list (K * V)) (k : K) (v : V).

Lemma alist_get_elem_of l k v : alist_get k l = Some v → (k, v) ∈ l.
Proof.
  induction l as [|[k' v'] l IH]; simpl; [done|].
  destruct (decide (k = k')) as [->|].
  - intros [= ->]. by left.
  - intros H. right. auto.
Qed.

Lemma alist_get_None l k : alist_get k l = None → k ∉ l.*1.
Proof.
  induction l as [|[k' v'] l IH]; simpl; [intros _; apply not_elem_of_nil|].
  destruct (decide (k = k')); [done|].
  intros H. apply not_elem_of_cons. auto.
Qed.

Lemma elem_of_alist_get l k v : NoDup l.*1 → (k, v) ∈ l → alist_get k l = Some v.
Proof.
  induction l as [|[k' v'] l IH]; simpl.
  - intros _ H. by apply elem_of_nil in H.
  - intros [Hk Hnd]%NoDup_cons [[= -> ->]|Hin]%elem_of_cons.
    + by rewrite decide_True.
    + rewrite decide_False; [auto|]. intros ->. apply Hk.
      apply list_elem_of_fmap. by exists (k', v).
Qed.

Lemma alist_set_fst l k v : k ∈ l.*1 → (alist_set k v l).*1 = l.*1.
Proof.
  induction l as [|[k' v'] l IH]; simpl.
  - intros H. by apply elem_of_nil in H.
  - intros H. destruct (decide (k = k')) as [->|Hne]; simpl; [done|].
    f_equal. apply IH. apply elem_of_cons in H as [|]; done.
Qed.

Lemma elem_of_alist_set l k v k' v' :
  NoDup l.*1 →
  (k', v') ∈ alist_set k v l → (k' = k ∧ v' = v) ∨ ((k', v') ∈ l ∧ k' ≠ k).
Proof.
  induction l as [|[k1 v1] l IH]; simpl.
  - intros _ [= -> ->]%list_elem_of_singleton. by left.
  - intros [Hk Hnd]%NoDup_cons. destruct (decide (k = k1)) as [->|Hne].
    + intros [[= -> ->]|Hin]%elem_of_cons; [by left|].
      right. split; [by right|]. intros ->. apply Hk.
      apply list_elem_of_fmap. by exists (k1, v').
    + intros [[= -> ->]|Hin]%elem_of_cons.
      * right. split; [by left|done].
      * destruct (IH Hnd Hin) as [|[? ?]]; [by left|]. right. split; [by right|done].
Qed.

Lemma elem_of_alist_set_weak l k v k' v' :
  (k', v') ∈ alist_set k v l → (k' = k ∧ v' = v) ∨ (k', v') ∈ l.
Proof.
  induction l as [|[k1 v1] l IH]; simpl.
  - intros [= -> ->]%list_elem_of_singleton. by left.
  - destruct (decide (k = k1)) as [->|Hne].
    + intros [[= -> ->]|Hin]%elem_of_cons; [by left|]. right. by right.
    + intros [[= -> ->]|Hin]%elem_of_cons.
      * right. by left.
      * destruct (IH Hin) as [|]; [by left|]. right. by right.
Qed.

Lemma elem_of_alist_remove l k k' v' :
  (k', v') ∈ alist_remove k l ↔ (k', v') ∈ l ∧ k' ≠ k.
Proof.
  induction l as [|[k1 v1] l IH]; simpl.
  - rewrite elem_of_nil. tauto.
  - destruct (decide (k = k1)) as [->|Hne].
    + rewrite IH, elem_of_cons. split; [tauto|].
      intros [[[= -> ->]|?] ?]; [done|tauto].
    + rewrite !elem_of_cons, IH. split; [|tauto].
      intros [[= -> ->]|[? ?]]; [split; [by left|done]|tauto].
Qed.
End alist_lemmas.

Lemma elem_of_snd {K V} (l : list (K * V)) (v : V) :
  v ∈ l.*2 ↔ ∃ k, (k, v) ∈ l.
Proof.
  rewrite list_elem_of_fmap. split.
  - intros ([k v'] & -> & H). by exists k.
  - intros (k & H). by exists (k, v).
Qed.

(** ** Updates of the state *)

Lemma shape_proxy (o : obj) (t : nat) (st : bool) :
  shape o = shape (OProxy t st) → o = OProxy t st.
Proof. destruct o; simpl; congruence. Qed.

Section state_lemmas.
Variable rk : nat → nat.
Variable strict : bool.

Lemma ext_proxy (r : nat) (s s' : state) (a t : nat) (st : bool) :
  ext rk r s s' → heap s !! a = Some (OProxy t st) →
  heap s' !! a = Some (OProxy t st).
Proof.
  intros He Ha. destruct (ext_shape _ _ _ _ He _ _ Ha) as (o' & Ho' & Hsh).
  by rewrite (shape_proxy _ _ _ Hsh) in Ho'.
Qed.

Lemma ext_registry (pend : list nat) (r : nat) (s s' : state) :
  Inv rk strict pend s → ext rk r s s' →
  observableMap s ⊆ observableMap s'.
Proof.
  intros HI He. apply map_subseteq_spec. intros a info Ha.
  rewrite (ext_map _ _ _ _ He); [done|].
  by apply (inv_reg _ _ _ _ HI) in Ha as [? _].
Qed.

(** *** A new proxy *)

Lemma ext_with_proxy (r x : nat) (info : ObservableInfo) (s : state) :
  ext rk r s (with_proxy x strict info s).
Proof.
  constructor; simpl.
  - rewrite length_app. lia.
  - intros a Ha. rewrite lookup_insert_ne; [done|lia].
  - intros a o Ho. exists o. split; [|done]. by apply lookup_app_l_Some.
  - intros a o Ho _. by apply lookup_app_l_Some.
  - done.
Qed.

Lemma is_registered_with_proxy (x : nat) (info : ObservableInfo) (s : state) (a : nat) :
  is_registered (with_proxy x strict info s) a =
    bool_decide (a = length (heap s)) || is_registered s a.
Proof.
  unfold is_registered. simpl. destruct (decide (a = length (heap s))) as [->|Hne].
  - by rewrite lookup_insert_eq, bool_decide_true.
  - by rewrite lookup_insert_ne, bool_decide_false.
Qed.

Lemma Inv_with_proxy (pend : list nat) (x : nat) (name parent : value) (s : state) :
  Inv rk strict pend s →
  parent_arg_ok s name parent →
  Inv rk strict (length (heap s) :: pend)
    (with_proxy x strict (mkInfo (VRef x) name parent [] ∅) s).
Proof.
  intros HI Hpar.
  pose proof (ext_with_proxy 0 x (mkInfo (VRef x) name parent [] ∅) s) as He.
  constructor.
  - intros a info. simpl. rewrite length_app. simpl.
    destruct (decide (a = length (heap s))) as [->|Hne].
    + rewrite lookup_insert_eq. intros [= <-]. split; [lia|].
      unfold parent_ok, parent_arg_ok in *. simpl.
      destruct parent as [| | | | | | |p]; try done.
      apply andb_True in Hpar as [Hp Hn].
      rewrite is_registered_with_proxy.
      pose proof (is_registered_lt _ _ _ _ _ HI Hp) as Hlt.
      apply andb_True. split; [|done]. apply andb_True. split.
      * apply Is_true_true, Nat.ltb_lt. lia.
      * apply orb_True. by right.
    + rewrite lookup_insert_ne by done. intros Ha.
      destruct (inv_reg _ _ _ _ HI _ _ Ha) as [Hlt Hp]. split; [lia|].
      unfold parent_ok in *. destruct (info_parent info) as [| | | | | | |p]; try done.
      rewrite is_registered_with_proxy.
      apply andb_True in Hp as [Hp Hn]. apply andb_True in Hp as [Hp1 Hp2].
      apply andb_True. split; [|done]. apply andb_True. split; [done|].
      apply orb_True. by right.
  - intros a o. simpl. intros Ho Hrk.
    apply lookup_app_Some in Ho as [Ho|[Hlen Ho]].
    + destruct (inv_obj _ _ _ _ HI _ _ Ho Hrk) as [Hwf Hok]. split; [done|].
      eapply Forall_impl; [exact Hok|]. intros c Hc. simpl in Hc.
      eapply okchild_ext; eauto.
    + apply list_lookup_singleton_Some in Ho as [_ <-]. simpl. split; done.
  - intros a t st o. rewrite is_registered_with_proxy. simpl.
    intros Hr Ha Hn Ho. apply not_elem_of_cons in Hn as [Hne Hn].
    rewrite bool_decide_false in Hr by done. simpl in Hr.
    pose proof (is_registered_lt _ _ _ _ _ HI Hr) as Hlt.
    rewrite lookup_app_l in Ha by done.
    apply lookup_app_Some in Ho as [Ho|[Hlen Ho]].
    + pose proof (inv_settled _ _ _ _ HI _ _ _ _ Hr Ha Hn Ho) as Hs.
      eapply Forall_impl; [exact Hs|]. intros c Hc. simpl in Hc.
      eapply settled_ext; eauto.
    + apply list_lookup_singleton_Some in Ho as [_ <-]. simpl. done.
Qed.

(** *** A replaced object *)

Lemma ext_with_obj (r x : nat) (o o' : obj) (s : state) :
  heap s !! x = Some o → shape o' = shape o → 0 < rk x < r →
  ext rk r s (with_obj x o' s).
Proof.
  intros Hx Hsh Hrk. constructor; simpl.
  - by rewrite length_insert.
  - done.
  - intros a o1 Ho1. destruct (decide (a = x)) as [->|Hne].
    + exists o'. rewrite list_lookup_insert_eq by (by eapply lookup_lt_Some).
      split; [done|]. congruence.
    + exists o1. by rewrite list_lookup_insert_ne.
  - intros a o1 Ho1 Hr. rewrite list_lookup_insert_ne; [done|].
    intros <-. lia.
  - done.
Qed.

Lemma Inv_with_obj (pend : list nat) (x : nat) (o o' : obj) (s : state) :
  Inv rk strict pend s →
  heap s !! x = Some o → shape o' = shape o → container o →
  0 < rk x →
  wf_obj o' →
  Forall (λ c, okchild rk strict s (rk x) c) (members o') →
  (∀ c, c ∈ members o' → c ∈ members o ∨ settled strict s c) →
  Inv rk strict pend (with_obj x o' s).
Proof.
  intros HI Hx Hsh Hcont Hrk Hwf Hok Hmem.
  assert (ext rk (S (rk x)) s (with_obj x o' s)) as He
    by (eapply ext_with_obj; eauto; lia).
  pose proof (lookup_lt_Some _ _ _ Hx) as Hlt.
  constructor.
  - intros a info. simpl. rewrite length_insert. apply (inv_reg _ _ _ _ HI).
  - intros a o1. simpl. intros Ho1 Hrka.
    destruct (decide (a = x)) as [->|Hne].
    + rewrite list_lookup_insert_eq in Ho1 by done. injection Ho1 as <-.
      split; [done|]. eapply Forall_impl; [exact Hok|]. intros c Hc. simpl in Hc.
      eapply okchild_ext; eauto.
    + rewrite list_lookup_insert_ne in Ho1 by done.
      destruct (inv_obj _ _ _ _ HI _ _ Ho1 Hrka) as [Hwf1 Hok1]. split; [done|].
      eapply Forall_impl; [exact Hok1|]. intros c Hc. simpl in Hc.
      eapply okchild_ext; eauto.
  - intros a t st o1. simpl. intros Hr Ha Hn Ho1.
    change (is_registered (with_obj x o' s) a) with (is_registered s a) in Hr.
    assert (a ≠ x) as Hax.
    { intros ->. rewrite list_lookup_insert_eq in Ha by done. injection Ha as ->.
      simpl in Hsh. by destruct o. }
    rewrite list_lookup_insert_ne in Ha by done.
    destruct (decide (t = x)) as [->|Hne].
    + rewrite list_lookup_insert_eq in Ho1 by done. injection Ho1 as <-.
      pose proof (inv_settled _ _ _ _ HI _ _ _ _ Hr Ha Hn Hx) as Hs.
      apply Forall_forall. intros c Hc.
      destruct (Hmem _ Hc) as [Hold|Hnew].
      * rewrite Forall_forall in Hs. eapply settled_ext; eauto.
      * eapply settled_ext; eauto.
    + rewrite list_lookup_insert_ne in Ho1 by done.
      pose proof (inv_settled _ _ _ _ HI _ _ _ _ Hr Ha Hn Ho1) as Hs.
      eapply Forall_impl; [exact Hs|]. intros c Hc. simpl in Hc.
      eapply settled_ext; eauto.
Qed.

(** The façade that was under construction has all its members settled. *)
Lemma Inv_done (pend : list nat) (m x : nat) (o : obj) (s : state) :
  Inv rk strict (m :: pend) s →
  heap s !! m = Some (OProxy x strict) →
  heap s !! x = Some o →
  Forall (λ c, settled strict s c) (members o) →
  Inv rk strict pend s.
Proof.
  intros HI Hm Hx Hs. constructor.
  - apply (inv_reg _ _ _ _ HI).
  - apply (inv_obj _ _ _ _ HI).
  - intros a t st o1 Hr Ha Hn Ho1. destruct (decide (a = m)) as [->|Hne].
    + rewrite Hm in Ha. injection Ha as <- <-. rewrite Hx in Ho1.
      by injection Ho1 as <-.
    + eapply (inv_settled _ _ _ _ HI); eauto. by apply not_elem_of_cons.
Qed.
End state_lemmas.

(** ** Running the handlers *)

Lemma observableMap_has_ref (s : state) (a : nat) :
  observableMap_has (VRef a) s = Ok (is_registered s a) s.
Proof.
  unfold observableMap_has, bind, observableMap_get, is_registered, ret.
  by destruct (observableMap s !! a).
Qed.

Lemma isObservable_ref (s : state) (a : nat) :
  isObservable (VRef a) s = Ok (is_registered s a) s.
Proof. unfold isObservable. simpl. apply observableMap_has_ref. Qed.

Lemma new_proxy_eq {A} (x : nat) (st : bool) (obj name parent : value)
    (k : value → M A) (s : state) :
  (let* proxy := alloc (OProxy x st) in addInfo proxy obj name parent ;;; k proxy) s =
  k (VRef (length (heap s))) (with_proxy x st (mkInfo obj name parent [] ∅) s).
Proof. reflexivity. Qed.

Lemma printable_nameable (v : value) : printable v → nameable v.
Proof. by destruct v. Qed.

Section ops.
Variable rk : nat → nat.
Variable strict : bool.

Lemma trigger_stored (pend : list nat) (type : otype) (valueNew valueOld : value)
    (m x : nat) (o' : obj) (info : ObservableInfo) (path : value) (s : state) :
  Inv rk strict pend s →
  observableMap s !! m = Some info →
  info_parent info = VNull ∨ printable path →
  ∃ L,
    triggerObserver type (VRef m) path valueNew valueOld (with_obj x o' s) =
      Ok tt (add_calls L (with_obj x o' s)) ∧
    ∀ A q cb,
      bubbles (observableMap s) (VRef m) path A q →
      active (observableMap s) A cb →
      (cb, mkObservation type A q valueNew valueOld) ∈ L.
Proof.
  intros HI Hm Hpath.
  apply (triggerObserver_spec type valueNew valueOld m info path (with_obj x o' s));
    try done.
  intros a i Ha. simpl. rewrite length_insert. by apply (inv_reg _ _ _ _ HI).
Qed.

(** *** Plain objects *)

Lemma plain_Reflect_get_eq (s : state) (x : nat)
    (props : list (string * value)) (f : string) :
  heap s !! x = Some (OPlain props) →
  plain_Reflect_get x f s = Ok (default VUndef (alist_get f props)) s.
Proof.
  intros Hx. unfold plain_Reflect_get.
  by rewrite (bind_eq _ _ _ _ _ (deref_eq _ _ _ Hx)).
Qed.

Lemma plain_Reflect_set_eq (s : state) (x : nat)
    (props : list (string * value)) (f : string) (v : value) :
  heap s !! x = Some (OPlain props) →
  plain_Reflect_set x f v s =
    Ok true (with_obj x (OPlain (alist_set f v props)) s).
Proof.
  intros Hx. unfold plain_Reflect_set.
  by rewrite (bind_eq _ _ _ _ _ (deref_eq _ _ _ Hx)).
Qed.

Lemma plain_get_eq (s : state) (m x : nat) (st : bool)
    (props : list (string * value)) (f : string) :
  heap s !! m = Some (OProxy x st) →
  heap s !! x = Some (OPlain props) →
  plain_get (VRef m) f s = Ok (default VUndef (alist_get f props)) s.
Proof.
  intros Hm Hx. unfold plain_get.
  rewrite (bind_eq _ _ _ _ _ (proxy_parts_eq _ _ _ _ Hm)).
  by apply plain_Reflect_get_eq.
Qed.

Lemma plain_keys_eq (s : state) (m x : nat) (st : bool)
    (props : list (string * value)) :
  heap s !! m = Some (OProxy x st) →
  heap s !! x = Some (OPlain props) →
  plain_keys (VRef m) s = Ok (props.*1) s.
Proof.
  intros Hm Hx. unfold plain_keys.
  rewrite (bind_eq _ _ _ _ _ (proxy_parts_eq _ _ _ _ Hm)).
  by rewrite (bind_eq _ _ _ _ _ (deref_eq _ _ _ Hx)).
Qed.

Lemma plain_set_with_eq (mk : value → value → value → bool → M value)
    (pend : list nat) (s : state) (m x : nat) (info : ObservableInfo)
    (props props1 : list (string * value)) (f : string) (v w : value) :
  heap s !! m = Some (OProxy x strict) →
  heap s !! x = Some (OPlain props) →
  ∀ s1,
  wrap_assigned mk v (VStr f) (VRef m) strict s = Ok w s1 →
  Inv rk strict pend s1 →
  heap s1 !! x = Some (OPlain props1) →
  observableMap s1 !! m = Some info →
  ∃ L,
    plain_set_with mk (VRef m) f v s =
      Ok true (add_calls L (with_obj x (OPlain (alist_set f w props1)) s1)) ∧
    ∀ A q cb,
      bubbles (observableMap s1) (VRef m) (VStr f) A q →
      active (observableMap s1) A cb →
      (cb, mkObservation Change A q w (default VUndef (alist_get f props))) ∈ L.
Proof.
  intros Hm Hx s1 Hw HI1 Hx1 Hinfo1.
  destruct (trigger_stored _ Change w (default VUndef (alist_get f props))
              m x (OPlain (alist_set f w props1)) info (VStr f) s1 HI1 Hinfo1)
    as (L & Hrun & Hev); [by right|].
  exists L. split; [|done].
  unfold plain_set_with.
  rewrite (bind_eq _ _ _ _ _ (proxy_parts_eq _ _ _ _ Hm)).
  rewrite (bind_eq _ _ _ _ _ (plain_Reflect_get_eq _ _ _ _ Hx)).
  rewrite (bind_eq _ _ _ _ _ Hw).
  rewrite (bind_eq _ _ _ _ _ (plain_Reflect_set_eq _ _ _ _ _ Hx1)).
  by rewrite (bind_eq _ _ _ _ _ Hrun).
Qed.

(** *** Arrays *)

Lemma array_get_eq (s : state) (m x : nat) (st : bool)
    (elems : list value) (i : nat) :
  heap s !! m = Some (OProxy x st) →
  heap s !! x = Some (OArray elems) →
  array_get (VRef m) i s = Ok (default VUndef (elems !! i)) s.
Proof.
  intros Hm Hx. unfold array_get.
  rewrite (bind_eq _ _ _ _ _ (proxy_parts_eq _ _ _ _ Hm)).
  unfold array_Reflect_get. by rewrite (bind_eq _ _ _ _ _ (deref_eq _ _ _ Hx)).
Qed.

Lemma array_length_eq (s : state) (m x : nat) (st : bool) (elems : list value) :
  heap s !! m = Some (OProxy x st) →
  heap s !! x = Some (OArray elems) →
  array_length (VRef m) s = Ok (length elems) s.
Proof.
  intros Hm Hx. unfold array_length.
  rewrite (bind_eq _ _ _ _ _ (proxy_parts_eq _ _ _ _ Hm)).
  by rewrite (bind_eq _ _ _ _ _ (deref_eq _ _ _ Hx)).
Qed.

Lemma array_set_with_eq (mk : value → value → value → bool → M value)
    (pend : list nat) (s : state) (m x : nat) (info : ObservableInfo)
    (elems : list value) (i : nat) (w : value) :
  Inv rk strict pend s →
  heap s !! m = Some (OProxy x strict) →
  observableMap s !! m = Some info →
  heap s !! x = Some (OArray elems) →
  wrap_assigned mk w (VStr (pretty i)) (VRef m) strict s = Ok w s →
  ∃ L,
    array_set_with mk (VRef m) i w s =
      Ok true (add_calls L (with_obj x (OArray (array_write i w elems)) s)) ∧
    ∀ A q cb,
      bubbles (observableMap s) (VRef m) (VStr (pretty i)) A q →
      active (observableMap s) A cb →
      (cb, mkObservation Change A q w (default VUndef (elems !! i))) ∈ L.
Proof.
  intros HI Hm Hinfo Hx Hw.
  destruct (trigger_stored _ Change w (default VUndef (elems !! i))
              m x (OArray (array_write i w elems)) info (VStr (pretty i)) s HI Hinfo)
    as (L & Hrun & Hev); [by right|].
  exists L. split; [|done]. unfold array_set_with.
  rewrite (bind_eq _ _ _ _ _ (proxy_parts_eq _ _ _ _ Hm)).
  assert (array_Reflect_get x i s = Ok (default VUndef (elems !! i)) s) as Hget.
  { unfold array_Reflect_get. by rewrite (bind_eq _ _ _ _ _ (deref_eq _ _ _ Hx)). }
  rewrite (bind_eq _ _ _ _ _ Hget).
  rewrite (bind_eq _ _ _ _ _ Hw).
  assert (array_Reflect_set x i w s =
            Ok true (with_obj x (OArray (array_write i w elems)) s)) as Hset.
  { unfold array_Reflect_set. by rewrite (bind_eq _ _ _ _ _ (deref_eq _ _ _ Hx)). }
  rewrite (bind_eq _ _ _ _ _ Hset).
  by rewrite (bind_eq _ _ _ _ _ Hrun).
Qed.

(** An append at the end reports the new length as the path. *)
Lemma array_push_eq (pend : list nat) (s : state) (m x : nat) (st : bool)
    (info : ObservableInfo) (elems : list value) (v : value) :
  Inv rk strict pend s →
  heap s !! m = Some (OProxy x st) →
  observableMap s !! m = Some info →
  heap s !! x = Some (OArray elems) →
  ∃ L,
    array_method (VRef m) "push" [v] s =
      Ok (VNum (Z.of_nat (length (elems ++ [v]))))
         (add_calls L (with_obj x (OArray (elems ++ [v])) s)) ∧
    ∀ A q cb,
      bubbles (observableMap s) (VRef m)
              (VStr (pretty (length (elems ++ [v])))) A q →
      active (observableMap s) A cb →
      (cb, mkObservation Change A q v VUndef) ∈ L.
Proof.
  intros HI Hm Hinfo Hx.
  destruct (trigger_stored _ Change v VUndef
              m x (OArray (elems ++ [v])) info
              (VStr (pretty (length (elems ++ [v])))) s HI Hinfo)
    as (L & Hrun & Hev); [by right|].
  exists L. split; [|done]. unfold array_method.
  rewrite (bind_eq _ _ _ _ _ (proxy_parts_eq _ _ _ _ Hm)).
  rewrite (bind_eq _ _ _ _ _ (deref_eq _ _ _ Hx)).
  assert (array_apply x "push" [v] elems s =
            Ok (VNum (Z.of_nat (length (elems ++ [v]))))
               (with_obj x (OArray (elems ++ [v])) s)) as Happ by reflexivity.
  rewrite (bind_eq _ _ _ _ _ Happ).
  assert (Hm' : heap (with_obj x (OArray (elems ++ [v])) s) !! m = Some (OProxy x st)).
  { simpl. rewrite list_lookup_insert_ne; [done|]. intros <-. rewrite Hm in Hx. done. }
  assert (Hx' : heap (with_obj x (OArray (elems ++ [v])) s) !! x
                = Some (OArray (elems ++ [v]))).
  { simpl. rewrite list_lookup_insert_eq; [done|]. by eapply lookup_lt_Some. }
  rewrite decide_True by done. change (arg 0 [v]) with v.
  erewrite bind_eq; [reflexivity|].
  by rewrite (bind_eq _ _ _ _ _ (array_length_eq _ _ _ _ _ Hm' Hx')).
Qed.

(** A removal from the end reports the length afterwards plus one, which
    is the old length of an array that was not empty. *)
Lemma array_pop_eq (pend : list nat) (s : state) (m x : nat) (st : bool)
    (info : ObservableInfo) (elems : list value) :
  Inv rk strict pend s →
  heap s !! m = Some (OProxy x st) →
  observableMap s !! m = Some info →
  heap s !! x = Some (OArray elems) →
  ∃ L,
    array_method (VRef m) "pop" [] s =
      Ok (default VUndef (last elems))
         (add_calls L (with_obj x (OArray (removelast elems)) s)) ∧
    ∀ A q cb,
      bubbles (observableMap s) (VRef m)
              (VStr (pretty (length (removelast elems) + 1))) A q →
      active (observableMap s) A cb →
      (cb, mkObservation Change A q VUndef (default VUndef (last elems))) ∈ L.
Proof.
  intros HI Hm Hinfo Hx.
  destruct (trigger_stored _ Change VUndef (default VUndef (last elems))
              m x (OArray (removelast elems)) info
              (VStr (pretty (length (removelast elems) + 1))) s HI Hinfo)
    as (L & Hrun & Hev); [by right|].
  exists L. split; [|done]. unfold array_method.
  rewrite (bind_eq _ _ _ _ _ (proxy_parts_eq _ _ _ _ Hm)).
  rewrite (bind_eq _ _ _ _ _ (deref_eq _ _ _ Hx)).
  assert (array_apply x "pop" [] elems s =
            Ok (default VUndef (last elems))
               (with_obj x (OArray (removelast elems)) s)) as Happ by reflexivity.
  rewrite (bind_eq _ _ _ _ _ Happ).
  assert (Hm' : heap (with_obj x (OArray (removelast elems)) s) !! m
                = Some (OProxy x st)).
  { simpl. rewrite list_lookup_insert_ne; [done|]. intros <-. rewrite Hm in Hx. done. }
  assert (Hx' : heap (with_obj x (OArray (removelast elems)) s) !! x
                = Some (OArray (removelast elems))).
  { simpl. rewrite list_lookup_insert_eq; [done|]. by eapply lookup_lt_Some. }
  rewrite decide_False by done. rewrite decide_True by done.
  erewrite bind_eq; [reflexivity|].
  by rewrite (bind_eq _ _ _ _ _ (array_length_eq _ _ _ _ _ Hm' Hx')).
Qed.

(** *** Sets *)

Lemma set_values_eq (s : state) (m x : nat) (st weak : bool) (items : list value) :
  heap s !! m = Some (OProxy x st) →
  heap s !! x = Some (OSet weak items) →
  set_values (VRef m) s = Ok items s.
Proof.
  intros Hm Hx. unfold set_values.
  rewrite (bind_eq _ _ _ _ _ (proxy_parts_eq _ _ _ _ Hm)).
  by rewrite (bind_eq _ _ _ _ _ (deref_eq _ _ _ Hx)).
Qed.

Lemma set_delete_eq (pend : list nat) (s : state) (m x : nat) (st : bool)
    (info : ObservableInfo) (items : list value) (item : value) :
  Inv rk strict pend s →
  heap s !! m = Some (OProxy x st) →
  observableMap s !! m = Some info →
  heap s !! x = Some (OSet false items) →
  ∃ L,
    set_method (VRef m) "delete" [item] s =
      Ok (VBool (bool_decide (item ∈ items)))
         (add_calls L (with_obj x (OSet false (set_remove item items)) s)).
Proof.
  intros HI Hm Hinfo Hx.
  destruct (trigger_stored _ Change VUndef item
              m x (OSet false (set_remove item items)) info (VStr "*") s HI Hinfo)
    as (L & Hrun & _); [by right|].
  exists L. unfold set_method.
  rewrite (bind_eq _ _ _ _ _ (proxy_parts_eq _ _ _ _ Hm)).
  rewrite (bind_eq _ _ _ _ _ (deref_eq _ _ _ Hx)).
  change (set_modifying false "delete") with true. cbv iota.
  assert (set_apply x false "delete" [item] items s =
            Ok (VBool (bool_decide (item ∈ items)))
               (with_obj x (OSet false (set_remove item items)) s)) as Happ
    by reflexivity.
  rewrite (bind_eq _ _ _ _ _ Happ).
  change (arg 0 [item]) with item in *.
  assert ((if decide ("delete" = "add")
           then triggerObserver Change (VRef m) (VStr "*") item VUndef
           else if decide ("delete" = "delete")
                then triggerObserver Change (VRef m) (VStr "*") VUndef item
                else triggerObserver Change (VRef m) (VStr "*") VUndef VUndef) =
          triggerObserver Change (VRef m) (VStr "*") VUndef item) as -> by reflexivity.
  by rewrite (bind_eq _ _ _ _ _ Hrun).
Qed.

Lemma set_add_eq (pend : list nat) (s : state) (m x : nat) (st : bool)
    (info : ObservableInfo) (items : list value) (item : value) :
  Inv rk strict pend s →
  heap s !! m = Some (OProxy x st) →
  observableMap s !! m = Some info →
  heap s !! x = Some (OSet false items) →
  ∃ L,
    set_method (VRef m) "add" [item] s =
      Ok (VRef x)
         (add_calls L (with_obj x (OSet false (set_insert item items)) s)).
Proof.
  intros HI Hm Hinfo Hx.
  destruct (trigger_stored _ Change item VUndef
              m x (OSet false (set_insert item items)) info (VStr "*") s HI Hinfo)
    as (L & Hrun & _); [by right|].
  exists L. unfold set_method.
  rewrite (bind_eq _ _ _ _ _ (proxy_parts_eq _ _ _ _ Hm)).
  rewrite (bind_eq _ _ _ _ _ (deref_eq _ _ _ Hx)).
  change (set_modifying false "add") with true. cbv iota.
  assert (set_apply x false "add" [item] items s =
            Ok (VRef x) (with_obj x (OSet false (set_insert item items)) s)) as Happ
    by reflexivity.
  rewrite (bind_eq _ _ _ _ _ Happ).
  change (arg 0 [item]) with item in *.
  assert ((if decide ("add" = "add")
           then triggerObserver Change (VRef m) (VStr "*") item VUndef
           else if decide ("add" = "delete")
                then triggerObserver Change (VRef m) (VStr "*") VUndef item
                else triggerObserver Change (VRef m) (VStr "*") VUndef VUndef) =
          triggerObserver Change (VRef m) (VStr "*") item VUndef) as -> by reflexivity.
  by rewrite (bind_eq _ _ _ _ _ Hrun).
Qed.

(** *** Maps *)

Lemma map_entries_eq (s : state) (m x : nat) (st weak : bool)
    (entries : list (value * value)) :
  heap s !! m = Some (OProxy x st) →
  heap s !! x = Some (OMap weak entries) →
  map_entries (VRef m) s = Ok entries s.
Proof.
  intros Hm Hx. unfold map_entries.
  rewrite (bind_eq _ _ _ _ _ (proxy_parts_eq _ _ _ _ Hm)).
  by rewrite (bind_eq _ _ _ _ _ (deref_eq _ _ _ Hx)).
Qed.

Lemma map_delete_eq (pend : list nat) (s : state) (m x : nat) (st : bool)
    (info : ObservableInfo) (entries : list (value * value)) (key : value) :
  Inv rk strict pend s →
  heap s !! m = Some (OProxy x st) →
  observableMap s !! m = Some info →
  heap s !! x = Some (OMap false entries) →
  info_parent info = VNull ∨ printable key →
  ∃ L,
    map_method (VRef m) "delete" [key] s =
      Ok (VBool (bool_decide (is_Some (alist_get key entries))))
         (add_calls L (with_obj x (OMap false (alist_remove key entries)) s)) ∧
    ∀ A q cb,
      bubbles (observableMap s) (VRef m) key A q →
      active (observableMap s) A cb →
      (cb, mkObservation Change A q VUndef VUndef) ∈ L.
Proof.
  intros HI Hm Hinfo Hx Hkey.
  destruct (trigger_stored _ Change VUndef VUndef
              m x (OMap false (alist_remove key entries)) info key s HI Hinfo)
    as (L & Hrun & Hev); [done|].
  exists L. split; [|done]. unfold map_method.
  rewrite (bind_eq _ _ _ _ _ (proxy_parts_eq _ _ _ _ Hm)).
  rewrite (bind_eq _ _ _ _ _ (deref_eq _ _ _ Hx)).
  change (map_modifying false "delete") with true. cbv iota.
  assert (map_apply x false "delete" [key] entries s =
            Ok (VBool (bool_decide (is_Some (alist_get key entries))))
               (with_obj x (OMap false (alist_remove key entries)) s)) as Happ
    by reflexivity.
  rewrite (bind_eq _ _ _ _ _ Happ).
  change (arg 0 [key]) with key in *. change (arg 1 [key]) with VUndef in *.
  assert ((if decide ("delete" = "set")
           then triggerObserver Change (VRef m) key VUndef
                  (if decide ("delete" = "set")
                   then default VUndef (alist_get key entries) else VUndef)
           else if decide ("delete" = "delete")
                then triggerObserver Change (VRef m) key VUndef VUndef
                else triggerObserver Change (VRef m) (VStr "*") VUndef VUndef) =
          triggerObserver Change (VRef m) key VUndef VUndef) as -> by reflexivity.
  by rewrite (bind_eq _ _ _ _ _ Hrun).
Qed.

Lemma map_set_eq (pend : list nat) (s : state) (m x : nat) (st : bool)
    (info : ObservableInfo) (entries : list (value * value)) (key w : value) :
  Inv rk strict pend s →
  heap s !! m = Some (OProxy x st) →
  observableMap s !! m = Some info →
  heap s !! x = Some (OMap false entries) →
  info_parent info = VNull ∨ printable key →
  ∃ L,
    map_method (VRef m) "set" [key; w] s =
      Ok (VRef x)
         (add_calls L (with_obj x (OMap false (alist_set key w entries)) s)) ∧
    ∀ A q cb,
      bubbles (observableMap s) (VRef m) key A q →
      active (observableMap s) A cb →
      (cb, mkObservation Change A q w (default VUndef (alist_get key entries))) ∈ L.
Proof.
  intros HI Hm Hinfo Hx Hkey.
  destruct (trigger_stored _ Change w (default VUndef (alist_get key entries))
              m x (OMap false (alist_set key w entries)) info key s HI Hinfo)
    as (L & Hrun & Hev); [done|].
  exists L. split; [|done]. unfold map_method.
  rewrite (bind_eq _ _ _ _ _ (proxy_parts_eq _ _ _ _ Hm)).
  rewrite (bind_eq _ _ _ _ _ (deref_eq _ _ _ Hx)).
  change (map_modifying false "set") with true. cbv iota.
  assert (map_apply x false "set" [key; w] entries s =
            Ok (VRef x) (with_obj x (OMap false (alist_set key w entries)) s)) as Happ
    by reflexivity.
  rewrite (bind_eq _ _ _ _ _ Happ).
  change (arg 0 [key; w]) with key in *. change (arg 1 [key; w]) with w in *.
  assert ((if decide ("set" = "set")
           then triggerObserver Change (VRef m) key w
                  (if decide ("set" = "set")
                   then default VUndef (alist_get key entries) else VUndef)
           else if decide ("set" = "delete")
                then triggerObserver Change (VRef m) key VUndef w
                else triggerObserver Change (VRef m) (VStr "*") VUndef VUndef) =
          triggerObserver Change (VRef m) key w
            (default VUndef (alist_get key entries))) as -> by reflexivity.
  by rewrite (bind_eq _ _ _ _ _ Hrun).
Qed.
End ops.

(** ** Events seen by the ancestors *)

Lemma bubbles_mono (om om' : gmap nat ObservableInfo) (t p A q : value) :
  om ⊆ om' → bubbles om t p A q → bubbles om' t p A q.
Proof.
  intros Hsub Hb. induction Hb.
  - constructor.
  - eapply bubbles_up; eauto. eapply lookup_weaken; eauto.
Qed.

Lemma active_mono (om om' : gmap nat ObservableInfo) (A : value) (cb : nat) :
  om ⊆ om' → active om A cb → active om' A cb.
Proof.
  intros Hsub (a & info & -> & Ha & Hin & Hp).
  exists a, info. repeat split; try done. eapply lookup_weaken; eauto.
Qed.

(** ** The passes over the members *)

Section loops.
Variable rk : nat → nat.
Variable strict : bool.
Variable n : nat.
Hypothesis IH : mk_spec rk strict n.
Hypothesis Hn : 0 < n.

(** Making a member observable, and assigning the result through the
    [set] trap, which finds nothing left to wrap. *)
Lemma wrap_member (pend : list nat) (s : state) (m : nat)
    (item name : value) (rx : nat) :
  Inv rk strict pend s →
  okchild rk strict s rx item → typeof item = TObject → rx ≤ n →
  is_registered s m → nameable name →
  ∃ w s',
    makeObservable n item name (VRef m) strict s = Ok w s' ∧
    Inv rk strict pend s' ∧ ext rk rx s s' ∧
    settled strict s' w ∧ okchild rk strict s' rx w ∧ typeof w = TObject ∧
    wrap_assigned (makeObservable n) w name (VRef m) strict s' = Ok w s'.
Proof.
  intros HI Hok Hty Hrx Hm Hname.
  destruct item as [| | | | | | |b]; try done.
  destruct (IH b name (VRef m) s rx pend HI Hok Hrx Hn)
    as (w & s' & Hrun & HI' & He & Hout).
  { unfold parent_arg_ok. apply andb_True. done. }
  exists w, s'. do 3 (split; [done|]).
  unfold outcome in Hout. unfold wrap_assigned.
  destruct (is_registered s b) eqn:Hreg.
  - destruct Hout as [-> ->]. simpl. rewrite Hreg. simpl.
    do 3 (split; [done|]).
    rewrite (bind_eq _ _ _ _ _ (isObservable_ref _ _)). by rewrite Hreg.
  - destruct (heap s !! b) as [o|] eqn:Ho; [|done].
    destruct (passthrough strict o) eqn:Hpt.
    + destruct Hout as [-> ->]. split; [|split; [done|split; [done|]]].
      * simpl. by rewrite Hreg, Ho, Hpt.
      * simpl. rewrite (bind_eq _ _ _ _ _ (isObservable_ref _ _)).
        by rewrite Hreg.
    + destruct Hout as (-> & Hinfo & Hprox & _).
      assert (is_registered s' (length (heap s)) = true) as Hreg'
        by (unfold is_registered; by rewrite Hinfo).
      simpl. rewrite Hreg'. simpl. do 3 (split; [done|]).
      rewrite (bind_eq _ _ _ _ _ (isObservable_ref _ _)). by rewrite Hreg'.
Qed.

(** *** Plain objects *)

Lemma plain_loop (pend : list nat) (m x : nat) (info0 : ObservableInfo)
    (ks : list string) :
  ∀ (s : state) (props : list (string * value)),
    Inv rk strict (m :: pend) s →
    heap s !! m = Some (OProxy x strict) →
    observableMap s !! m = Some info0 →
    heap s !! x = Some (OPlain props) →
    0 < rk x → rk x ≤ n →
    NoDup ks →
    ∃ s' props',
      forM ks (wrap_plain_member (makeObservable n) (VRef m) strict) s = Ok tt s' ∧
      Inv rk strict (m :: pend) s' ∧ ext rk (S (rk x)) s s' ∧
      heap s' !! x = Some (OPlain props') ∧
      (∀ f c, (f, c) ∈ props' →
              settled strict s' c ∨ ((f, c) ∈ props ∧ f ∉ ks)) ∧
      ∃ L, calls s' = calls s ++ L ∧
        ∀ f c A q cb,
          f ∈ ks → (f, c) ∈ props → typeof c = TObject →
          bubbles (observableMap s) (VRef m) (VStr f) A q →
          active (observableMap s) A cb →
          ∃ w, (cb, mkObservation Change A q w c) ∈ L.
Proof.
  induction ks as [|f0 ks IHks]; intros s props HI Hm Hinfo Hx Hrk Hrkn Hnd.
  - exists s, props. simpl. split; [done|]. split; [done|].
    split; [apply ext_refl|]. split; [done|]. split.
    + intros f c Hin. right. split; [done|]. apply not_elem_of_nil.
    + exists []. split; [by rewrite app_nil_r|].
      intros f c A q cb Hf. by apply elem_of_nil in Hf.
  - apply NoDup_cons in Hnd as [Hf0 Hnd].
    destruct (inv_obj _ _ _ _ HI _ _ Hx Hrk) as [Hwf Hok]. simpl in Hwf, Hok.
    apply bool_decide_unpack in Hwf.
    pose proof (plain_get_eq s m x strict props f0 Hm Hx) as Hread.
    change (forM (f0 :: ks) ?b s) with (bind (b f0) (λ _, forM ks b) s).
    destruct (decide (typeof (default VUndef (alist_get f0 props)) = TObject))
      as [Hty|Hty].
    + (* the member is an object *)
      destruct (alist_get f0 props) as [c0|] eqn:Hget; [|done].
      simpl in Hty, Hread.
      pose proof (alist_get_elem_of _ _ _ Hget) as Hin0.
      assert (okchild rk strict s (rk x) c0) as Hc0.
      { rewrite Forall_forall in Hok. apply Hok, elem_of_snd. eauto. }
      assert (is_registered s m) as Hregm
        by (unfold is_registered; by rewrite Hinfo).
      destruct (wrap_member _ _ m c0 (VStr f0) _ HI Hc0 Hty Hrkn Hregm)
        as (w & s1 & Hrun & HI1 & He1 & Hset & Hokw & Htyw & Hassign); [done|].
      assert (heap s1 !! x = Some (OPlain props)) as Hx1
        by (eapply ext_frame; eauto).
      pose proof (ext_proxy _ _ _ _ _ _ _ He1 Hm) as Hm1.
      assert (observableMap s1 !! m = Some info0) as Hinfo1.
      { rewrite (ext_map _ _ _ _ He1); [done|]. by eapply lookup_lt_Some. }
      destruct (plain_set_with_eq rk strict (makeObservable n) _ s1 m x info0
                  props props f0 w w Hm1 Hx1 s1 Hassign HI1 Hx1 Hinfo1)
        as (L2 & Hset2 & Hev2).
      set (props2 := alist_set f0 w props) in *.
      set (s2 := with_obj x (OPlain props2) s1) in *.
      assert (f0 ∈ props.*1) as Hf0in.
      { apply list_elem_of_fmap. by exists (f0, c0). }
      assert (Inv rk strict (m :: pend) s2) as HI2.
      { apply (Inv_with_obj rk strict _ x (OPlain props) (OPlain props2) s1 HI1 Hx1);
          [done|done|done| | |].
        - simpl. apply bool_decide_pack. unfold props2.
          by rewrite alist_set_fst.
        - simpl. apply Forall_forall. intros c [k Hk]%elem_of_snd.
          apply elem_of_alist_set_weak in Hk as [[-> ->]|Hk]; [done|].
          apply (okchild_ext rk strict _ _ _ s s1 _ HI He1).
          rewrite Forall_forall in Hok. apply Hok, elem_of_snd. eauto.
        - simpl. intros c [k Hk]%elem_of_snd.
          apply elem_of_alist_set_weak in Hk as [[-> ->]|Hk]; [by right|].
          left. apply elem_of_snd. eauto. }
      assert (ext rk (S (rk x)) s1 s2) as He2.
      { apply (ext_with_obj rk _ x (OPlain props) _ s1 Hx1); [done|lia]. }
      pose proof (Inv_add_calls _ _ _ L2 _ HI2) as HI3.
      destruct (IHks (add_calls L2 s2) props2 HI3) as
        (s' & props' & Hloop & HI' & He' & Hx' & Hmem' & L' & Hcalls' & Hev');
        try done.
      { simpl. rewrite list_lookup_insert_ne; [done|].
        intros <-. rewrite Hm1 in Hx1. done. }
      { simpl. rewrite list_lookup_insert_eq; [done|]. by eapply lookup_lt_Some. }
      exists s', props'.
      assert (ext rk (S (rk x)) s (add_calls L2 s2)) as He3.
      { eapply ext_trans; [eapply ext_weaken; [|exact He1]; lia|].
        eapply ext_trans; [exact He2|]. apply ext_add_calls. }
      split.
      { erewrite bind_eq; [exact Hloop|]. unfold wrap_plain_member.
        rewrite (bind_eq _ _ _ _ _ Hread). rewrite decide_True by done.
        rewrite (bind_eq _ _ _ _ _ Hread).
        rewrite (bind_eq _ _ _ _ _ Hrun).
        by rewrite (bind_eq _ _ _ _ _ Hset2). }
      split; [done|]. split; [by eapply ext_trans|]. split; [done|].
      split.
      { intros f c Hin. destruct (Hmem' _ _ Hin) as [Hs|[Hin2 Hnk]]; [by left|].
        unfold props2 in Hin2.
        apply elem_of_alist_set in Hin2 as [[-> ->]|[Hin2 Hne]]; [|right|done].
        - left. eapply settled_ext; [exact HI1| |exact Hset].
          eapply ext_trans; [exact He2|].
          eapply ext_trans; [apply ext_add_calls|exact He'].
        - split; [done|]. apply not_elem_of_cons. done. }
      destruct (ext_calls _ _ _ _ He1) as [L1 HL1].
      exists (L1 ++ L2 ++ L'). split.
      { rewrite Hcalls'. simpl. rewrite HL1. by rewrite <- !app_assoc. }
      intros f c A q cb Hf Hin Htyc Hb Hact.
      pose proof (ext_registry _ _ _ _ _ _ HI He1) as Hsub1.
      apply elem_of_cons in Hf as [->|Hf].
      * pose proof (elem_of_alist_get _ _ _ Hwf Hin) as Hget'.
        rewrite Hget in Hget'. injection Hget' as <-.
        exists w. apply elem_of_app. right. apply elem_of_app. left.
        specialize (Hev2 A q cb). rewrite Hget in Hev2. simpl in Hev2.
        apply Hev2; [eapply bubbles_mono|eapply active_mono]; eauto.
      * pose proof (ext_registry _ _ _ _ _ _ HI He3) as Hsub3.
        destruct (Hev' f c A q cb) as [w' Hw']; try done.
        -- unfold props2. destruct (decide (f = f0)) as [->|Hne]; [done|].
           clear -Hin Hne. induction props as [|[k v] props IHp]; simpl.
           ++ by apply elem_of_nil in Hin.
           ++ destruct (decide (f0 = k)) as [->|].
              ** apply elem_of_cons in Hin as [[= -> ->]|Hin]; [done|]. by right.
              ** apply elem_of_cons in Hin as [[= -> ->]|Hin]; [by left|].
                 right. auto.
        -- eapply bubbles_mono; eauto.
        -- eapply active_mono; eauto.
        -- exists w'. apply elem_of_app. right. apply elem_of_app. by right.
    + (* the member is not an object *)
      destruct (IHks s props HI Hm Hinfo Hx Hrk Hrkn Hnd) as
        (s' & props' & Hloop & HI' & He' & Hx' & Hmem' & L' & Hcalls' & Hev').
      exists s', props'. split.
      { erewrite bind_eq; [exact Hloop|]. unfold wrap_plain_member.
        rewrite (bind_eq _ _ _ _ _ Hread). by rewrite decide_False. }
      do 3 (split; [done|]).
      split.
      { intros f c Hin. destruct (Hmem' _ _ Hin) as [Hs|[Hin2 Hnk]]; [by left|].
        destruct (decide (f = f0)) as [->|Hne].
        - left. pose proof (elem_of_alist_get _ _ _ Hwf Hin2) as Hget.
          rewrite Hget in Hty. simpl in Hty.
          assert (okchild rk strict s (rk x) c) as Hc.
          { rewrite Forall_forall in Hok. apply Hok, elem_of_snd. eauto. }
          destruct c; simpl in *; done.
        - right. split; [done|]. apply not_elem_of_cons. done. }
      exists L'. split; [done|].
      intros f c A q cb Hf Hin Htyc Hb Hact.
      apply elem_of_cons in Hf as [->|Hf]; [|eauto].
      pose proof (elem_of_alist_get _ _ _ Hwf Hin) as Hget.
      rewrite Hget in Hty. done.
Qed.

(** *** Arrays *)

Lemma elem_of_list_insert_inv {A} (l : list A) (i : nat) (x y : A) :
  y ∈ <[i := x]> l → y = x ∨ y ∈ l.
Proof.
  intros [j Hj]%list_elem_of_lookup.
  apply list_lookup_insert_Some in Hj as [(-> & -> & _)|[_ Hj]]; [by left|].
  right. by eapply list_elem_of_lookup_2.
Qed.

Lemma array_loop (pend : list nat) (m x : nat) (info0 : ObservableInfo)
    (ixs : list nat) :
  ∀ (s : state) (elems : list value),
    Inv rk strict (m :: pend) s →
    heap s !! m = Some (OProxy x strict) →
    observableMap s !! m = Some info0 →
    heap s !! x = Some (OArray elems) →
    0 < rk x → rk x ≤ n →
    NoDup ixs →
    (∀ i, i ∈ ixs → i < length elems) →
    ∃ s' elems',
      forM ixs (wrap_array_member (makeObservable n) (VRef m) strict) s = Ok tt s' ∧
      Inv rk strict (m :: pend) s' ∧ ext rk (S (rk x)) s s' ∧
      heap s' !! x = Some (OArray elems') ∧
      (∀ i c, elems' !! i = Some c →
              settled strict s' c ∨ (elems !! i = Some c ∧ i ∉ ixs)) ∧
      ∃ L, calls s' = calls s ++ L ∧
        ∀ i c A q cb,
          i ∈ ixs → elems !! i = Some c → typeof c = TObject →
          bubbles (observableMap s) (VRef m) (VStr (pretty i)) A q →
          active (observableMap s) A cb →
          ∃ w, (cb, mkObservation Change A q w c) ∈ L.
Proof.
  induction ixs as [|i0 ixs IHixs]; intros s elems HI Hm Hinfo Hx Hrk Hrkn Hnd Hlt.
  - exists s, elems. simpl. split; [done|]. split; [done|].
    split; [apply ext_refl|]. split; [done|]. split.
    + intros i c Hin. right. split; [done|]. apply not_elem_of_nil.
    + exists []. split; [by rewrite app_nil_r|].
      intros i c A q cb Hi. by apply elem_of_nil in Hi.
  - apply NoDup_cons in Hnd as [Hi0n Hnd].
    destruct (inv_obj _ _ _ _ HI _ _ Hx Hrk) as [_ Hok]. simpl in Hok.
    pose proof (array_get_eq s m x strict elems i0 Hm Hx) as Hread.
    assert (i0 < length elems) as Hi0 by (apply Hlt; by left).
    destruct (lookup_lt_is_Some_2 _ _ Hi0) as [c0 Hc0].
    rewrite Hc0 in Hread. simpl in Hread.
    assert (okchild rk strict s (rk x) c0) as Hokc0.
    { rewrite Forall_forall in Hok. by eapply Hok, list_elem_of_lookup_2. }
    change (forM (i0 :: ixs) ?b s) with (bind (b i0) (λ _, forM ixs b) s).
    destruct (decide (typeof c0 = TObject)) as [Hty|Hty].
    + assert (is_registered s m) as Hregm
        by (unfold is_registered; by rewrite Hinfo).
      destruct (wrap_member _ _ m c0 (VStr (pretty i0)) _ HI Hokc0 Hty Hrkn Hregm)
        as (w & s1 & Hrun & HI1 & He1 & Hset & Hokw & Htyw & Hassign); [done|].
      assert (heap s1 !! x = Some (OArray elems)) as Hx1
        by (eapply ext_frame; eauto).
      pose proof (ext_proxy _ _ _ _ _ _ _ He1 Hm) as Hm1.
      assert (observableMap s1 !! m = Some info0) as Hinfo1.
      { rewrite (ext_map _ _ _ _ He1); [done|]. by eapply lookup_lt_Some. }
      destruct (array_set_with_eq rk strict (makeObservable n) _ s1 m x info0
                  elems i0 w HI1 Hm1 Hinfo1 Hx1 Hassign) as (L2 & Hset2 & Hev2).
      assert (array_write i0 w elems = <[i0 := w]> elems) as Hwrite
        by (unfold array_write; by rewrite decide_True).
      rewrite Hwrite in Hset2.
      set (elems2 := <[i0 := w]> elems) in *.
      set (s2 := with_obj x (OArray elems2) s1) in *.
      assert (Inv rk strict (m :: pend) s2) as HI2.
      { apply (Inv_with_obj rk strict _ x (OArray elems) (OArray elems2) s1 HI1 Hx1);
          [done|done|done|done| |].
        - simpl. apply Forall_forall. intros c [->|Hc]%elem_of_list_insert_inv; [done|].
          apply (okchild_ext rk strict _ _ _ s s1 _ HI He1).
          rewrite Forall_forall in Hok. by apply Hok.
        - simpl. intros c [->|Hc]%elem_of_list_insert_inv; [by right|by left]. }
      assert (ext rk (S (rk x)) s1 s2) as He2.
      { apply (ext_with_obj rk _ x (OArray elems) _ s1 Hx1); [done|lia]. }
      pose proof (Inv_add_calls _ _ _ L2 _ HI2) as HI3.
      assert (ext rk (S (rk x)) s (add_calls L2 s2)) as He3.
      { eapply ext_trans; [eapply ext_weaken; [|exact He1]; lia|].
        eapply ext_trans; [exact He2|]. apply ext_add_calls. }
      destruct (IHixs (add_calls L2 s2) elems2 HI3) as
        (s' & elems' & Hloop & HI' & He' & Hx' & Hmem' & L' & Hcalls' & Hev');
        try done.
      { simpl. rewrite list_lookup_insert_ne; [done|].
        intros <-. rewrite Hm1 in Hx1. done. }
      { simpl. rewrite list_lookup_insert_eq; [done|]. by eapply lookup_lt_Some. }
      { intros i Hi. unfold elems2. rewrite length_insert. apply Hlt. by right. }
      exists s', elems'.
      split.
      { erewrite bind_eq; [exact Hloop|]. unfold wrap_array_member.
        rewrite (bind_eq _ _ _ _ _ Hread). rewrite decide_True by done.
        rewrite (bind_eq _ _ _ _ _ Hread).
        rewrite (bind_eq _ _ _ _ _ Hrun).
        by rewrite (bind_eq _ _ _ _ _ Hset2). }
      split; [done|]. split; [by eapply ext_trans|]. split; [done|]. split.
      { intros i c Hin. destruct (Hmem' _ _ Hin) as [Hs|[Hin2 Hnk]]; [by left|].
        unfold elems2 in Hin2.
        apply list_lookup_insert_Some in Hin2 as [(-> & -> & _)|[Hne Hin2]].
        * left. eapply settled_ext; [exact HI1| |exact Hset].
          eapply ext_trans; [exact He2|].
          eapply ext_trans; [apply ext_add_calls|exact He'].
        * right. split; [done|]. apply not_elem_of_cons. done. }
      destruct (ext_calls _ _ _ _ He1) as [L1 HL1].
      exists (L1 ++ L2 ++ L'). split.
      { rewrite Hcalls'. simpl. rewrite HL1. by rewrite <- !app_assoc. }
      intros i c A q cb Hi Hin Htyc Hb Hact.
      pose proof (ext_registry _ _ _ _ _ _ HI He1) as Hsub1.
      apply elem_of_cons in Hi as [->|Hi].
      * rewrite Hc0 in Hin. injection Hin as <-.
        exists w. apply elem_of_app. right. apply elem_of_app. left.
        specialize (Hev2 A q cb). rewrite Hc0 in Hev2. simpl in Hev2.
        apply Hev2; [eapply bubbles_mono|eapply active_mono]; eauto.
      * pose proof (ext_registry _ _ _ _ _ _ HI He3) as Hsub3.
        destruct (Hev' i c A q cb) as [w' Hw']; try done.
        -- unfold elems2. rewrite list_lookup_insert_ne; [done|]. by intros ->.
        -- eapply bubbles_mono; eauto.
        -- eapply active_mono; eauto.
        -- exists w'. apply elem_of_app. right. apply elem_of_app. by right.
    + destruct (IHixs s elems HI Hm Hinfo Hx Hrk Hrkn Hnd) as
        (s' & elems' & Hloop & HI' & He' & Hx' & Hmem' & L' & Hcalls' & Hev').
      { intros i Hi. apply Hlt. by right. }
      exists s', elems'. split.
      { erewrite bind_eq; [exact Hloop|]. unfold wrap_array_member.
        rewrite (bind_eq _ _ _ _ _ Hread). by rewrite decide_False. }
      do 3 (split; [done|]). split.
      { intros i c Hin. destruct (Hmem' _ _ Hin) as [Hs|[Hin2 Hnk]]; [by left|].
        destruct (decide (i = i0)) as [->|Hne].
        * left. rewrite Hc0 in Hin2. injection Hin2 as <-.
          destruct c0; simpl in *; done.
        * right. split; [done|]. apply not_elem_of_cons. done. }
      exists L'. split; [done|].
      intros i c A q cb Hi Hin Htyc Hb Hact.
      apply elem_of_cons in Hi as [->|Hi]; [|eauto].
      rewrite Hc0 in Hin. injection Hin as <-. done.
Qed.

(** *** Sets *)

Lemma elem_of_set_insert (v c : value) (items : list value) :
  c ∈ set_insert v items → c = v ∨ c ∈ items.
Proof.
  unfold set_insert. destruct (decide (v ∈ items)); [by right|].
  intros [?|H]%elem_of_app; [by right|].
  apply list_elem_of_singleton in H. by left.
Qed.

Lemma elem_of_set_remove (v c : value) (items : list value) :
  c ∈ set_remove v items → c ∈ items ∧ c ≠ v.
Proof. unfold set_remove. rewrite list_elem_of_filter. tauto. Qed.

Lemma set_loop (pend : list nat) (m x : nat) (info0 : ObservableInfo)
    (its : list value) :
  ∀ (s : state) (items : list value),
    Inv rk strict (m :: pend) s →
    heap s !! m = Some (OProxy x strict) →
    observableMap s !! m = Some info0 →
    heap s !! x = Some (OSet false items) →
    0 < rk x → rk x ≤ n →
    Forall (λ c, okchild rk strict s (rk x) c) its →
    ∃ s' items',
      forM its (wrap_set_member (makeObservable n) (VRef m) strict) s = Ok tt s' ∧
      Inv rk strict (m :: pend) s' ∧ ext rk (S (rk x)) s s' ∧
      heap s' !! x = Some (OSet false items') ∧
      (∀ c, c ∈ items' → settled strict s' c ∨ (c ∈ items ∧ c ∉ its)).
Proof.
  induction its as [|c0 its IHits]; intros s items HI Hm Hinfo Hx Hrk Hrkn Hoks.
  - exists s, items. simpl. split; [done|]. split; [done|].
    split; [apply ext_refl|]. split; [done|].
    intros c Hin. right. split; [done|]. apply not_elem_of_nil.
  - apply Forall_cons in Hoks as [Hokc0 Hoks].
    destruct (inv_obj _ _ _ _ HI _ _ Hx Hrk) as [_ Hok]. simpl in Hok.
    change (forM (c0 :: its) ?b s) with (bind (b c0) (λ _, forM its b) s).
    destruct (decide (typeof c0 = TObject)) as [Hty|Hty].
    + (* delete *)
      destruct (set_delete_eq rk strict _ s m x strict info0 items c0 HI Hm Hinfo Hx)
        as (La & Hdel).
      set (itemsA := set_remove c0 items) in *.
      set (sA0 := with_obj x (OSet false itemsA) s) in *.
      assert (Inv rk strict (m :: pend) sA0) as HIA0.
      { apply (Inv_with_obj rk strict _ x (OSet false items) (OSet false itemsA) s HI Hx);
          [done|done|done|done| |].
        - simpl. apply Forall_forall. intros c [Hc _]%elem_of_set_remove.
          rewrite Forall_forall in Hok. by apply Hok.
        - simpl. intros c [Hc _]%elem_of_set_remove. by left. }
      assert (ext rk (S (rk x)) s sA0) as HeA0.
      { apply (ext_with_obj rk _ x (OSet false items) _ s Hx); [done|lia]. }
      set (sA := add_calls La sA0) in *.
      pose proof (Inv_add_calls _ _ _ La _ HIA0) as HIA.
      assert (ext rk (S (rk x)) s sA) as HeA.
      { eapply ext_trans; [exact HeA0|apply ext_add_calls]. }
      fold sA in HIA.
      assert (heap sA !! x = Some (OSet false itemsA)) as HxA.
      { simpl. rewrite list_lookup_insert_eq; [done|]. by eapply lookup_lt_Some. }
      pose proof (ext_proxy _ _ _ _ _ _ _ HeA Hm) as HmA.
      assert (observableMap sA !! m = Some info0) as HinfoA by done.
      (* wrap *)
      assert (is_registered sA m) as Hregm
        by (unfold is_registered; by rewrite HinfoA).
      pose proof (okchild_ext rk strict _ _ _ s sA _ HI HeA Hokc0) as Hokc0A.
      destruct (wrap_member _ _ m c0 (VStr "") _ HIA Hokc0A Hty Hrkn Hregm)
        as (w & s1 & Hrun & HI1 & He1 & Hset & Hokw & Htyw & _); [done|].
      assert (heap s1 !! x = Some (OSet false itemsA)) as Hx1
        by (eapply ext_frame; eauto).
      pose proof (ext_proxy _ _ _ _ _ _ _ He1 HmA) as Hm1.
      assert (observableMap s1 !! m = Some info0) as Hinfo1.
      { rewrite (ext_map _ _ _ _ He1); [done|]. by eapply lookup_lt_Some. }
      (* add *)
      destruct (set_add_eq rk strict _ s1 m x strict info0 itemsA w HI1 Hm1 Hinfo1 Hx1)
        as (L2 & Hadd).
      set (items2 := set_insert w itemsA) in *.
      set (s2 := with_obj x (OSet false items2) s1) in *.
      assert (Inv rk strict (m :: pend) s2) as HI2.
      { apply (Inv_with_obj rk strict _ x (OSet false itemsA) (OSet false items2) s1 HI1 Hx1);
          [done|done|done|done| |].
        - simpl. apply Forall_forall. intros c [->|Hc]%elem_of_set_insert; [done|].
          apply elem_of_set_remove in Hc as [Hc _].
          apply (okchild_ext rk strict _ _ _ sA s1 _ HIA He1).
          apply (okchild_ext rk strict _ _ _ s sA _ HI HeA).
          rewrite Forall_forall in Hok. by apply Hok.
        - simpl. intros c [->|Hc]%elem_of_set_insert; [by right|by left]. }
      assert (ext rk (S (rk x)) s1 s2) as He2.
      { apply (ext_with_obj rk _ x (OSet false itemsA) _ s1 Hx1); [done|lia]. }
      pose proof (Inv_add_calls _ _ _ L2 _ HI2) as HI3.
      assert (ext rk (S (rk x)) s (add_calls L2 s2)) as He3.
      { eapply ext_trans; [exact HeA|].
        eapply ext_trans; [eapply ext_weaken; [|exact He1]; lia|].
        eapply ext_trans; [exact He2|]. apply ext_add_calls. }
      destruct (IHits (add_calls L2 s2) items2 HI3) as
        (s' & items' & Hloop & HI' & He' & Hx' & Hmem'); try done.
      { simpl. rewrite list_lookup_insert_ne; [done|].
        intros <-. rewrite Hm1 in Hx1. done. }
      { simpl. rewrite list_lookup_insert_eq; [done|]. by eapply lookup_lt_Some. }
      { eapply Forall_impl; [exact Hoks|]. intros c Hc. simpl in Hc.
        apply (okchild_ext rk strict _ _ _ s _ _ HI He3 Hc). }
      exists s', items'.
      split.
      { erewrite bind_eq; [exact Hloop|]. unfold wrap_set_member.
        rewrite decide_True by done.
        rewrite (bind_eq _ _ _ _ _ Hdel).
        rewrite (bind_eq _ _ _ _ _ Hrun).
        by rewrite (bind_eq _ _ _ _ _ Hadd). }
      split; [done|]. split; [by eapply ext_trans|]. split; [done|].
      intros c Hin. destruct (Hmem' _ Hin) as [Hs|[Hin2 Hnk]]; [by left|].
      unfold items2 in Hin2.
      apply elem_of_set_insert in Hin2 as [->|Hin2].
      * left. eapply settled_ext; [exact HI1| |exact Hset].
        eapply ext_trans; [exact He2|].
        eapply ext_trans; [apply ext_add_calls|exact He'].
      * apply elem_of_set_remove in Hin2 as [Hin2 Hne].
        right. split; [done|]. apply not_elem_of_cons. done.
    + destruct (IHits s items HI Hm Hinfo Hx Hrk Hrkn Hoks) as
        (s' & items' & Hloop & HI' & He' & Hx' & Hmem').
      exists s', items'. split.
      { erewrite bind_eq; [exact Hloop|]. unfold wrap_set_member.
        by rewrite decide_False. }
      do 3 (split; [done|]).
      intros c Hin. destruct (Hmem' _ Hin) as [Hs|[Hin2 Hnk]]; [by left|].
      destruct (decide (c = c0)) as [->|Hne].
      * left. destruct c0; simpl in *; done.
      * right. split; [done|]. apply not_elem_of_cons. done.
Qed.

(** *** Maps *)

Lemma wf_obj_map (entries : list (value * value)) :
  wf_obj (OMap false entries) ↔
  ∀ k c, (k, c) ∈ entries → typeof c = TObject → printable k.
Proof.
  simpl. rewrite forallb_True, Forall_forall. split.
  - intros H k c Hin Hty. specialize (H _ Hin). simpl in H.
    apply orb_True in H as [H|H]; [|done].
    apply negb_True in H. by rewrite bool_decide_true in H.
  - intros H [k c] Hin. simpl. apply orb_True.
    destruct (decide (typeof c = TObject)) as [Hty|Hty].
    + right. eauto.
    + left. by rewrite bool_decide_false.
Qed.

Lemma map_loop (pend : list nat) (m x : nat) (info0 : ObservableInfo)
    (es : list (value * value)) :
  ∀ (s : state) (entries : list (value * value)),
    Inv rk strict (m :: pend) s →
    heap s !! m = Some (OProxy x strict) →
    observableMap s !! m = Some info0 →
    heap s !! x = Some (OMap false entries) →
    0 < rk x → rk x ≤ n →
    Forall (λ e, okchild rk strict s (rk x) e.2 ∧
                 (typeof e.2 = TObject → printable e.1)) es →
    ∃ s' entries',
      forM es (wrap_map_member (makeObservable n) (VRef m) strict) s = Ok tt s' ∧
      Inv rk strict (m :: pend) s' ∧ ext rk (S (rk x)) s s' ∧
      heap s' !! x = Some (OMap false entries') ∧
      (∀ k c, (k, c) ∈ entries' →
              settled strict s' c ∨ ((k, c) ∈ entries ∧ (k, c) ∉ es)).
Proof.
  induction es as [|[k0 c0] es IHes]; intros s entries HI Hm Hinfo Hx Hrk Hrkn Hoks.
  - exists s, entries. simpl. split; [done|]. split; [done|].
    split; [apply ext_refl|]. split; [done|].
    intros k c Hin. right. split; [done|]. apply not_elem_of_nil.
  - apply Forall_cons in Hoks as [[Hokc0 Hpr0] Hoks]. simpl in Hokc0, Hpr0.
    destruct (inv_obj _ _ _ _ HI _ _ Hx Hrk) as [Hwf Hok]. simpl in Hok.
    pose proof (proj1 (wf_obj_map _) Hwf) as Hwf'.
    change (forM ((k0, c0) :: es) ?b s) with (bind (b (k0, c0)) (λ _, forM es b) s).
    destruct (decide (typeof c0 = TObject)) as [Hty|Hty].
    + specialize (Hpr0 Hty).
      (* delete *)
      destruct (map_delete_eq rk strict _ s m x strict info0 entries k0 HI Hm Hinfo Hx)
        as (La & Hdel & _); [by right|].
      set (entriesA := alist_remove k0 entries) in *.
      set (sA0 := with_obj x (OMap false entriesA) s) in *.
      assert (Inv rk strict (m :: pend) sA0) as HIA0.
      { apply (Inv_with_obj rk strict _ x (OMap false entries) (OMap false entriesA) s HI Hx);
          [done|done|done| | |].
        - apply (proj2 (wf_obj_map _)). intros k c [Hc _]%elem_of_alist_remove. eauto.
        - simpl. apply Forall_forall. intros c [k [Hc _]%elem_of_alist_remove]%elem_of_snd.
          rewrite Forall_forall in Hok. apply Hok, elem_of_snd. eauto.
        - simpl. intros c [k [Hc _]%elem_of_alist_remove]%elem_of_snd.
          left. apply elem_of_snd. eauto. }
      assert (ext rk (S (rk x)) s sA0) as HeA0.
      { apply (ext_with_obj rk _ x (OMap false entries) _ s Hx); [done|lia]. }
      set (sA := add_calls La sA0) in *.
      pose proof (Inv_add_calls _ _ _ La _ HIA0) as HIA.
      assert (ext rk (S (rk x)) s sA) as HeA.
      { eapply ext_trans; [exact HeA0|apply ext_add_calls]. }
      fold sA in HIA.
      assert (heap sA !! x = Some (OMap false entriesA)) as HxA.
      { simpl. rewrite list_lookup_insert_eq; [done|]. by eapply lookup_lt_Some. }
      pose proof (ext_proxy _ _ _ _ _ _ _ HeA Hm) as HmA.
      assert (observableMap sA !! m = Some info0) as HinfoA by done.
      (* wrap *)
      assert (is_registered sA m) as Hregm
        by (unfold is_registered; by rewrite HinfoA).
      pose proof (okchild_ext rk strict _ _ _ s sA _ HI HeA Hokc0) as Hokc0A.
      destruct (wrap_member _ _ m c0 k0 _ HIA Hokc0A Hty Hrkn Hregm)
        as (w & s1 & Hrun & HI1 & He1 & Hset & Hokw & Htyw & _);
        [by apply printable_nameable|].
      assert (heap s1 !! x = Some (OMap false entriesA)) as Hx1
        by (eapply ext_frame; eauto).
      pose proof (ext_proxy _ _ _ _ _ _ _ He1 HmA) as Hm1.
      assert (observableMap s1 !! m = Some info0) as Hinfo1.
      { rewrite (ext_map _ _ _ _ He1); [done|]. by eapply lookup_lt_Some. }
      (* set *)
      destruct (map_set_eq rk strict _ s1 m x strict info0 entriesA k0 w
                  HI1 Hm1 Hinfo1 Hx1) as (L2 & Hadd & _); [by right|].
      set (entries2 := alist_set k0 w entriesA) in *.
      set (s2 := with_obj x (OMap false entries2) s1) in *.
      assert (Inv rk strict (m :: pend) s2) as HI2.
      { apply (Inv_with_obj rk strict _ x (OMap false entriesA) (OMap false entries2) s1 HI1 Hx1);
          [done|done|done| | |].
        - apply (proj2 (wf_obj_map _)).
          intros k c [[-> ->]|Hc]%elem_of_alist_set_weak; [done|].
          apply elem_of_alist_remove in Hc as [Hc _]. eauto.
        - simpl. apply Forall_forall.
          intros c [k [[-> ->]|Hc]%elem_of_alist_set_weak]%elem_of_snd; [done|].
          apply elem_of_alist_remove in Hc as [Hc _].
          apply (okchild_ext rk strict _ _ _ sA s1 _ HIA He1).
          apply (okchild_ext rk strict _ _ _ s sA _ HI HeA).
          rewrite Forall_forall in Hok. apply Hok, elem_of_snd. eauto.
        - simpl.
          intros c [k [[-> ->]|Hc]%elem_of_alist_set_weak]%elem_of_snd; [by right|].
          left. apply elem_of_snd. eauto. }
      assert (ext rk (S (rk x)) s1 s2) as He2.
      { apply (ext_with_obj rk _ x (OMap false entriesA) _ s1 Hx1); [done|lia]. }
      pose proof (Inv_add_calls _ _ _ L2 _ HI2) as HI3.
      assert (ext rk (S (rk x)) s (add_calls L2 s2)) as He3.
      { eapply ext_trans; [exact HeA|].
        eapply ext_trans; [eapply ext_weaken; [|exact He1]; lia|].
        eapply ext_trans; [exact He2|]. apply ext_add_calls. }
      destruct (IHes (add_calls L2 s2) entries2 HI3) as
        (s' & entries' & Hloop & HI' & He' & Hx' & Hmem'); try done.
      { simpl. rewrite list_lookup_insert_ne; [done|].
        intros <-. rewrite Hm1 in Hx1. done. }
      { simpl. rewrite list_lookup_insert_eq; [done|]. by eapply lookup_lt_Some. }
      { eapply Forall_impl; [exact Hoks|]. intros e [Hc Hp]. split; [|done].
        apply (okchild_ext rk strict _ _ _ s _ _ HI He3 Hc). }
      exists s', entries'.
      split.
      { erewrite bind_eq; [exact Hloop|]. unfold wrap_map_member.
        rewrite decide_True by done.
        rewrite (bind_eq _ _ _ _ _ Hdel).
        rewrite (bind_eq _ _ _ _ _ Hrun).
        by rewrite (bind_eq _ _ _ _ _ Hadd). }
      split; [done|]. split; [by eapply ext_trans|]. split; [done|].
      intros k c Hin. destruct (Hmem' _ _ Hin) as [Hs|[Hin2 Hnk]]; [by left|].
      unfold entries2 in Hin2.
      apply elem_of_alist_set_weak in Hin2 as [[-> ->]|Hin2].
      * left. eapply settled_ext; [exact HI1| |exact Hset].
        eapply ext_trans; [exact He2|].
        eapply ext_trans; [apply ext_add_calls|exact He'].
      * apply elem_of_alist_remove in Hin2 as [Hin2 Hne].
        right. split; [done|]. apply not_elem_of_cons. split; [congruence|done].
    + destruct (IHes s entries HI Hm Hinfo Hx Hrk Hrkn Hoks) as
        (s' & entries' & Hloop & HI' & He' & Hx' & Hmem').
      exists s', entries'. split.
      { erewrite bind_eq; [exact Hloop|]. unfold wrap_map_member.
        by rewrite decide_False. }
      do 3 (split; [done|]).
      intros k c Hin. destruct (Hmem' _ _ Hin) as [Hs|[Hin2 Hnk]]; [by left|].
      destruct (decide ((k, c) = (k0, c0))) as [[= -> ->]|Hne].
      * left. destruct c0; simpl in *; done.
      * right. split; [done|]. apply not_elem_of_cons. done.
Qed.
End loops.

(** ** The specification of [makeObservable] *)

Lemma makeObservable_registered (n : nat) (x : nat) (name parent : value)
    (strict : bool) (s : state) :
  is_registered s x = true →
  makeObservable (S n) (VRef x) name parent strict s = Ok (VRef x) s.
Proof.
  intros Hreg. simpl.
  rewrite (bind_eq _ _ _ _ _ (observableMap_has_ref _ _)). by rewrite Hreg.
Qed.

Lemma makeObservable_raw (n : nat) (x : nat) (name parent : value)
    (strict : bool) (s : state) (o : obj) :
  is_registered s x = false →
  heap s !! x = Some o →
  makeObservable (S n) (VRef x) name parent strict s =
    match o with
    | OSet weak _ =>
        (let* proxy := alloc (OProxy x strict) in
         addInfo proxy (VRef x) name parent ;;;
         (if weak then ret tt
          else wrap_set_members (makeObservable n) proxy strict) ;;;
         ret proxy) s
    | OMap weak _ =>
        (let* proxy := alloc (OProxy x strict) in
         addInfo proxy (VRef x) name parent ;;;
         (if weak then ret tt
          else wrap_map_members (makeObservable n) proxy strict) ;;;
         ret proxy) s
    | OTyped _ _ =>
        (let* proxy := alloc (OProxy x strict) in
         addInfo proxy (VRef x) name parent ;;;
         ret proxy) s
    | OArray _ =>
        (let* proxy := alloc (OProxy x strict) in
         addInfo proxy (VRef x) name parent ;;;
         wrap_array_members (makeObservable n) proxy strict ;;;
         ret proxy) s
    | OPlain _ =>
        (let* proxy := alloc (OProxy x strict) in
         addInfo proxy (VRef x) name parent ;;;
         wrap_plain_members (makeObservable n) proxy strict ;;;
         ret proxy) s
    | OOpaque _ => Ok (VRef x) s
    | OOther => if strict then Throw (Error msg_unsupported) s else Ok (VRef x) s
    | OProxy _ _ => Throw Unmodelled s
    end.
Proof.
  intros Hreg Hx. simpl.
  rewrite (bind_eq _ _ _ _ _ (observableMap_has_ref _ _)). rewrite Hreg.
  rewrite (bind_eq _ _ _ _ _ (deref_eq _ _ _ Hx)).
  destruct o; try done. by destruct strict.
Qed.

Section spec.
Variable rk : nat → nat.
Variable strict : bool.

(** The state right after the proxy of the object at [x] was created. *)
Lemma fresh_proxy (pend : list nat) (s : state) (x : nat) (o : obj)
    (name parent : value) :
  Inv rk strict pend s →
  heap s !! x = Some o →
  parent_arg_ok s name parent →
  let m := length (heap s) in
  let info0 := mkInfo (VRef x) name parent [] ∅ in
  let s1 := with_proxy x strict info0 s in
  Inv rk strict (m :: pend) s1 ∧
  heap s1 !! m = Some (OProxy x strict) ∧
  observableMap s1 !! m = Some info0 ∧
  heap s1 !! x = Some o ∧
  observableMap s ⊆ observableMap s1 ∧
  (∀ r, ext rk r s s1).
Proof.
  intros HI Hx Hpar m info0 s1. split; [by apply Inv_with_proxy|].
  split. { simpl. rewrite lookup_app_r by done. by rewrite Nat.sub_diag. }
  split. { simpl. by rewrite lookup_insert_eq. }
  split. { simpl. by apply lookup_app_l_Some. }
  split; [|intros r; apply ext_with_proxy].
  simpl. apply insert_subseteq.
  destruct (observableMap s !! length (heap s)) as [i|] eqn:E; [|done].
  apply (inv_reg _ _ _ _ HI) in E as [? _]. lia.
Qed.

(** What the passes over the members leave behind gives the outcome of
    the call. *)
Lemma container_outcome (pend : list nat) (s s1 s' : state) (x : nat)
    (o o' : obj) (name parent : value) (r : nat) :
  let m := length (heap s) in
  let info0 := mkInfo (VRef x) name parent [] ∅ in
  Inv rk strict pend s →
  is_registered s x = false →
  heap s !! x = Some o → passthrough strict o = false →
  0 < rk x < r →
  s1 = with_proxy x strict info0 s →
  Inv rk strict (m :: pend) s' →
  ext rk (S (rk x)) s1 s' →
  heap s' !! x = Some o' →
  Forall (λ c, settled strict s' c) (members o') →
  member_events s x info0 s' →
  Inv rk strict pend s' ∧ ext rk r s s' ∧
  outcome strict s x name parent (VRef m) s'.
Proof.
  intros m info0 HI Hreg Hx Hpt Hrk -> HI' He' Hx' Hset Hev.
  assert (heap s' !! m = Some (OProxy x strict)) as Hm'.
  { eapply ext_proxy; [exact He'|]. simpl.
    rewrite lookup_app_r by done. by rewrite Nat.sub_diag. }
  split; [by eapply Inv_done|]. split.
  - eapply ext_trans; [apply ext_with_proxy|].
    eapply ext_weaken; [|exact He']. lia.
  - unfold outcome. rewrite Hreg, Hx, Hpt. split; [done|]. split; [|done].
    rewrite (ext_map _ _ _ _ He').
    + simpl. by rewrite lookup_insert_eq.
    + simpl. rewrite length_app. simpl. lia.
Qed.

Lemma no_member_events (r : nat) (s s1 s' : state) (x : nat) (o : obj)
    (info : ObservableInfo) :
  heap s !! x = Some o →
  slots o = [] →
  calls s1 = calls s →
  ext rk r s1 s' →
  member_events s x info s'.
Proof.
  intros Hx Hsl Hc He o' Hp. rewrite Hx in Hp. injection Hp as <-.
  destruct (ext_calls _ _ _ _ He) as [L HL]. exists L. split; [congruence|].
  intros f c A q cb Hin. rewrite Hsl in Hin. by apply elem_of_nil in Hin.
Qed.

Theorem makeObservable_spec (n : nat) : mk_spec rk strict n.
Proof.
  induction n as [|n IH]; intros x name parent s r pend HI Hok Hr Hn Hpar; [lia|].
  destruct (is_registered s x) eqn:Hreg.
  { exists (VRef x), s. rewrite makeObservable_registered by done.
    split; [done|]. split; [done|]. split; [apply ext_refl|].
    unfold outcome. by rewrite Hreg. }
  simpl in Hok. rewrite Hreg in Hok. simpl in Hok.
  destruct (heap s !! x) as [o|] eqn:Hx; [|done].
  apply andb_True in Hok as [Hok Hrk2]. apply andb_True in Hok as [Hsup Hrk1].
  apply Is_true_true, Nat.ltb_lt in Hrk1, Hrk2.
  assert (0 < n) as Hn' by lia. assert (rk x ≤ n) as Hrkn by lia.
  rewrite (makeObservable_raw n x name parent strict s o Hreg Hx).
  destruct (fresh_proxy pend s x o name parent HI Hx Hpar)
    as (HI1 & Hm1 & Hinfo1 & Hx1 & Hsub1 & He1).
  set (m := length (heap s)) in *.
  set (info0 := mkInfo (VRef x) name parent [] ∅) in *.
  set (s1 := with_proxy x strict info0 s) in *.
  destruct (inv_obj _ _ _ _ HI1 _ _ Hx1 Hrk1) as [Hwf Hoks].
  destruct o as [props|elems|weak items|weak entries|k data|k| |t st].
  - (* plain object *)
    rewrite new_proxy_eq. fold s1 m.
    destruct (plain_loop rk strict n IH Hn' pend m x info0 props.*1 s1 props)
      as (s' & props' & Hloop & HI' & He' & Hx' & Hmem' & L & Hcalls & Hev);
      try done.
    { simpl in Hwf. by apply bool_decide_unpack in Hwf. }
    assert (wrap_plain_members (makeObservable n) (VRef m) strict s1 = Ok tt s')
      as Hpass.
    { unfold wrap_plain_members.
      by rewrite (bind_eq _ _ _ _ _ (plain_keys_eq _ _ _ _ _ Hm1 Hx1)). }
    rewrite (bind_eq _ _ _ _ _ Hpass). exists (VRef m), s'. split; [done|].
    eapply container_outcome; eauto.
    + simpl. apply Forall_forall. intros c [f Hf]%elem_of_snd.
      destruct (Hmem' _ _ Hf) as [Hs|[Hin Hnin]]; [done|].
      destruct Hnin. apply list_elem_of_fmap. by exists (f, c).
    + intros o0 Hp0. rewrite Hx in Hp0. injection Hp0 as <-.
      exists L. split; [done|].
      intros f c A q cb Hin Hty Hb Hact. simpl in Hin.
      apply (Hev f c A q cb); try done.
      * apply list_elem_of_fmap. by exists (f, c).
      * eapply active_mono; eauto.
  - (* array *)
    rewrite new_proxy_eq. fold s1 m.
    destruct (array_loop rk strict n IH Hn' pend m x info0 (seq 0 (length elems))
                s1 elems)
      as (s' & elems' & Hloop & HI' & He' & Hx' & Hmem' & L & Hcalls & Hev);
      try done.
    { apply NoDup_seq. }
    { intros i Hi. apply elem_of_seq in Hi. lia. }
    assert (wrap_array_members (makeObservable n) (VRef m) strict s1 = Ok tt s')
      as Hpass.
    { unfold wrap_array_members.
      by rewrite (bind_eq _ _ _ _ _ (array_length_eq _ _ _ _ _ Hm1 Hx1)). }
    rewrite (bind_eq _ _ _ _ _ Hpass). exists (VRef m), s'. split; [done|].
    eapply container_outcome; eauto.
    + simpl. apply Forall_forall. intros c [i Hi]%list_elem_of_lookup.
      destruct (Hmem' _ _ Hi) as [Hs|[Hin Hnin]]; [done|].
      destruct Hnin. apply elem_of_seq. apply lookup_lt_Some in Hin. lia.
    + intros o0 Hp0. rewrite Hx in Hp0. injection Hp0 as <-.
      exists L. split; [done|].
      intros f c A q cb Hin Hty Hb Hact. simpl in Hin.
      apply elem_of_lookup_imap in Hin as (i & c' & [= -> ->] & Hi).
      apply (Hev i c' A q cb); try done.
      * apply elem_of_seq. apply lookup_lt_Some in Hi. lia.
      * eapply active_mono; eauto.
  - (* Set and WeakSet *)
    rewrite new_proxy_eq. fold s1 m. destruct weak.
    + exists (VRef m), s1. split; [done|].
      eapply container_outcome; eauto.
      * apply ext_refl.
      * by eapply (no_member_events 0 s s1 s1); [| | |apply ext_refl].
    + destruct (set_loop rk strict n IH Hn' pend m x info0 items s1 items)
        as (s' & items' & Hloop & HI' & He' & Hx' & Hmem'); try done.
      assert (wrap_set_members (makeObservable n) (VRef m) strict s1 = Ok tt s')
        as Hpass.
      { unfold wrap_set_members.
        by rewrite (bind_eq _ _ _ _ _ (set_values_eq _ _ _ _ _ _ Hm1 Hx1)). }
      rewrite (bind_eq _ _ _ _ _ Hpass). exists (VRef m), s'. split; [done|].
      eapply container_outcome; eauto.
      * simpl. apply Forall_forall. intros c Hc.
        destruct (Hmem' _ Hc) as [Hs|[Hin Hnin]]; done.
      * by eapply (no_member_events _ s s1 s'); [| | |exact He'].
  - (* Map and WeakMap *)
    rewrite new_proxy_eq. fold s1 m. destruct weak.
    + exists (VRef m), s1. split; [done|].
      eapply container_outcome; eauto.
      * apply ext_refl.
      * by eapply (no_member_events 0 s s1 s1); [| | |apply ext_refl].
    + destruct (map_loop rk strict n IH Hn' pend m x info0 entries s1 entries)
        as (s' & entries' & Hloop & HI' & He' & Hx' & Hmem'); try done.
      { pose proof (proj1 (wf_obj_map _) Hwf) as Hwf'.
        apply Forall_forall. intros [k c] Hin. simpl. split.
        - simpl in Hoks. rewrite Forall_forall in Hoks.
          apply Hoks, elem_of_snd. eauto.
        - eauto. }
      assert (wrap_map_members (makeObservable n) (VRef m) strict s1 = Ok tt s')
        as Hpass.
      { unfold wrap_map_members.
        by rewrite (bind_eq _ _ _ _ _ (map_entries_eq _ _ _ _ _ _ Hm1 Hx1)). }
      rewrite (bind_eq _ _ _ _ _ Hpass). exists (VRef m), s'. split; [done|].
      eapply container_outcome; eauto.
      * simpl. apply Forall_forall. intros c [k Hk]%elem_of_snd.
        destruct (Hmem' _ _ Hk) as [Hs|[Hin Hnin]]; done.
      * by eapply (no_member_events _ s s1 s'); [| | |exact He'].
  - (* typed array *)
    rewrite new_proxy_eq. fold s1 m.
    exists (VRef m), s1. split; [done|].
    eapply container_outcome; eauto.
    + apply ext_refl.
    + by eapply (no_member_events 0 s s1 s1); [| | |apply ext_refl].
  - (* Error, Date, RegExp *)
    exists (VRef x), s. split; [done|]. split; [done|]. split; [apply ext_refl|].
    unfold outcome. by rewrite Hreg, Hx.
  - (* any other class *)
    unfold supported in Hsup. simpl in Hsup. destruct strict; [done|].
    exists (VRef x), s. split; [done|]. split; [done|]. split; [apply ext_refl|].
    unfold outcome. by rewrite Hreg, Hx.
  - done.
Qed.
End spec.

(** ** The computed check of the invariant *)

Section check.
Variable rk : nat → nat.
Variable strict : bool.

Lemma check_reg_obj (s : state) :
  well_formed rk strict s = true →
  (∀ a info, observableMap s !! a = Some info →
             a < length (heap s) ∧ parent_ok s a info) ∧
  (∀ a o, heap s !! a = Some o → 0 < rk a →
          wf_obj o ∧ Forall (λ c, okchild rk strict s (rk a) c) (members o)).
Proof.
  unfold well_formed. intros H. apply Is_true_true in H.
  apply andb_True in H as [Hreg Hobj].
  unfold check_reg in Hreg. unfold check_obj in Hobj.
  rewrite forallb_True, Forall_forall in Hreg.
  rewrite forallb_True, Forall_forall in Hobj.
  split.
  - intros a info Ha. apply elem_of_map_to_list in Ha.
    specialize (Hreg _ Ha). simpl in Hreg. apply andb_True in Hreg as [H1 H2].
    split; [|done]. by apply Is_true_true, Nat.ltb_lt in H1.
  - intros a o Ha Hrk.
    assert ((a, o) ∈ imap pair (heap s)) as Hin
      by (apply elem_of_lookup_imap; eauto).
    specialize (Hobj _ Hin). simpl in Hobj.
    apply orb_True in Hobj as [H0|H1].
    + apply Is_true_true, Nat.eqb_eq in H0. lia.
    + apply andb_True in H1 as [H1 H2]. split; [done|]. by apply forallb_True.
Qed.

(** In a well-formed state the invariant holds when every existing façade
    counts as under construction. *)
Lemma well_formed_Inv (s : state) :
  well_formed rk strict s = true →
  Inv rk strict (seq 0 (length (heap s))) s.
Proof.
  intros H. destruct (check_reg_obj s H) as [Hreg Hobj].
  constructor; [done|done|].
  intros a t st o Hr Ha Hn. destruct Hn. apply elem_of_seq.
  apply lookup_lt_Some in Ha. lia.
Qed.

Lemma wf_state_Inv (s : state) :
  wf_state rk strict s = true → Inv rk strict [] s.
Proof.
  unfold wf_state. intros H. apply andb_true_iff in H as [Hwf Hset].
  destruct (check_reg_obj s Hwf) as [Hreg Hobj].
  apply Is_true_true in Hset. unfold check_settled in Hset.
  rewrite forallb_True, Forall_forall in Hset.
  constructor; [done|done|].
  intros a t st o Hr Ha _ Ht. unfold is_registered in Hr.
  destruct (observableMap s !! a) as [info|] eqn:E; [|done].
  apply elem_of_map_to_list in E. specialize (Hset _ E). simpl in Hset.
  rewrite Ha, Ht in Hset. by apply forallb_True.
Qed.
End check.

(** ** The API *)

Section api.
Variable rk : nat → nat.
Variable strict : bool.

Lemma observable_spec (pend : list nat) (s : state) (x : nat) (o : obj)
    (fuel : nat) :
  Inv rk strict pend s →
  heap s !! x = Some o →
  is_registered s x = false →
  supported strict o = true →
  0 < rk x < fuel →
  ∃ w s',
    observable fuel (VRef x) strict s = Ok w s' ∧
    Inv rk strict pend s' ∧ ext rk fuel s s' ∧
    outcome strict s x (VStr "") VNull w s'.
Proof.
  intros HI Hx Hreg Hsup Hrk.
  destruct (makeObservable_spec rk strict fuel x (VStr "") VNull s fuel pend HI)
    as (w & s' & Hrun & HI' & He & Hout); try done; try lia.
  { simpl. rewrite Hreg, Hx, Hsup. simpl. apply andb_True.
    split; apply Is_true_true; [apply Nat.ltb_lt|apply Nat.ltb_lt]; lia. }
  exists w, s'. split; [|done]. unfold observable.
  rewrite (bind_eq _ _ _ _ _ (isObservable_ref _ _)). by rewrite Hreg.
Qed.

Lemma observable_facade (s : state) (a : nat) (fuel : nat) (st : bool) :
  is_registered s a = true →
  observable fuel (VRef a) st s = Ok (VRef a) s.
Proof.
  intros Hreg. unfold observable.
  rewrite (bind_eq _ _ _ _ _ (isObservable_ref _ _)). by rewrite Hreg.
Qed.

Lemma raw_facade (s : state) (a : nat) (info : ObservableInfo) :
  observableMap s !! a = Some info →
  raw (VRef a) s = Ok (info_raw info) s.
Proof.
  intros Ha. unfold raw.
  rewrite (bind_eq _ _ _ _ _ (isObservable_ref _ _)).
  unfold is_registered. rewrite Ha. unfold bind. simpl. by rewrite Ha.
Qed.

Lemma raw_not_observable (s : state) (a : nat) :
  is_registered s a = false →
  raw (VRef a) s = Throw (Error msg_not_observable) s.
Proof.
  intros Hreg. unfold raw.
  rewrite (bind_eq _ _ _ _ _ (isObservable_ref _ _)). by rewrite Hreg.
Qed.

(** A raw value stays unregistered when something is made observable. *)
Lemma raw_stays_unregistered (r : nat) (s s' : state) (x : nat) (o : obj) :
  ext rk r s s' → heap s !! x = Some o →
  is_registered s x = false → is_registered s' x = false.
Proof.
  intros He Hx Hreg. unfold is_registered in *.
  rewrite (ext_map _ _ _ _ He); [done|]. by eapply lookup_lt_Some.
Qed.



(** Every value that is reached through a façade is settled. *)
Lemma reach_settled (s : state) (v d : value) :
  Inv rk strict [] s → reach s v d →
  settled strict s v → settled strict s d.
Proof.
  intros HI Hreach. induction Hreach as [|a t st o c d Hr Ha Ht Hc Hreach IH]; [done|].
  intros _. apply IH.
  pose proof (inv_settled _ _ _ _ HI a t st o Hr Ha) as Hs.
  rewrite Forall_forall in Hs. apply Hs; [apply not_elem_of_nil|done|done].
Qed.

End api.

(** ** Assigning an object to a property of an observed record *)

Lemma string_app_assoc (a b c : string) : (a +:+ b) +:+ c = a +:+ b +:+ c.
Proof.
  induction a as [|ch a IH]; [done|].
  change (String ch ((a +:+ b) +:+ c) = String ch (a +:+ b +:+ c)).
  congruence.
Qed.

(** A longer path bubbles to the same ancestors, with the same prefix. *)
Lemma bubbles_suffix (om : gmap nat ObservableInfo) (t A : value)
    (p q suffix : string) :
  bubbles om t (VStr p) A (VStr q) →
  bubbles om t (VStr (p +:+ suffix)) A (VStr (q +:+ suffix)).
Proof.
  intros Hb. remember (VStr p) as vp eqn:Hp. remember (VStr q) as vq eqn:Hq.
  revert p Hp. induction Hb as [t vp|a info n ps vp A vq Ha Hpar Hn Hpr Hps Hb IH];
    intros p ->.
  - injection Hq as ->. constructor.
  - simpl in Hps. injection Hps as <-.
    eapply bubbles_up; eauto. simpl.
    rewrite <- !string_app_assoc. apply IH; [done|].
    by rewrite !string_app_assoc.
Qed.

(** ** The theorems at concrete inputs *)






(** The coverage is that of the wrap itself: an object that was appended
    to an observable array by [push], which stores its arguments as they
    are, is not made observable when a record that holds the façade of the
    array is wrapped later, since the wrap returns a façade as it is.
    The state before the wrap is well-formed, but the members below its
    façades are not all settled. *)
Lemma pushed_element_not_wrapped :
  well_formed S true pushed_state = true ∧
  wf_state S true pushed_state = false ∧
  heap pushed_state !! 0 = Some (OPlain []) ∧
  returned (pushed_element_is_wrapped pushed_state) =
    Some (VRef 4, VRef 0, false).
Proof. vm_compute. done. Qed.


(** The assignment of [{y: {z: {}}, n: 0}] to [root.a.x]: the observer on
    the root receives the events of the member slots [z] and [y], innermost
    first, and then the event of the assignment. *)
Lemma assign_nested_events :
  calls (final (assign_nested assign_scene)) =
    [ (7, mkObservation Change (VRef 5) (VStr "a.x.y.z") (VRef 9) (VRef 2));
      (7, mkObservation Change (VRef 5) (VStr "a.x.y") (VRef 8) (VRef 3));
      (7, mkObservation Change (VRef 5) (VStr "a.x") (VRef 7) VUndef) ].
Proof. vm_compute. reflexivity. Qed.


(** ** The log of a propagation *)

Lemma check_reg_ok (s : state) : check_reg s = true → registry_ok s.
Proof.
  intros H. apply Is_true_true in H. unfold check_reg in H.
  rewrite forallb_True, Forall_forall in H.
  intros a info Ha. apply elem_of_map_to_list in Ha.
  specialize (H _ Ha). simpl in H. apply andb_True in H as [H1 H2].
  split; [|done]. by apply Is_true_true, Nat.ltb_lt in H1.
Qed.

(** The registry stays in order when the heap grows or its objects change. *)
Lemma registry_ok_heap (s s' : state) :
  registry_ok s →
  observableMap s' = observableMap s →
  length (heap s) ≤ length (heap s') →
  registry_ok s'.
Proof.
  intros H Hom Hlen a info Ha. rewrite Hom in Ha.
  destruct (H _ _ Ha) as [Hlt Hpar]. split; [lia|].
  unfold parent_ok, is_registered in *. by rewrite Hom.
Qed.

Lemma registry_ok_with_obj (s : state) (x : nat) (o : obj) :
  registry_ok s → registry_ok (with_obj x o s).
Proof.
  intros H. apply (registry_ok_heap s); [done|done|].
  simpl. by rewrite length_insert.
Qed.

Lemma active_deliveries (om : gmap nat ObservableInfo) (a : nat)
    (info : ObservableInfo) (o : Observation) (e : nat * Observation) :
  om !! a = Some info → e ∈ deliveries info o → e.2 = o ∧ active om (VRef a) e.1.
Proof.
  intros Ha He. unfold deliveries in He.
  apply list_elem_of_fmap in He as (cb & -> & Hcb).
  apply list_elem_of_filter in Hcb as [Hp Hin].
  split; [done|]. exists a, info. done.
Qed.

(** The invocations at the target come first, those at the ancestors, which
    are older façades, follow, and an invocation is logged exactly when the
    event bubbles to an active callback. *)
Lemma triggerObserver_rec_log (type : otype) (valueNew valueOld : value) (fuel : nat) :
  ∀ (a : nat) (info : ObservableInfo) (path : value) (s : state),
    registry_ok s →
    observableMap s !! a = Some info →
    a < fuel →
    info_parent info = VNull ∨ printable path = true →
    ∃ L',
      triggerObserver_rec fuel type (VRef a) path valueNew valueOld s =
        Ok tt (add_calls
                 (deliveries info (mkObservation type (VRef a) path valueNew valueOld)
                    ++ L') s) ∧
      (info_parent info = VNull → L' = []) ∧
      (∀ e, e ∈ L' → ∃ b, o_target e.2 = VRef b ∧ b < a) ∧
      ∀ e, e ∈ deliveries info (mkObservation type (VRef a) path valueNew valueOld)
                 ++ L' ↔
           reaches (observableMap s) type (VRef a) path valueNew valueOld e.
Proof.
  induction fuel as [|fuel IH]; intros a info path s Hreg Ha Hlt Hpath; [lia|].
  simpl. unfold bind at 1. simpl. rewrite Ha.
  rewrite (bind_eq _ _ _ _ _ (forM_callbacks _ _ _ _)).
  fold (deliveries info (mkObservation type (VRef a) path valueNew valueOld)).
  set (o := mkObservation type (VRef a) path valueNew valueOld).
  set (L0 := deliveries info o).
  pose proof (Hreg _ _ Ha) as [_ Hpar]. unfold parent_ok in Hpar.
  destruct (decide (info_parent info = VNull)) as [Hnull|Hnn].
  - exists []. rewrite app_nil_r. split; [done|]. split; [done|].
    split; [intros e He; by apply elem_of_nil in He|].
    intros [cb o']. split.
    + intros He. destruct (active_deliveries _ _ _ _ _ Ha He) as [Ho Hact].
      simpl in *. subst o'. exists (VRef a), path. repeat split; [constructor|done].
    + intros (A & q & Ho & Hb & Hact). simpl in *. subst o'.
      inversion Hb; subst.
      * eapply deliveries_active; eauto.
      * congruence.
  - destruct (info_parent info) as [| | | | | | |p] eqn:Hp; try done.
    apply andb_True in Hpar as [Hpar Hname]. apply andb_True in Hpar as [Hlt' Hregp].
    apply Is_true_true, Nat.ltb_lt in Hlt'.
    destruct Hpath as [|Hpr]; [done|].
    assert (∃ n, to_String (info_name info) = Some n) as [n Hn].
    { destruct (info_name info); simpl in *; try done; eauto. destruct b; eauto. }
    assert (∃ ps, to_String path = Some ps) as [ps Hps].
    { destruct path; simpl in *; try done; eauto. destruct b; eauto. }
    unfold js_String. rewrite Hn. unfold bind at 1. simpl.
    assert (js_template path (add_calls L0 s) = Ok ps (add_calls L0 s)) as Ht.
    { unfold js_template, js_String. rewrite Hps. by destruct path. }
    rewrite (bind_eq _ _ _ _ _ Ht).
    unfold is_registered in Hregp.
    destruct (observableMap s !! p) as [pinfo|] eqn:Hpi; [|done].
    destruct (IH p pinfo (VStr (n +:+ "." +:+ ps)) (add_calls L0 s))
      as (L1 & Hrun & _ & Htg & Hev); [exact Hreg|exact Hpi|lia|by right|].
    eexists. rewrite Hrun, add_calls_app. split; [reflexivity|].
    split; [done|]. split.
    + intros e [He|He]%elem_of_app.
      * destruct e as [cb o']. destruct (active_deliveries _ _ _ _ _ Hpi He) as [-> _].
        exists p. done.
      * destruct (Htg _ He) as (b & Hb & Hlt2). exists b. split; [done|lia].
    + intros [cb o']. rewrite elem_of_app. split.
      * intros [He|He].
        -- destruct (active_deliveries _ _ _ _ _ Ha He) as [Ho Hact].
           simpl in *. subst o'. exists (VRef a), path. repeat split; [constructor|done].
        -- apply Hev in He as (A & q & Ho & Hb & Hact). simpl in *.
           exists A, q. split; [done|]. split; [|done].
           apply (bubbles_up _ a info n ps path A q Ha);
             [by rewrite Hp|done|done|done|by rewrite Hp].
      * intros (A & q & Ho & Hb & Hact). simpl in *. subst o'.
        inversion Hb; subst.
        -- left. eapply deliveries_active; eauto.
        -- right. apply Hev. exists A, q. split; [done|]. split; [|done].
           match goal with H : observableMap s !! a = Some ?i |- _ =>
             rewrite Ha in H; injection H as <- end.
           rewrite Hp in *.
           match goal with H1 : to_String (info_name info) = Some ?m |- _ =>
             rewrite Hn in H1; injection H1 as <- end.
           match goal with H1 : to_String path = Some ?m |- _ =>
             rewrite Hps in H1; injection H1 as <- end.
           assumption.
Qed.

Lemma trigger_fires (type : otype) (valueNew valueOld : value)
    (m : nat) (info : ObservableInfo) (path : value) (s : state) :
  registry_ok s →
  observableMap s !! m = Some info →
  info_parent info = VNull ∨ printable path = true →
  ∃ L,
    triggerObserver type (VRef m) path valueNew valueOld s = Ok tt (add_calls L s) ∧
    fires s m type path valueNew valueOld L.
Proof.
  intros Hreg Hm Hpath. unfold triggerObserver, bind, get_state.
  destruct (triggerObserver_rec_log type valueNew valueOld (S (length (heap s)))
              m info path s Hreg Hm) as (L' & Hrun & Hnull & Htg & Hev); [|done|].
  { apply Hreg in Hm as [Hlt _]. lia. }
  eexists. split; [exact Hrun|]. split; [|done].
  exists info, L'. repeat split; [done|done|].
  intros e He [= E]. destruct (Htg _ He) as (b & Hb & Hlt).
  rewrite Hb in E. injection E as ->. lia.
Qed.

Lemma js_template_cases (v : value) (s : state) :
  (∃ ps, js_template v s = Ok ps s) ∨ (∃ e, js_template v s = Throw e s).
Proof.
  unfold js_template, js_String, ret, throw.
  destruct v as [| |[]| | | | |]; simpl; eauto.
Qed.

(** A propagation changes nothing but the call log, whether it returns or
    throws. *)
Lemma triggerObserver_rec_calls (type : otype) (valueNew valueOld : value) (fuel : nat) :
  ∀ (target path : value) (s : state),
    ∃ L, final (triggerObserver_rec fuel type target path valueNew valueOld s) =
           add_calls L s.
Proof.
  induction fuel as [|fuel IH]; intros target path s; simpl.
  - exists []. by rewrite add_calls_nil.
  - unfold bind at 1. destruct target as [| | | | | | |a]; simpl;
      try (exists []; by rewrite add_calls_nil).
    destruct (observableMap s !! a) as [info|];
      [|exists []; by rewrite add_calls_nil].
    rewrite (bind_eq _ _ _ _ _ (forM_callbacks _ _ _ _)).
    set (L0 := (λ cb, (cb, _)) <$> _).
    destruct (decide (info_parent info = VNull)); [by exists L0|].
    unfold js_String. destruct (to_String (info_name info)) as [nm|];
      [|by exists L0].
    unfold bind at 1. simpl.
    destruct (js_template_cases path (add_calls L0 s)) as [[ps Hps]|[e He]].
    + rewrite (bind_eq _ _ _ _ _ Hps).
      destruct (IH (info_parent info) (VStr (nm +:+ "." +:+ ps)) (add_calls L0 s))
        as [L1 H1].
      exists (L0 ++ L1). by rewrite H1, add_calls_app.
    + rewrite (bind_throw _ _ _ _ _ He). by exists L0.
Qed.

Lemma triggerObserver_calls (type : otype) (target path valueNew valueOld : value)
    (s : state) :
  ∃ L, final (triggerObserver type target path valueNew valueOld s) = add_calls L s.
Proof. unfold triggerObserver, bind, get_state. apply triggerObserver_rec_calls. Qed.

(** X1: a propagation that starts at a registered façade returns, changes
    nothing but the call log, and invokes a callback with an observation
    exactly when the observation is the event as seen from a façade on the
    parent chain (the path prefixed with the names of the façades left
    behind, the same type and values) and the callback is registered there
    and not paused. *)
Theorem propagation_reaches_active_callbacks (type : otype) (a : nat)
    (info : ObservableInfo) (path valueNew valueOld : value) (s : state) :
  check_reg s = true →
  observableMap s !! a = Some info →
  info_parent info = VNull ∨ printable path = true →
  ∃ L,
    triggerObserver type (VRef a) path valueNew valueOld s = Ok tt (add_calls L s) ∧
    ∀ cb o, (cb, o) ∈ L ↔
      ∃ A q, o = mkObservation type A q valueNew valueOld ∧
             bubbles (observableMap s) (VRef a) path A q ∧
             active (observableMap s) A cb.
Proof.
  intros Hreg Ha Hpath. apply check_reg_ok in Hreg.
  destruct (trigger_fires type valueNew valueOld a info path s Hreg Ha Hpath)
    as (L & Hrun & _ & Hev).
  exists L. split; [done|]. intros cb o. apply (Hev (cb, o)).
Qed.

Lemma propagation_reaches_active_callbacks_witness :
  check_reg two_observers = true ∧
  observableMap two_observers !! 5 = Some (mkInfo (VRef 0) (VStr "b") (VRef 4) [] ∅) ∧
  ∃ L,
    triggerObserver Change (VRef 5) (VStr "c") (VNum 2) (VNum 1) two_observers =
      Ok tt (add_calls L two_observers) ∧
    ∀ cb o, (cb, o) ∈ L ↔
      ∃ A q, o = mkObservation Change A q (VNum 2) (VNum 1) ∧
             bubbles (observableMap two_observers) (VRef 5) (VStr "c") A q ∧
             active (observableMap two_observers) A cb.
Proof.
  assert (H1 : check_reg two_observers = true) by (vm_compute; reflexivity).
  assert (H2 : observableMap two_observers !! 5 =
                 Some (mkInfo (VRef 0) (VStr "b") (VRef 4) [] ∅))
    by (vm_compute; reflexivity).
  do 2 (split; [assumption|]).
  exact (propagation_reaches_active_callbacks Change 5 _ (VStr "c") (VNum 2) (VNum 1)
           two_observers H1 H2 (or_intror eq_refl)).
Defined.

(** X2: the callbacks of the façade where the event is triggered are
    invoked first, in the order of their registration and skipping the
    paused ones; all later invocations are at other façades, and there are
    none when the façade has no parent. *)
Theorem propagation_innermost_first (type : otype) (a : nat)
    (info : ObservableInfo) (path valueNew valueOld : value) (s : state) :
  check_reg s = true →
  observableMap s !! a = Some info →
  info_parent info = VNull ∨ printable path = true →
  ∃ L',
    triggerObserver type (VRef a) path valueNew valueOld s =
      Ok tt (add_calls
               (((λ cb, (cb, mkObservation type (VRef a) path valueNew valueOld)) <$>
                   filter (λ cb, default false (info_paused info !! cb) = false)
                          (info_callbacks info)) ++ L') s) ∧
    (info_parent info = VNull → L' = []) ∧
    ∀ cb o, (cb, o) ∈ L' → o_target o ≠ VRef a.
Proof.
  intros Hreg Ha Hpath. apply check_reg_ok in Hreg.
  destruct (trigger_fires type valueNew valueOld a info path s Hreg Ha Hpath)
    as (L & Hrun & (info' & L' & Ha' & -> & Hnull & Htg) & _).
  rewrite Ha in Ha'. injection Ha' as <-.
  exists L'. split; [done|]. split; [done|].
  intros cb o Hin. apply (Htg (cb, o) Hin).
Qed.

Lemma propagation_innermost_first_witness :
  check_reg two_observers = true ∧
  observableMap two_observers !! 4 =
    Some (mkInfo (VRef 1) (VStr "a") (VRef 3) [2] {[2 := false]}) ∧
  ∃ L',
    triggerObserver Change (VRef 4) (VStr "b") (VNum 2) (VNum 1) two_observers =
      Ok tt (add_calls
               (((λ cb, (cb, mkObservation Change (VRef 4) (VStr "b") (VNum 2) (VNum 1))) <$>
                   filter (λ cb, default false (({[2 := false]} : gmap nat bool) !! cb) = false)
                          [2]) ++ L') two_observers) ∧
    ∀ cb o, (cb, o) ∈ L' → o_target o ≠ VRef 4.
Proof.
  assert (H1 : check_reg two_observers = true) by (vm_compute; reflexivity).
  assert (H2 : observableMap two_observers !! 4 =
                 Some (mkInfo (VRef 1) (VStr "a") (VRef 3) [2] {[2 := false]}))
    by (vm_compute; reflexivity).
  do 2 (split; [assumption|]).
  destruct (propagation_innermost_first Change 4 _ (VStr "b") (VNum 2) (VNum 1)
              two_observers H1 H2 (or_intror eq_refl)) as (L' & Hrun & _ & Htg).
  exists L'. split; [exact Hrun|exact Htg].
Defined.

(** ** Running the traps *)

Lemma alist_get_set {K V} `{EqDecision K} (l : list (K * V)) (k : K) (v : V) :
  alist_get k (alist_set k v l) = Some v.
Proof.
  induction l as [|[k' v'] l IH]; simpl.
  - by rewrite decide_True.
  - destruct (decide (k = k')) as [->|Hne]; simpl.
    + by rewrite decide_True.
    + by rewrite decide_False.
Qed.

Lemma alist_get_remove {K V} `{EqDecision K} (l : list (K * V)) (k : K) :
  alist_get k (alist_remove k l) = None.
Proof.
  induction l as [|[k' v'] l IH]; simpl; [done|].
  destruct (decide (k = k')) as [->|Hne]; simpl; [done|].
  by rewrite decide_False.
Qed.

Lemma wrap_assigned_as_is (mk : value → value → value → bool → M value)
    (v p receiver : value) (strict : bool) (s : state) :
  as_is s v = true → wrap_assigned mk v p receiver strict s = Ok v s.
Proof.
  intros H. unfold wrap_assigned.
  destruct v as [| | | | | | |b]; simpl in *; try done.
  rewrite (bind_eq _ _ _ _ _ (isObservable_ref _ _)). by rewrite H.
Qed.

Lemma registered_info (s : state) (a : nat) :
  is_registered s a = true → ∃ info, observableMap s !! a = Some info.
Proof. unfold is_registered. destruct (observableMap s !! a); [eauto|done]. Qed.

(** The event of a trap, triggered after the target has been updated. *)
Lemma trigger_fires_stored (type : otype) (valueNew valueOld : value)
    (m x : nat) (o' : obj) (path : value) (s : state) :
  registry_ok s →
  is_registered s m = true →
  (∀ info, observableMap s !! m = Some info →
           info_parent info = VNull ∨ printable path = true) →
  ∃ L,
    triggerObserver type (VRef m) path valueNew valueOld (with_obj x o' s) =
      Ok tt (add_calls L (with_obj x o' s)) ∧
    fires s m type path valueNew valueOld L.
Proof.
  intros Hreg Hm Hpath. destruct (registered_info _ _ Hm) as [info Hinfo].
  apply (trigger_fires type valueNew valueOld m info path (with_obj x o' s));
    [by apply registry_ok_with_obj|done|by apply Hpath].
Qed.

Lemma heap_with_obj_eq (s : state) (x : nat) (o o' : obj) (L : list (nat * Observation)) :
  heap s !! x = Some o → heap (add_calls L (with_obj x o' s)) !! x = Some o'.
Proof.
  intros Hx. simpl. apply list_lookup_insert_eq. by eapply lookup_lt_Some.
Qed.

Lemma heap_with_obj_ne (s : state) (x m : nat) (o' : obj) (L : list (nat * Observation)) :
  m ≠ x → heap (add_calls L (with_obj x o' s)) !! m = heap s !! m.
Proof. intros Hne. simpl. by apply list_lookup_insert_ne. Qed.

Lemma proxy_not_target (s : state) (m x : nat) (st : bool) (o : obj) :
  heap s !! m = Some (OProxy x st) → heap s !! x = Some o →
  (∀ t b, o ≠ OProxy t b) → m ≠ x.
Proof. intros Hm Hx Ho ->. rewrite Hm in Hx. injection Hx as <-. by eapply Ho. Qed.

Ltac strings := repeat first
  [ rewrite decide_True by done | rewrite decide_False by done ].

Lemma plain_Reflect_deleteProperty_eq (s : state) (x : nat)
    (props : list (string * value)) (f : string) :
  heap s !! x = Some (OPlain props) →
  plain_Reflect_deleteProperty x f s =
    Ok true (with_obj x (OPlain (alist_remove f props)) s).
Proof.
  intros Hx. unfold plain_Reflect_deleteProperty.
  by rewrite (bind_eq _ _ _ _ _ (deref_eq _ _ _ Hx)).
Qed.

Lemma array_Reflect_get_eq (s : state) (x : nat) (elems : list value) (i : nat) :
  heap s !! x = Some (OArray elems) →
  array_Reflect_get x i s = Ok (default VUndef (elems !! i)) s.
Proof.
  intros Hx. unfold array_Reflect_get.
  by rewrite (bind_eq _ _ _ _ _ (deref_eq _ _ _ Hx)).
Qed.

Lemma array_Reflect_deleteProperty_eq (s : state) (x : nat)
    (elems : list value) (i : nat) :
  heap s !! x = Some (OArray elems) →
  array_Reflect_deleteProperty x i s =
    Ok true (with_obj x (OArray (<[i := VUndef]> elems)) s).
Proof.
  intros Hx. unfold array_Reflect_deleteProperty.
  by rewrite (bind_eq _ _ _ _ _ (deref_eq _ _ _ Hx)).
Qed.

Lemma typed_Reflect_get_eq (s : state) (x : nat) (k : tkind) (data : list Z) (i : nat) :
  heap s !! x = Some (OTyped k data) →
  typed_Reflect_get x i s = Ok (from_option VNum VUndef (data !! i)) s.
Proof.
  intros Hx. unfold typed_Reflect_get.
  by rewrite (bind_eq _ _ _ _ _ (deref_eq _ _ _ Hx)).
Qed.

Lemma typed_Reflect_set_eq (s : state) (x : nat) (k : tkind) (data : list Z)
    (i : nat) (n : Z) :
  heap s !! x = Some (OTyped k data) →
  typed_Reflect_set x i (VNum n) s =
    Ok true (with_obj x (OTyped k (<[i := tconv k n]> data)) s).
Proof.
  intros Hx. unfold typed_Reflect_set.
  by rewrite (bind_eq _ _ _ _ _ (deref_eq _ _ _ Hx)).
Qed.

Lemma typed_get_eq (s : state) (m x : nat) (st : bool) (k : tkind)
    (data : list Z) (i : nat) :
  heap s !! m = Some (OProxy x st) →
  heap s !! x = Some (OTyped k data) →
  typed_get (VRef m) i s = Ok (from_option VNum VUndef (data !! i)) s.
Proof.
  intros Hm Hx. unfold typed_get.
  rewrite (bind_eq _ _ _ _ _ (proxy_parts_eq _ _ _ _ Hm)).
  by apply (typed_Reflect_get_eq _ _ k).
Qed.

(** X8: assigning a value that is not an object, or a façade, to a property
    of a record façade needs no wrapping: the value is stored in the raw
    record as it is, the assignment returns [true], one change event is
    fired with the path of the property, the assigned value and the former
    value of the property ([undefined] when it was missing), and reading
    the property through the façade gives the assigned value.  The
    property is one that the record has itself (it keeps its place among
    the keys), or a new one whose name is not inherited from
    [Object.prototype] (such a name reads as the inherited value, and
    [__proto__] is an accessor) and is not an array index (which
    [Object.keys] lists before the other names): a new property is then
    the last of the keys. *)
Theorem plain_set_stores_value (s : state) (m x : nat) (st : bool)
    (props : list (string * value)) (k : string) (v : value) (fuel : nat) :
  check_reg s = true →
  is_registered s m = true →
  heap s !! m = Some (OProxy x st) →
  heap s !! x = Some (OPlain props) →
  own_key k props || (negb (inherited_name k) && negb (index_like k)) = true →
  as_is s v = true →
  ∃ L s',
    plain_set fuel (VRef m) k v s = Ok true s' ∧
    s' = add_calls L (with_obj x (OPlain (alist_set k v props)) s) ∧
    fires s m Change (VStr k) v (default VUndef (alist_get k props)) L ∧
    plain_get (VRef m) k s' = Ok v s'.
Proof.
  intros Hreg Hregm Hm Hx _ Hv. apply check_reg_ok in Hreg.
  destruct (trigger_fires_stored Change v (default VUndef (alist_get k props))
              m x (OPlain (alist_set k v props)) (VStr k) s Hreg Hregm)
    as (L & Hrun & Hfires); [by right|].
  exists L. eexists. split; [|split; [reflexivity|split; [done|]]].
  - unfold plain_set, plain_set_with.
    rewrite (bind_eq _ _ _ _ _ (proxy_parts_eq _ _ _ _ Hm)).
    rewrite (bind_eq _ _ _ _ _ (plain_Reflect_get_eq _ _ _ _ Hx)).
    rewrite (bind_eq _ _ _ _ _ (wrap_assigned_as_is _ _ _ _ _ _ Hv)).
    rewrite (bind_eq _ _ _ _ _ (plain_Reflect_set_eq _ _ _ _ _ Hx)).
    by rewrite (bind_eq _ _ _ _ _ Hrun).
  - assert (m ≠ x) as Hne by (by eapply proxy_not_target).
    erewrite plain_get_eq;
      [|by rewrite heap_with_obj_ne|by eapply heap_with_obj_eq].
    by rewrite alist_get_set.
Qed.

(** X9: deleting a property through a record façade removes it from the raw
    record, returns [true] and fires one delete event with the path of the
    property, no new value and the former value of the property; the event
    is fired, with the old value [undefined], also when the record had no
    such property.  Afterwards the property reads as [undefined] and is no
    longer among the keys.  The name of the property is not one that a
    record inherits from [Object.prototype]: such a name reads as the
    inherited value before the deletion when the record has no property of
    its own with the name, and in any case after it. *)
Theorem plain_delete_fires_delete (s : state) (m x : nat) (st : bool)
    (props : list (string * value)) (k : string) :
  check_reg s = true →
  is_registered s m = true →
  heap s !! m = Some (OProxy x st) →
  heap s !! x = Some (OPlain props) →
  inherited_name k = false →
  ∃ L s',
    plain_deleteProperty (VRef m) k s = Ok true s' ∧
    s' = add_calls L (with_obj x (OPlain (alist_remove k props)) s) ∧
    fires s m Delete (VStr k) VUndef (default VUndef (alist_get k props)) L ∧
    plain_get (VRef m) k s' = Ok VUndef s' ∧
    ∃ keys, plain_keys (VRef m) s' = Ok keys s' ∧ k ∉ keys.
Proof.
  intros Hreg Hregm Hm Hx _. apply check_reg_ok in Hreg.
  destruct (trigger_fires_stored Delete VUndef (default VUndef (alist_get k props))
              m x (OPlain (alist_remove k props)) (VStr k) s Hreg Hregm)
    as (L & Hrun & Hfires); [by right|].
  assert (m ≠ x) as Hne by (by eapply proxy_not_target).
  exists L. eexists. split; [|split; [reflexivity|split; [done|split]]].
  - unfold plain_deleteProperty.
    rewrite (bind_eq _ _ _ _ _ (proxy_parts_eq _ _ _ _ Hm)).
    rewrite (bind_eq _ _ _ _ _ (plain_Reflect_get_eq _ _ _ _ Hx)).
    rewrite (bind_eq _ _ _ _ _ (plain_Reflect_deleteProperty_eq _ _ _ _ Hx)).
    by rewrite (bind_eq _ _ _ _ _ Hrun).
  - erewrite plain_get_eq;
      [|by rewrite heap_with_obj_ne|by eapply heap_with_obj_eq].
    by rewrite alist_get_remove.
  - eexists. split.
    + eapply plain_keys_eq; [by rewrite heap_with_obj_ne|by eapply heap_with_obj_eq].
    + apply alist_get_None, alist_get_remove.
Qed.

(** X10: deleting an element through an array façade leaves a hole: the
    array keeps its length and the element reads as [undefined]; the trap
    returns [true] and fires one delete event with the index as the path,
    no new value and the former element as the old value. *)
Theorem array_delete_leaves_hole (s : state) (m x : nat) (st : bool)
    (elems : list value) (i : nat) :
  check_reg s = true →
  is_registered s m = true →
  heap s !! m = Some (OProxy x st) →
  heap s !! x = Some (OArray elems) →
  ∃ L s',
    array_deleteProperty (VRef m) i s = Ok true s' ∧
    s' = add_calls L (with_obj x (OArray (<[i := VUndef]> elems)) s) ∧
    fires s m Delete (VStr (pretty i)) VUndef (default VUndef (elems !! i)) L ∧
    array_length (VRef m) s' = Ok (length elems) s' ∧
    array_get (VRef m) i s' = Ok VUndef s'.
Proof.
  intros Hreg Hregm Hm Hx. apply check_reg_ok in Hreg.
  destruct (trigger_fires_stored Delete VUndef (default VUndef (elems !! i))
              m x (OArray (<[i := VUndef]> elems)) (VStr (pretty i)) s Hreg Hregm)
    as (L & Hrun & Hfires); [by right|].
  assert (m ≠ x) as Hne by (by eapply proxy_not_target).
  exists L. eexists. split; [|split; [reflexivity|split; [done|split]]].
  - unfold array_deleteProperty.
    rewrite (bind_eq _ _ _ _ _ (proxy_parts_eq _ _ _ _ Hm)).
    rewrite (bind_eq _ _ _ _ _ (array_Reflect_get_eq _ _ _ _ Hx)).
    rewrite (bind_eq _ _ _ _ _ (array_Reflect_deleteProperty_eq _ _ _ _ Hx)).
    by rewrite (bind_eq _ _ _ _ _ Hrun).
  - erewrite array_length_eq;
      [|by rewrite heap_with_obj_ne|by eapply heap_with_obj_eq].
    by rewrite length_insert.
  - erewrite array_get_eq;
      [|by rewrite heap_with_obj_ne|by eapply heap_with_obj_eq].
    destruct (decide (i < length elems)) as [Hlt|Hge].
    + by rewrite list_lookup_insert_eq.
    + rewrite lookup_ge_None_2; [done|]. rewrite length_insert. lia.
Qed.

(** X11: assigning a number to an element of a typed array façade stores
    the number converted to the element type, but the change event carries
    the number as it was assigned, with the former element as the old
    value; an index beyond the end stores nothing and still returns [true]
    and fires the event, with the old value [undefined]. *)
Theorem typed_set_reports_assigned_number (s : state) (m x : nat) (st : bool)
    (k : tkind) (data : list Z) (i : nat) (n : Z) (fuel : nat) :
  check_reg s = true →
  is_registered s m = true →
  heap s !! m = Some (OProxy x st) →
  heap s !! x = Some (OTyped k data) →
  ∃ L s',
    typed_set fuel (VRef m) i (VNum n) s = Ok true s' ∧
    s' = add_calls L (with_obj x (OTyped k (<[i := tconv k n]> data)) s) ∧
    fires s m Change (VStr (pretty i)) (VNum n)
          (from_option VNum VUndef (data !! i)) L ∧
    typed_get (VRef m) i s' =
      Ok (if decide (i < length data) then VNum (tconv k n) else VUndef) s'.
Proof.
  intros Hreg Hregm Hm Hx. apply check_reg_ok in Hreg.
  destruct (trigger_fires_stored Change (VNum n) (from_option VNum VUndef (data !! i))
              m x (OTyped k (<[i := tconv k n]> data)) (VStr (pretty i)) s Hreg Hregm)
    as (L & Hrun & Hfires); [by right|].
  assert (m ≠ x) as Hne by (by eapply proxy_not_target).
  exists L. eexists. split; [|split; [reflexivity|split; [done|]]].
  - unfold typed_set, typed_set_with.
    rewrite (bind_eq _ _ _ _ _ (proxy_parts_eq _ _ _ _ Hm)).
    rewrite (bind_eq _ _ _ _ _ (typed_Reflect_get_eq _ _ _ _ _ Hx)).
    rewrite (bind_eq _ _ _ _ _ (wrap_assigned_as_is _ (VNum n) _ _ _ _ eq_refl)).
    rewrite (bind_eq _ _ _ _ _ (typed_Reflect_set_eq _ _ _ _ _ _ Hx)).
    by rewrite (bind_eq _ _ _ _ _ Hrun).
  - erewrite typed_get_eq;
      [|by rewrite heap_with_obj_ne|by eapply heap_with_obj_eq].
    destruct (decide (i < length data)) as [Hlt|Hge].
    + by rewrite list_lookup_insert_eq.
    + rewrite lookup_ge_None_2; [done|]. rewrite length_insert. lia.
Qed.

Lemma array_method_run (s : state) (m x : nat) (st : bool) (elems : list value)
    (p : string) (args : list value) :
  heap s !! m = Some (OProxy x st) →
  heap s !! x = Some (OArray elems) →
  array_method (VRef m) p args s =
    (let* result := array_apply x p args elems in
     (if decide (p = "push") then
        let* len := array_length (VRef m) in
        triggerObserver Change (VRef m) (VStr (pretty len)) (arg 0 args) VUndef
      else if decide (p = "pop") then
        let* len := array_length (VRef m) in
        triggerObserver Change (VRef m) (VStr (pretty (len + 1))) VUndef result
      else if decide (p = "unshift") then
        triggerObserver Change (VRef m) (VStr (pretty 0)) (arg 0 args) VUndef
      else if decide (p = "shift") then
        triggerObserver Change (VRef m) (VStr (pretty 0)) VUndef result
      else
        triggerObserver Change (VRef m) (VStr "*") VUndef VUndef) ;;;
     ret result) s.
Proof.
  intros Hm Hx. unfold array_method.
  rewrite (bind_eq _ _ _ _ _ (proxy_parts_eq _ _ _ _ Hm)).
  by rewrite (bind_eq _ _ _ _ _ (deref_eq _ _ _ Hx)).
Qed.

(** X12: [push] through an array façade appends its arguments as they are:
    an object among them is not made observable (the registry stays as it
    was) and is read back through the façade as the raw object, unlike an
    object that is assigned to an index.  One change event is fired for the
    whole call, with the new length as the path and the first argument as
    the new value; the call returns the new length. *)
Theorem push_stores_arguments_unwrapped (s : state) (m x : nat) (st : bool)
    (elems args : list value) :
  check_reg s = true →
  is_registered s m = true →
  heap s !! m = Some (OProxy x st) →
  heap s !! x = Some (OArray elems) →
  ∃ L s',
    array_method (VRef m) "push" args s =
      Ok (VNum (Z.of_nat (length (elems ++ args)))) s' ∧
    s' = add_calls L (with_obj x (OArray (elems ++ args)) s) ∧
    fires s m Change (VStr (pretty (length (elems ++ args)))) (arg 0 args) VUndef L ∧
    observableMap s' = observableMap s ∧
    ∀ j v, args !! j = Some v →
           array_get (VRef m) (length elems + j) s' = Ok v s'.
Proof.
  intros Hreg Hregm Hm Hx. apply check_reg_ok in Hreg.
  destruct (trigger_fires_stored Change (arg 0 args) VUndef
              m x (OArray (elems ++ args)) (VStr (pretty (length (elems ++ args))))
              s Hreg Hregm)
    as (L & Hrun & Hfires); [by right|].
  assert (m ≠ x) as Hne by (by eapply proxy_not_target).
  exists L. eexists. split; [|split; [reflexivity|split; [done|split; [done|]]]].
  - rewrite (array_method_run _ _ _ _ _ _ _ Hm Hx).
    assert (array_apply x "push" args elems s =
              Ok (VNum (Z.of_nat (length (elems ++ args))))
                 (with_obj x (OArray (elems ++ args)) s)) as Happ by reflexivity.
    rewrite (bind_eq _ _ _ _ _ Happ). strings.
    erewrite bind_eq; [reflexivity|].
    erewrite bind_eq;
      [|eapply array_length_eq;
          [exact (eq_trans (heap_with_obj_ne s x m _ [] Hne) Hm)
          |exact (heap_with_obj_eq _ _ _ _ [] Hx)]].
    exact Hrun.
  - intros j v Hj.
    erewrite array_get_eq;
      [|by rewrite heap_with_obj_ne|by eapply heap_with_obj_eq].
    rewrite lookup_app_r by lia.
    replace (length elems + j - length elems) with j by lia. by rewrite Hj.
Qed.

(** X13: [shift] through an array façade removes the first element and
    returns it; one change event is fired with the path ["0"], no new value
    and the removed element as the old value.  On an empty array the call
    returns [undefined] and the event is fired all the same. *)
Theorem shift_reports_index_zero (s : state) (m x : nat) (st : bool)
    (elems : list value) :
  check_reg s = true →
  is_registered s m = true →
  heap s !! m = Some (OProxy x st) →
  heap s !! x = Some (OArray elems) →
  ∃ L s',
    array_method (VRef m) "shift" [] s = Ok (default VUndef (head elems)) s' ∧
    s' = add_calls L (with_obj x (OArray (tail elems)) s) ∧
    fires s m Change (VStr "0") VUndef (default VUndef (head elems)) L.
Proof.
  intros Hreg Hregm Hm Hx. apply check_reg_ok in Hreg.
  destruct (trigger_fires_stored Change VUndef (default VUndef (head elems))
              m x (OArray (tail elems)) (VStr "0") s Hreg Hregm)
    as (L & Hrun & Hfires); [by right|].
  exists L. eexists. split; [|split; [reflexivity|done]].
  rewrite (array_method_run _ _ _ _ _ _ _ Hm Hx).
  assert (array_apply x "shift" [] elems s =
            Ok (default VUndef (head elems))
               (with_obj x (OArray (tail elems)) s)) as Happ by reflexivity.
  rewrite (bind_eq _ _ _ _ _ Happ). strings.
  change (pretty 0) with "0".
  by rewrite (bind_eq _ _ _ _ _ Hrun).
Qed.

(** X14: [unshift] through an array façade puts its arguments in front of
    the elements, as they are, and returns the new length; whatever the
    number of arguments, one change event is fired, with the path ["0"] and
    the first argument as the new value. *)
Theorem unshift_reports_first_argument (s : state) (m x : nat) (st : bool)
    (elems args : list value) :
  check_reg s = true →
  is_registered s m = true →
  heap s !! m = Some (OProxy x st) →
  heap s !! x = Some (OArray elems) →
  ∃ L s',
    array_method (VRef m) "unshift" args s =
      Ok (VNum (Z.of_nat (length (args ++ elems)))) s' ∧
    s' = add_calls L (with_obj x (OArray (args ++ elems)) s) ∧
    fires s m Change (VStr "0") (arg 0 args) VUndef L.
Proof.
  intros Hreg Hregm Hm Hx. apply check_reg_ok in Hreg.
  destruct (trigger_fires_stored Change (arg 0 args) VUndef
              m x (OArray (args ++ elems)) (VStr "0") s Hreg Hregm)
    as (L & Hrun & Hfires); [by right|].
  exists L. eexists. split; [|split; [reflexivity|done]].
  rewrite (array_method_run _ _ _ _ _ _ _ Hm Hx).
  assert (array_apply x "unshift" args elems s =
            Ok (VNum (Z.of_nat (length (args ++ elems))))
               (with_obj x (OArray (args ++ elems)) s)) as Happ by reflexivity.
  rewrite (bind_eq _ _ _ _ _ Happ). strings.
  change (pretty 0) with "0".
  by rewrite (bind_eq _ _ _ _ _ Hrun).
Qed.

Lemma set_method_run (s : state) (m x : nat) (st weak : bool) (items : list value)
    (p : string) (args : list value) :
  heap s !! m = Some (OProxy x st) →
  heap s !! x = Some (OSet weak items) →
  set_method (VRef m) p args s =
    (if set_modifying weak p then
       let* result := set_apply x weak p args items in
       (if decide (p = "add") then
          triggerObserver Change (VRef m) (VStr "*") (arg 0 args) VUndef
        else if decide (p = "delete") then
          triggerObserver Change (VRef m) (VStr "*") VUndef (arg 0 args)
        else
          triggerObserver Change (VRef m) (VStr "*") VUndef VUndef) ;;;
       ret result
     else set_apply x weak p args items) s.
Proof.
  intros Hm Hx. unfold set_method.
  rewrite (bind_eq _ _ _ _ _ (proxy_parts_eq _ _ _ _ Hm)).
  by rewrite (bind_eq _ _ _ _ _ (deref_eq _ _ _ Hx)).
Qed.

Lemma map_method_run (s : state) (m x : nat) (st weak : bool)
    (entries : list (value * value)) (p : string) (args : list value) :
  heap s !! m = Some (OProxy x st) →
  heap s !! x = Some (OMap weak entries) →
  map_method (VRef m) p args s =
    (if map_modifying weak p then
       let valueOld :=
         if decide (p = "set") then default VUndef (alist_get (arg 0 args) entries)
         else VUndef in
       let* result := map_apply x weak p args entries in
       (if decide (p = "set") then
          triggerObserver Change (VRef m) (arg 0 args) (arg 1 args) valueOld
        else if decide (p = "delete") then
          triggerObserver Change (VRef m) (arg 0 args) VUndef (arg 1 args)
        else
          triggerObserver Change (VRef m) (VStr "*") VUndef VUndef) ;;;
       ret result
     else map_apply x weak p args entries) s.
Proof.
  intros Hm Hx. unfold map_method.
  rewrite (bind_eq _ _ _ _ _ (proxy_parts_eq _ _ _ _ Hm)).
  by rewrite (bind_eq _ _ _ _ _ (deref_eq _ _ _ Hx)).
Qed.

Lemma set_modifying_add (weak : bool) : set_modifying weak "add" = true.
Proof. by destruct weak. Qed.

Lemma set_modifying_delete (weak : bool) : set_modifying weak "delete" = true.
Proof. by destruct weak. Qed.

Lemma set_modifying_has (weak : bool) : set_modifying weak "has" = false.
Proof. by destruct weak. Qed.

Lemma map_modifying_set (weak : bool) : map_modifying weak "set" = true.
Proof. by destruct weak. Qed.

Lemma map_modifying_get (weak : bool) : map_modifying weak "get" = false.
Proof. by destruct weak. Qed.

(** X15: [add] through the façade of a [Set] (or of a [WeakSet], for an
    object) inserts the member as it is and returns the raw collection,
    which is what the original method returns, not the façade.  One change
    event with the path ["*"] and the member as the new value is fired,
    also when the member was present already and the collection did not
    change.  Afterwards [has] answers [true]. *)
Theorem set_add_always_notifies (s : state) (m x : nat) (st weak : bool)
    (items : list value) (item : value) :
  check_reg s = true →
  is_registered s m = true →
  heap s !! m = Some (OProxy x st) →
  heap s !! x = Some (OSet weak items) →
  weak && negb (is_ref item) = false →
  ∃ L s',
    set_method (VRef m) "add" [item] s = Ok (VRef x) s' ∧
    s' = add_calls L (with_obj x (OSet weak (set_insert item items)) s) ∧
    fires s m Change (VStr "*") item VUndef L ∧
    (item ∈ items → heap s' = heap s) ∧
    observableMap s' = observableMap s ∧
    set_method (VRef m) "has" [item] s' = Ok (VBool true) s'.
Proof.
  intros Hreg Hregm Hm Hx Hweak. apply check_reg_ok in Hreg.
  destruct (trigger_fires_stored Change item VUndef
              m x (OSet weak (set_insert item items)) (VStr "*") s Hreg Hregm)
    as (L & Hrun & Hfires); [by right|].
  assert (m ≠ x) as Hne by (by eapply proxy_not_target).
  exists L. eexists.
  split; [|split; [reflexivity|split; [done|split; [|split; [done|]]]]].
  - rewrite (set_method_run _ _ _ _ _ _ _ _ Hm Hx), set_modifying_add.
    assert (set_apply x weak "add" [item] items s =
              Ok (VRef x) (with_obj x (OSet weak (set_insert item items)) s)) as Happ.
    { unfold set_apply. strings. change (arg 0 [item]) with item. by rewrite Hweak. }
    rewrite (bind_eq _ _ _ _ _ Happ). strings.
    change (arg 0 [item]) with item.
    by rewrite (bind_eq _ _ _ _ _ Hrun).
  - intros Hin. simpl. unfold set_insert. rewrite decide_True by done.
    by apply list_insert_id.
  - erewrite set_method_run;
      [|by rewrite heap_with_obj_ne|by eapply heap_with_obj_eq].
    rewrite set_modifying_has. unfold set_apply. strings.
    change (arg 0 [item]) with item. unfold ret.
    rewrite bool_decide_true; [done|].
    unfold set_insert. destruct (decide (item ∈ items)); [done|].
    apply elem_of_app. right. by apply list_elem_of_singleton.
Qed.

(** X16: [delete] through the façade of a [Set] or a [WeakSet] removes the
    member and returns whether it was present; the event it fires is a
    change event (not a delete event) with the path ["*"], no new value and
    the member as the old value, and it is fired also when the member was
    absent and the call returns [false]. *)
Theorem set_delete_always_notifies (s : state) (m x : nat) (st weak : bool)
    (items : list value) (item : value) :
  check_reg s = true →
  is_registered s m = true →
  heap s !! m = Some (OProxy x st) →
  heap s !! x = Some (OSet weak items) →
  ∃ L s',
    set_method (VRef m) "delete" [item] s =
      Ok (VBool (bool_decide (item ∈ items))) s' ∧
    s' = add_calls L (with_obj x (OSet weak (set_remove item items)) s) ∧
    fires s m Change (VStr "*") VUndef item L ∧
    set_method (VRef m) "has" [item] s' = Ok (VBool false) s'.
Proof.
  intros Hreg Hregm Hm Hx. apply check_reg_ok in Hreg.
  destruct (trigger_fires_stored Change VUndef item
              m x (OSet weak (set_remove item items)) (VStr "*") s Hreg Hregm)
    as (L & Hrun & Hfires); [by right|].
  assert (m ≠ x) as Hne by (by eapply proxy_not_target).
  exists L. eexists. split; [|split; [reflexivity|split; [done|]]].
  - rewrite (set_method_run _ _ _ _ _ _ _ _ Hm Hx), set_modifying_delete.
    assert (set_apply x weak "delete" [item] items s =
              Ok (VBool (bool_decide (item ∈ items)))
                 (with_obj x (OSet weak (set_remove item items)) s)) as Happ
      by reflexivity.
    rewrite (bind_eq _ _ _ _ _ Happ). strings.
    change (arg 0 [item]) with item.
    by rewrite (bind_eq _ _ _ _ _ Hrun).
  - erewrite set_method_run;
      [|by rewrite heap_with_obj_ne|by eapply heap_with_obj_eq].
    rewrite set_modifying_has. unfold set_apply. strings.
    change (arg 0 [item]) with item. unfold ret.
    rewrite bool_decide_false; [done|].
    unfold set_remove. rewrite list_elem_of_filter. by intros [? _].
Qed.

(** X17: [set] through the façade of a [Map] (or of a [WeakMap], for an
    object key) stores the value under the key as it is, without making it
    observable, and returns the raw collection, not the façade.  One change
    event is fired whose path is the key as it was passed (not converted to
    a string at the façade itself), whose new value is the stored value and
    whose old value is the value the key had before ([undefined] for a new
    key).  Afterwards [get] returns the stored value. *)
Theorem map_set_then_get (s : state) (m x : nat) (st weak : bool)
    (info : ObservableInfo) (entries : list (value * value)) (key w : value) :
  check_reg s = true →
  observableMap s !! m = Some info →
  heap s !! m = Some (OProxy x st) →
  heap s !! x = Some (OMap weak entries) →
  weak && negb (is_ref key) = false →
  info_parent info = VNull ∨ printable key = true →
  ∃ L s',
    map_method (VRef m) "set" [key; w] s = Ok (VRef x) s' ∧
    s' = add_calls L (with_obj x (OMap weak (alist_set key w entries)) s) ∧
    fires s m Change key w (default VUndef (alist_get key entries)) L ∧
    observableMap s' = observableMap s ∧
    map_method (VRef m) "get" [key] s' = Ok w s'.
Proof.
  intros Hreg Hinfo Hm Hx Hweak Hkey. apply check_reg_ok in Hreg.
  destruct (trigger_fires Change w (default VUndef (alist_get key entries))
              m info key (with_obj x (OMap weak (alist_set key w entries)) s))
    as (L & Hrun & Hfires); [by apply registry_ok_with_obj|done|done|].
  assert (m ≠ x) as Hne by (by eapply proxy_not_target).
  exists L. eexists. split; [|split; [reflexivity|split; [done|split; [done|]]]].
  - rewrite (map_method_run _ _ _ _ _ _ _ _ Hm Hx), map_modifying_set.
    assert (map_apply x weak "set" [key; w] entries s =
              Ok (VRef x) (with_obj x (OMap weak (alist_set key w entries)) s)) as Happ.
    { unfold map_apply. strings. change (arg 0 [key; w]) with key.
      by rewrite Hweak. }
    cbv zeta. rewrite (bind_eq _ _ _ _ _ Happ). strings.
    change (arg 0 [key; w]) with key. change (arg 1 [key; w]) with w.
    by rewrite (bind_eq _ _ _ _ _ Hrun).
  - erewrite map_method_run;
      [|by rewrite heap_with_obj_ne|by eapply heap_with_obj_eq].
    rewrite map_modifying_get. unfold map_apply. strings.
    change (arg 0 [key]) with key. unfold ret.
    by rewrite alist_get_set.
Qed.

(** X3: the path of the event of a [Map] is the key itself, and the
    propagation to a parent builds the parent's path with a template
    literal, which throws for a symbol.  So [set] with a symbol key on the
    façade of a [Map] that has a parent stores the entry, invokes the
    callbacks of the façade of the [Map] and then fails with a [TypeError];
    the callbacks of the ancestors are not invoked. *)
Theorem map_set_symbol_key_throws (s : state) (m x p : nat) (st : bool)
    (info : ObservableInfo) (entries : list (value * value)) (d : string)
    (w : value) :
  check_reg s = true →
  observableMap s !! m = Some info →
  heap s !! m = Some (OProxy x st) →
  heap s !! x = Some (OMap false entries) →
  info_parent info = VRef p →
  map_method (VRef m) "set" [VSym d; w] s =
    Throw TypeError
      (add_calls
         (deliveries info
            (mkObservation Change (VRef m) (VSym d) w
               (default VUndef (alist_get (VSym d) entries))))
         (with_obj x (OMap false (alist_set (VSym d) w entries)) s)).
Proof.
  intros Hreg Hinfo Hm Hx Hp. apply check_reg_ok in Hreg.
  destruct (Hreg _ _ Hinfo) as [_ Hpar]. unfold parent_ok in Hpar.
  rewrite Hp in Hpar. apply andb_True in Hpar as [_ Hname].
  assert (∃ n, to_String (info_name info) = Some n) as [n Hn].
  { destruct (info_name info) as [| |[]| | | | |]; simpl in *; try done; eauto. }
  rewrite (map_method_run _ _ _ _ _ _ _ _ Hm Hx).
  change (map_modifying false "set") with true. cbv iota zeta.
  assert (map_apply x false "set" [VSym d; w] entries s =
            Ok (VRef x) (with_obj x (OMap false (alist_set (VSym d) w entries)) s))
    as Happ by reflexivity.
  rewrite (bind_eq _ _ _ _ _ Happ). strings.
  change (arg 0 [VSym d; w]) with (VSym d). change (arg 1 [VSym d; w]) with w.
  erewrite bind_throw; [reflexivity|].
  unfold triggerObserver, bind at 1, get_state.
  cbn [triggerObserver_rec]. unfold bind at 1. simpl observableMap_get.
  cbn [observableMap with_obj]. rewrite Hinfo.
  rewrite (bind_eq _ _ _ _ _ (forM_callbacks _ _ _ _)).
  rewrite decide_False by (by rewrite Hp).
  unfold js_String. rewrite Hn. by unfold bind, ret.
Qed.

(** X18: [clear] through the façade of a [Set] empties it, returns
    [undefined] and fires one change event with the path ["*"] and neither
    a new nor an old value, also when the [Set] was empty already.  A
    [WeakSet] has no [clear]: the call throws a [TypeError] and nothing is
    changed or fired. *)
Theorem set_clear_notifies (s : state) (m x : nat) (st weak : bool)
    (items : list value) :
  check_reg s = true →
  is_registered s m = true →
  heap s !! m = Some (OProxy x st) →
  heap s !! x = Some (OSet weak items) →
  if weak then set_method (VRef m) "clear" [] s = Throw TypeError s
  else ∃ L,
    set_method (VRef m) "clear" [] s =
      Ok VUndef (add_calls L (with_obj x (OSet false []) s)) ∧
    fires s m Change (VStr "*") VUndef VUndef L.
Proof.
  intros Hreg Hregm Hm Hx. apply check_reg_ok in Hreg.
  rewrite (set_method_run _ _ _ _ _ _ _ _ Hm Hx).
  destruct weak; [reflexivity|].
  destruct (trigger_fires_stored Change VUndef VUndef
              m x (OSet false []) (VStr "*") s Hreg Hregm)
    as (L & Hrun & Hfires); [by right|].
  exists L. split; [|done].
  change (set_modifying false "clear") with true. cbv iota.
  assert (set_apply x false "clear" [] items s =
            Ok VUndef (with_obj x (OSet false []) s)) as Happ by reflexivity.
  rewrite (bind_eq _ _ _ _ _ Happ). strings.
  by rewrite (bind_eq _ _ _ _ _ Hrun).
Qed.

(** X19: [clear] through the façade of a [Map] empties it, returns
    [undefined] and fires one change event with the path ["*"] and neither
    a new nor an old value; the removed entries are not reported.  A
    [WeakMap] has no [clear]: the call throws a [TypeError] and nothing is
    changed or fired. *)
Theorem map_clear_notifies (s : state) (m x : nat) (st weak : bool)
    (entries : list (value * value)) :
  check_reg s = true →
  is_registered s m = true →
  heap s !! m = Some (OProxy x st) →
  heap s !! x = Some (OMap weak entries) →
  if weak then map_method (VRef m) "clear" [] s = Throw TypeError s
  else ∃ L,
    map_method (VRef m) "clear" [] s =
      Ok VUndef (add_calls L (with_obj x (OMap false []) s)) ∧
    fires s m Change (VStr "*") VUndef VUndef L.
Proof.
  intros Hreg Hregm Hm Hx. apply check_reg_ok in Hreg.
  rewrite (map_method_run _ _ _ _ _ _ _ _ Hm Hx).
  destruct weak; [reflexivity|].
  destruct (trigger_fires_stored Change VUndef VUndef
              m x (OMap false []) (VStr "*") s Hreg Hregm)
    as (L & Hrun & Hfires); [by right|].
  exists L. split; [|done].
  change (map_modifying false "clear") with true. cbv iota zeta.
  assert (map_apply x false "clear" [] entries s =
            Ok VUndef (with_obj x (OMap false []) s)) as Happ by reflexivity.
  rewrite (bind_eq _ _ _ _ _ Happ). strings.
  by rewrite (bind_eq _ _ _ _ _ Hrun).
Qed.

Lemma rel_index_bounds (len : nat) (rel : Z) :
  (0 ≤ rel_index (Z.of_nat len) rel ≤ Z.of_nat len)%Z.
Proof. unfold rel_index. destruct (rel <? 0)%Z eqn:E; lia. Qed.

Lemma bounds_eq (len : nat) (a b : Z) (s : state) :
  bounds len (VNum a) (VNum b) s =
    Ok (Z.to_nat (rel_index (Z.of_nat len) a), Z.to_nat (rel_index (Z.of_nat len) b)) s.
Proof. reflexivity. Qed.

Lemma typed_slice_eq (s : state) (x : nat) (k : tkind) (data : list Z) (a b : Z) :
  heap s !! x = Some (OTyped k data) →
  typed_slice x (VNum a) (VNum b) s =
    Ok (VRef (length (heap s)))
       (mkState
          (heap s ++
             [OTyped k
                (take (Z.to_nat (rel_index (Z.of_nat (length data)) b) -
                       Z.to_nat (rel_index (Z.of_nat (length data)) a))
                   (drop (Z.to_nat (rel_index (Z.of_nat (length data)) a)) data))])
          (observableMap s) (calls s)).
Proof.
  intros Hx. unfold typed_slice.
  rewrite (bind_eq _ _ _ _ _ (deref_eq _ _ _ Hx)).
  by rewrite (bind_eq _ _ _ _ _ (bounds_eq _ _ _ _)).
Qed.

Lemma typed_fill_length (k : tkind) (n : Z) (from to : nat) (data : list Z) :
  from ≤ length data → to ≤ length data →
  length (typed_fill k n from to data) = length data.
Proof.
  intros Hf Ht. unfold typed_fill.
  rewrite !length_app, length_take, length_replicate, length_drop. lia.
Qed.

Lemma typed_fill_range (k : tkind) (n : Z) (from to : nat) (data : list Z) :
  from ≤ length data →
  take (to - from) (drop from (typed_fill k n from to data)) =
    replicate (to - from) (tconv k n).
Proof.
  intros Hf. unfold typed_fill.
  rewrite drop_app_length'; [|rewrite length_take; lia].
  rewrite take_app_length'; [done|by rewrite length_replicate].
Qed.

(** X20: [fill(n, start, end)] through a typed array façade writes the
    converted number to the range that [start] and [end] denote (a negative
    bound counts from the end), keeps the length and returns the raw typed
    array.  It fires one change event whose old and new value are two new
    typed arrays, copies of the range before and after the call, which are
    not observable; the path of the event is the argument [start] as it was
    passed: a number, and a negative one when [start] was negative. *)
Theorem typed_fill_reports_range (s : state) (m x : nat) (st : bool)
    (k : tkind) (data : list Z) (n a b : Z) :
  check_reg s = true →
  is_registered s m = true →
  heap s !! m = Some (OProxy x st) →
  heap s !! x = Some (OTyped k data) →
  let from := Z.to_nat (rel_index (Z.of_nat (length data)) a) in
  let to := Z.to_nat (rel_index (Z.of_nat (length data)) b) in
  ∃ L s',
    typed_method (VRef m) "fill" [VNum n; VNum a; VNum b] s = Ok (VRef x) s' ∧
    heap s' =
      <[x := OTyped k (typed_fill k n from to data)]> (heap s) ++
        [OTyped k (take (to - from) (drop from data));
         OTyped k (replicate (to - from) (tconv k n))] ∧
    length (typed_fill k n from to data) = length data ∧
    observableMap s' = observableMap s ∧
    calls s' = calls s ++ L ∧
    fires s m Change (VNum a)
          (VRef (S (length (heap s)))) (VRef (length (heap s))) L.
Proof.
  intros Hreg Hregm Hm Hx from to. apply check_reg_ok in Hreg.
  assert (from ≤ length data ∧ to ≤ length data) as [Hf Ht].
  { pose proof (rel_index_bounds (length data) a).
    pose proof (rel_index_bounds (length data) b). unfold from, to. lia. }
  assert (m ≠ x) as Hne by (by eapply proxy_not_target).
  assert (x < length (heap s)) as Hxlt by (by eapply lookup_lt_Some).
  pose (s1 := mkState (heap s ++ [OTyped k (take (to - from) (drop from data))])
                (observableMap s) (calls s)).
  pose (s2 := with_obj x (OTyped k (typed_fill k n from to data)) s1).
  pose (s3 := mkState (heap s2 ++ [OTyped k (replicate (to - from) (tconv k n))])
                (observableMap s) (calls s)).
  assert (heap s1 !! x = Some (OTyped k data)) as Hx1
    by (simpl; by apply lookup_app_l_Some).
  assert (heap s2 !! x = Some (OTyped k (typed_fill k n from to data))) as Hx2.
  { simpl. apply list_lookup_insert_eq. rewrite length_app. lia. }
  destruct (registered_info _ _ Hregm) as [info Hinfo].
  destruct (trigger_fires Change (VRef (S (length (heap s)))) (VRef (length (heap s)))
              m info (VNum a) s3) as (L & Hrun & Hfires).
  { apply (registry_ok_heap s); [done|done|].
    simpl. rewrite length_app, length_insert, length_app. lia. }
  { done. }
  { by right. }
  exists L. eexists. split; [|split; [|split; [|split; [|split]]]].
  - unfold typed_method.
    rewrite (bind_eq _ _ _ _ _ (proxy_parts_eq _ _ _ _ Hm)). strings.
    change (arg 1 [VNum n; VNum a; VNum b]) with (VNum a).
    change (arg 2 [VNum n; VNum a; VNum b]) with (VNum b).
    rewrite (bind_eq _ _ _ _ _ (typed_slice_eq _ _ _ _ _ _ Hx)).
    fold from to. fold s1.
    assert (typed_apply x "fill" [VNum n; VNum a; VNum b] s1 = Ok (VRef x) s2) as Happ.
    { unfold typed_apply. rewrite (bind_eq _ _ _ _ _ (deref_eq _ _ _ Hx1)). strings.
      change (arg 0 [VNum n; VNum a; VNum b]) with (VNum n).
      change (arg 1 [VNum n; VNum a; VNum b]) with (VNum a).
      change (arg 2 [VNum n; VNum a; VNum b]) with (VNum b).
      cbv iota. by rewrite (bind_eq _ _ _ _ _ (bounds_eq _ _ _ _)). }
    rewrite (bind_eq _ _ _ _ _ Happ).
    erewrite bind_eq; [reflexivity|]. strings.
    change (arg 1 [VNum n; VNum a; VNum b]) with (VNum a).
    change (arg 2 [VNum n; VNum a; VNum b]) with (VNum b).
    rewrite (bind_eq _ _ _ _ _ (typed_slice_eq _ _ _ _ _ _ Hx2)).
    rewrite (typed_fill_length _ _ _ _ _ Hf Ht). fold from to.
    rewrite (typed_fill_range _ _ _ _ _ Hf).
    replace (length (heap s2)) with (S (length (heap s)))
      by (simpl; rewrite length_insert, length_app; simpl; lia).
    exact Hrun.
  - simpl. rewrite insert_app_l by done. by rewrite <- app_assoc.
  - by apply typed_fill_length.
  - done.
  - done.
  - destruct Hfires as [(info' & L' & Hi & HL & Hn & Ht') Hev].
    split; [by exists info', L'|done].
Qed.

(** X21: [reverse] through a typed array façade reverses the elements in
    place and returns the raw typed array.  It fires one change event with
    the path ["0"]; the old value is a copy of the former content, a new
    typed array, and the new value is the raw typed array itself, not its
    façade. *)
Theorem typed_reverse_hands_out_raw (s : state) (m x : nat) (st : bool)
    (k : tkind) (data : list Z) :
  check_reg s = true →
  is_registered s m = true →
  heap s !! m = Some (OProxy x st) →
  heap s !! x = Some (OTyped k data) →
  ∃ L s',
    typed_method (VRef m) "reverse" [] s = Ok (VRef x) s' ∧
    heap s' = <[x := OTyped k (reverse data)]> (heap s) ++ [OTyped k data] ∧
    observableMap s' = observableMap s ∧
    calls s' = calls s ++ L ∧
    fires s m Change (VStr "0") (VRef x) (VRef (length (heap s))) L.
Proof.
  intros Hreg Hregm Hm Hx. apply check_reg_ok in Hreg.
  assert (x < length (heap s)) as Hxlt by (by eapply lookup_lt_Some).
  pose (s1 := mkState (heap s ++ [OTyped k data]) (observableMap s) (calls s)).
  pose (s2 := with_obj x (OTyped k (reverse data)) s1).
  assert (heap s1 !! x = Some (OTyped k data)) as Hx1
    by (simpl; by apply lookup_app_l_Some).
  destruct (registered_info _ _ Hregm) as [info Hinfo].
  destruct (trigger_fires Change (VRef x) (VRef (length (heap s)))
              m info (VStr "0") s2) as (L & Hrun & Hfires).
  { apply (registry_ok_heap s); [done|done|].
    simpl. rewrite length_insert, length_app. lia. }
  { done. }
  { by right. }
  exists L. eexists. split; [|split; [|split; [|split]]].
  - unfold typed_method.
    rewrite (bind_eq _ _ _ _ _ (proxy_parts_eq _ _ _ _ Hm)). strings.
    assert (typed_slice x (VNum 0) VUndef s = Ok (VRef (length (heap s))) s1) as Hsl.
    { unfold typed_slice. rewrite (bind_eq _ _ _ _ _ (deref_eq _ _ _ Hx)).
      assert (bounds (length data) (VNum 0) VUndef s = Ok (0, length data) s) as Hb.
      { unfold bounds, bind, to_integer, ret. simpl. unfold rel_index. simpl.
        destruct (Z.ltb_spec (Z.of_nat (length data)) 0); [lia|].
        f_equal. f_equal; lia. }
      rewrite (bind_eq _ _ _ _ _ Hb). unfold alloc. simpl.
      rewrite Nat.sub_0_r, firstn_all. done. }
    rewrite (bind_eq _ _ _ _ _ Hsl).
    assert (typed_apply x "reverse" [] s1 = Ok (VRef x) s2) as Happ.
    { unfold typed_apply. rewrite (bind_eq _ _ _ _ _ (deref_eq _ _ _ Hx1)).
      by strings. }
    rewrite (bind_eq _ _ _ _ _ Happ).
    erewrite bind_eq; [reflexivity|]. strings.
    change (pretty 0) with "0". exact Hrun.
  - simpl. by rewrite insert_app_l.
  - done.
  - done.
  - destruct Hfires as [(info' & L' & Hi & HL & Hn & Ht') Hev].
    split; [by exists info', L'|done].
Qed.

(** ** Updates of the registry by the observer handles *)

Lemma bubbles_alter (g : ObservableInfo → ObservableInfo) (f : nat)
    (om : gmap nat ObservableInfo) (t p A q : value) :
  keeps_links g →
  bubbles om t p A q ↔ bubbles (alter g f om) t p A q.
Proof.
  intros Hg. split.
  - induction 1 as [|a info n ps p A q Ha Hpar Hn Hpr Hps Hb IH]; [constructor|].
    destruct (Hg info) as [Hname Hparent].
    destruct (decide (a = f)) as [->|Hne].
    + apply (bubbles_up _ f (g info) n ps p A q);
        [by rewrite lookup_alter_eq, Ha|by rewrite Hparent|by rewrite Hname
        |done|done|by rewrite Hparent].
    + apply (bubbles_up _ a info n ps p A q); try done.
      by rewrite lookup_alter_ne.
  - induction 1 as [|a info' n ps p A q Ha Hpar Hn Hpr Hps Hb IH]; [constructor|].
    destruct (decide (a = f)) as [->|Hne].
    + rewrite lookup_alter_eq in Ha.
      destruct (om !! f) as [info|] eqn:Hf; [|done].
      simpl in Ha. injection Ha as <-.
      destruct (Hg info) as [Hname Hparent].
      apply (bubbles_up _ f info n ps p A q);
        [done|by rewrite <- Hparent|by rewrite <- Hname|done|done
        |by rewrite <- Hparent].
    + rewrite lookup_alter_ne in Ha by done.
      apply (bubbles_up _ a info' n ps p A q); done.
Qed.

Lemma registry_ok_update (s : state) (f : nat) (g : ObservableInfo → ObservableInfo) :
  keeps_links g → registry_ok s → registry_ok (final (update_info f g s)).
Proof.
  intros Hg Hreg a info'. simpl. intros Ha.
  assert (∀ b, is_registered (mkState (heap s) (alter g f (observableMap s)) (calls s)) b
               = is_registered s b) as Hr.
  { intros b. unfold is_registered. simpl.
    destruct (decide (b = f)) as [->|Hne].
    - rewrite lookup_alter_eq. by destruct (observableMap s !! f).
    - by rewrite lookup_alter_ne. }
  assert (∃ info, observableMap s !! a = Some info ∧
                  info_name info' = info_name info ∧
                  info_parent info' = info_parent info) as (info & Hi & Hn & Hp).
  { destruct (decide (a = f)) as [->|Hne].
    - rewrite lookup_alter_eq in Ha.
      destruct (observableMap s !! f) as [info|]; [|done].
      simpl in Ha. injection Ha as <-. exists info.
      destruct (Hg info). done.
    - rewrite lookup_alter_ne in Ha by done. by exists info'. }
  destruct (Hreg _ _ Hi) as [Hlt Hpar]. split; [done|].
  unfold parent_ok in *. rewrite Hn, Hp.
  destruct (info_parent info); try done. by rewrite Hr.
Qed.

Lemma keeps_links_set_paused (b : bool) (o : Observer) : keeps_links (set_paused b o).
Proof. by intros i. Qed.

(** Pausing a callback at a façade, and removing it from the façade,
    deactivate that callback at that façade and nothing else. *)
Lemma active_pause (om : gmap nat ObservableInfo) (f cb : nat) (A : value) (c : nat) :
  active (alter (set_paused true (mkObserver f cb)) f om) A c ↔
  active om A c ∧ ¬ (c = cb ∧ A = VRef f).
Proof.
  split.
  - intros (a & info' & -> & Ha & Hin & Hp).
    destruct (decide (a = f)) as [->|Hne].
    + rewrite lookup_alter_eq in Ha.
      destruct (om !! f) as [info|] eqn:Hf; [|done].
      simpl in Ha. injection Ha as <-. simpl in *.
      destruct (decide (c = cb)) as [->|Hc].
      * by rewrite lookup_insert_eq in Hp.
      * rewrite lookup_insert_ne in Hp by done.
        split; [by exists f, info|]. by intros [? _].
    + rewrite lookup_alter_ne in Ha by done.
      split; [by exists a, info'|]. intros [_ [= ->]]. done.
  - intros [(a & info & -> & Ha & Hin & Hp) Hn].
    destruct (decide (a = f)) as [->|Hne].
    + exists f, (set_paused true (mkObserver f cb) info).
      split; [done|]. split; [by rewrite lookup_alter_eq, Ha|]. simpl.
      split; [done|]. rewrite lookup_insert_ne; [done|].
      intros <-. by apply Hn.
    + exists a, info. by rewrite lookup_alter_ne.
Qed.

Lemma active_destroy (om : gmap nat ObservableInfo) (f cb : nat) (A : value) (c : nat) :
  active (alter (λ info,
            mkInfo (info_raw info) (info_name info) (info_parent info)
              (filter (λ c, c ≠ cb) (info_callbacks info))
              (info_paused info)) f om) A c ↔
  active om A c ∧ ¬ (c = cb ∧ A = VRef f).
Proof.
  split.
  - intros (a & info' & -> & Ha & Hin & Hp).
    destruct (decide (a = f)) as [->|Hne].
    + rewrite lookup_alter_eq in Ha.
      destruct (om !! f) as [info|] eqn:Hf; [|done].
      simpl in Ha. injection Ha as <-. simpl in *.
      apply list_elem_of_filter in Hin as [Hc Hin].
      split; [by exists f, info|]. by intros [? _].
    + rewrite lookup_alter_ne in Ha by done.
      split; [by exists a, info'|]. intros [_ [= ->]]. done.
  - intros [(a & info & -> & Ha & Hin & Hp) Hn].
    destruct (decide (a = f)) as [->|Hne].
    + eexists f, _. split; [done|].
      split; [by rewrite lookup_alter_eq, Ha|]. simpl.
      split; [|done]. apply list_elem_of_filter. split; [|done].
      intros ->. by apply Hn.
    + exists a, info. by rewrite lookup_alter_ne.
Qed.

(** The log of an event after an update of the registry that keeps the
    links and deactivates one callback at one façade. *)
Lemma trigger_after_update (s : state) (f cb t : nat) (info : ObservableInfo)
    (g : ObservableInfo → ObservableInfo)
    (type : otype) (path valueNew valueOld : value) :
  registry_ok s →
  keeps_links g →
  (∀ A c, active (alter g f (observableMap s)) A c ↔
          active (observableMap s) A c ∧ ¬ (c = cb ∧ A = VRef f)) →
  observableMap s !! t = Some info →
  info_parent info = VNull ∨ printable path = true →
  ∃ L L',
    triggerObserver type (VRef t) path valueNew valueOld s = Ok tt (add_calls L s) ∧
    triggerObserver type (VRef t) path valueNew valueOld (final (update_info f g s)) =
      Ok tt (add_calls L' (final (update_info f g s))) ∧
    ∀ c o, (c, o) ∈ L' ↔ (c, o) ∈ L ∧ ¬ (c = cb ∧ o_target o = VRef f).
Proof.
  intros Hreg Hg Hact Ht Hpath.
  destruct (trigger_fires type valueNew valueOld t info path s Hreg Ht Hpath)
    as (L & Hrun & _ & Hev).
  assert (∃ info', observableMap (final (update_info f g s)) !! t = Some info' ∧
                   info_parent info' = info_parent info) as (info' & Ht' & Hp').
  { simpl. destruct (decide (t = f)) as [->|Hne].
    - exists (g info). rewrite lookup_alter_eq, Ht. split; [done|]. by destruct (Hg info).
    - exists info. by rewrite lookup_alter_ne. }
  destruct (trigger_fires type valueNew valueOld t info' path
              (final (update_info f g s))) as (L' & Hrun' & _ & Hev');
    [by apply registry_ok_update|done|by rewrite Hp'|].
  exists L, L'. split; [done|]. split; [done|].
  intros c o. rewrite (Hev' (c, o)), (Hev (c, o)). unfold reaches. simpl.
  split.
  - intros (A & q & -> & Hb & Ha). apply Hact in Ha as [Ha Hn].
    split; [|done]. exists A, q. split; [done|]. split; [|done].
    by apply (proj2 (bubbles_alter g f _ _ _ _ _ Hg)).
  - intros [(A & q & -> & Hb & Ha) Hn]. exists A, q. split; [done|].
    split; [by apply (proj1 (bubbles_alter g f _ _ _ _ _ Hg))|]. apply Hact. done.
Qed.

(** X4: [raw] and [observer] accept observables only.  For a value that is
    not an object both raise the input error of [isObservable]; for an
    object that is not registered, and for [null], both raise "argument not
    an observable".  Nothing is changed. *)
Theorem raw_and_observer_reject (v : value) (cb : nat) (s : state) :
  (∀ a, v = VRef a → is_registered s a = false) →
  raw v s =
    Throw (if decide (typeof v = TObject)
           then Error msg_not_observable else Error msg_object) s ∧
  observer v cb s =
    Throw (if decide (typeof v = TObject)
           then Error msg_not_observable else Error msg_object) s.
Proof.
  intros Hv. unfold raw, observer, isObservable.
  destruct (decide (typeof v = TObject)) as [Hty|Hty]; [|done].
  destruct v as [| | | | | | |a]; simpl in *; try done.
  rewrite !(bind_eq _ _ _ _ _ (observableMap_has_ref _ _)).
  by rewrite (Hv a eq_refl).
Qed.

Lemma raw_and_observer_reject_witness :
  raw (VRef 0) raw_record = Throw (Error msg_not_observable) raw_record ∧
  observer (VRef 0) 1 raw_record = Throw (Error msg_not_observable) raw_record.
Proof.
  assert (H : ∀ a, VRef 0 = VRef a → is_registered raw_record a = false)
    by (intros a [= <-]; reflexivity).
  exact (raw_and_observer_reject (VRef 0) 1 raw_record H).
Defined.

(** X5: pausing an observer silences its callback at its façade and
    nothing else: an event that is triggered anywhere afterwards invokes
    the callbacks it would have invoked before, with the same
    observations, except for the paused callback at that façade. *)
Theorem pause_silences_only_that_observer (s : state) (f cb t : nat)
    (info : ObservableInfo) (type : otype) (path valueNew valueOld : value) :
  check_reg s = true →
  observableMap s !! t = Some info →
  info_parent info = VNull ∨ printable path = true →
  ∃ L L',
    triggerObserver type (VRef t) path valueNew valueOld s = Ok tt (add_calls L s) ∧
    triggerObserver type (VRef t) path valueNew valueOld
        (final (pause (mkObserver f cb) s)) =
      Ok tt (add_calls L' (final (pause (mkObserver f cb) s))) ∧
    ∀ c o, (c, o) ∈ L' ↔ (c, o) ∈ L ∧ ¬ (c = cb ∧ o_target o = VRef f).
Proof.
  intros Hreg Ht Hpath. apply check_reg_ok in Hreg.
  apply (trigger_after_update s f cb t info (set_paused true (mkObserver f cb)));
    try done.
  intros A c. apply active_pause.
Qed.

(** X6: a new observer starts active, and resuming it after a pause
    restores the very state in which it was registered. *)
Theorem resume_undoes_pause (s s1 : state) (f : value) (cb : nat) (h : Observer) :
  observer f cb s = Ok h s1 →
  active (observableMap s1) f cb ∧
  resume h (final (pause h s1)) = Ok tt s1.
Proof.
  intros Hobs.
  destruct (observer_Ok _ _ _ _ _ Hobs)
    as (a & info & -> & -> & Ha & Hfresh & Hheap & Hcalls & Hmap).
  split.
  - eexists a, _. split; [done|]. split; [by rewrite Hmap, lookup_insert_eq|].
    simpl. split; [|by rewrite lookup_insert_eq].
    apply elem_of_app. right. by apply list_elem_of_singleton.
  - unfold resume, pause, update_info. simpl. destruct s1 as [h1 om1 c1].
    simpl in *. do 2 f_equal. rewrite alter_alter_eq. subst om1.
    apply map_eq. intros i. destruct (decide (i = a)) as [->|Hne].
    + rewrite lookup_alter_eq, lookup_insert_eq. simpl. unfold set_paused. simpl.
      do 2 f_equal. rewrite !insert_insert_eq. done.
    + by rewrite lookup_alter_ne.
Qed.

(** X7: destroying an observer removes its callback from its façade and
    nothing else: an event that is triggered anywhere afterwards invokes
    the callbacks it would have invoked before, with the same observations,
    except for the destroyed callback at that façade.  The callback can be
    registered again, and is then active whether or not it was paused. *)
Theorem destroy_removes_only_that_observer (s : state) (f cb t : nat)
    (finfo info : ObservableInfo) (type : otype) (path valueNew valueOld : value) :
  check_reg s = true →
  observableMap s !! f = Some finfo →
  cb ∈ info_callbacks finfo →
  observableMap s !! t = Some info →
  info_parent info = VNull ∨ printable path = true →
  ∃ s2 L L',
    destroy (mkObserver f cb) s = Ok tt s2 ∧
    triggerObserver type (VRef t) path valueNew valueOld s = Ok tt (add_calls L s) ∧
    triggerObserver type (VRef t) path valueNew valueOld s2 = Ok tt (add_calls L' s2) ∧
    (∀ c o, (c, o) ∈ L' ↔ (c, o) ∈ L ∧ ¬ (c = cb ∧ o_target o = VRef f)) ∧
    ∃ s3, observer (VRef f) cb s2 = Ok (mkObserver f cb) s3 ∧
          active (observableMap s3) (VRef f) cb.
Proof.
  intros Hreg Hf Hcb Ht Hpath. apply check_reg_ok in Hreg.
  set (g := λ info : ObservableInfo,
         mkInfo (info_raw info) (info_name info) (info_parent info)
           (filter (λ c, c ≠ cb) (info_callbacks info)) (info_paused info)).
  destruct (trigger_after_update s f cb t info g type path valueNew valueOld)
    as (L & L' & Hrun & Hrun' & Hev); try done.
  { intros A c. apply active_destroy. }
  exists (final (update_info f g s)), L, L'.
  split; [|split; [done|split; [done|split; [done|]]]].
  - unfold destroy, bind, get_state. simpl. rewrite Hf.
    by rewrite decide_True.
  - eexists. split.
    + unfold observer. rewrite (bind_eq _ _ _ _ _ (isObservable_ref _ _)).
      unfold is_registered. simpl. rewrite lookup_alter_eq, Hf. simpl.
      unfold bind at 1. simpl. rewrite lookup_alter_eq, Hf. simpl.
      rewrite decide_False; [reflexivity|].
      rewrite list_elem_of_filter. by intros [? _].
    + eexists f, _. split; [done|]. simpl.
      split; [by rewrite lookup_alter_eq, lookup_alter_eq, Hf|]. simpl.
      split; [|by rewrite lookup_insert_eq].
      apply elem_of_app. right. by apply list_elem_of_singleton.
Qed.

(** ** What a run of [makeObservable] leaves in place *)

Lemma grows_refl (s : state) : grows s s.
Proof. constructor; eauto. Qed.

Lemma grows_trans (s1 s2 s3 : state) : grows s1 s2 → grows s2 s3 → grows s1 s3.
Proof.
  intros [L1 M1 S1 C1] [L2 M2 S2 C2]. constructor.
  - lia.
  - intros a Ha. rewrite M2 by lia. by apply M1.
  - intros a o Ho. destruct (S1 _ _ Ho) as (o1 & Ho1 & E1).
    destruct (S2 _ _ Ho1) as (o2 & Ho2 & E2). exists o2. split; [done|congruence].
  - by etrans.
Qed.

Lemma grows_add_calls (l : list (nat * Observation)) (s : state) :
  grows s (add_calls l s).
Proof. constructor; simpl; eauto. by apply prefix_app_r. Qed.

Lemma grows_with_obj (x : nat) (o o' : obj) (s : state) :
  heap s !! x = Some o → shape o' = shape o → grows s (with_obj x o' s).
Proof.
  intros Hx Hsh. constructor; simpl.
  - by rewrite length_insert.
  - done.
  - intros a o1 Ho1. destruct (decide (a = x)) as [->|Hne].
    + exists o'. rewrite list_lookup_insert_eq by (by eapply lookup_lt_Some).
      split; [done|]. congruence.
    + exists o1. by rewrite list_lookup_insert_ne.
  - done.
Qed.

Lemma grows_with_proxy (x : nat) (st : bool) (info : ObservableInfo) (s : state) :
  grows s (with_proxy x st info s).
Proof.
  constructor; simpl.
  - rewrite length_app. lia.
  - intros a Ha. rewrite lookup_insert_ne; [done|lia].
  - intros a o Ho. exists o. split; [|done]. by apply lookup_app_l_Some.
  - done.
Qed.

Lemma keeps_ret {A} (a : A) : keeps (ret a).
Proof. intros s. apply grows_refl. Qed.

Lemma keeps_throw {A} (e : error) : keeps (throw (A := A) e).
Proof. intros s. apply grows_refl. Qed.

Lemma keeps_bind {A B} (m : M A) (k : A → M B) :
  keeps m → (∀ a, keeps (k a)) → keeps (bind m k).
Proof.
  intros Hm Hk s. unfold bind. specialize (Hm s).
  destruct (m s) as [a s1|e s1]; simpl in *; [|done].
  eapply grows_trans; [exact Hm|apply Hk].
Qed.

(** A computation that leaves the state as it is. *)
Lemma keeps_reads {A} (m : M A) : (∀ s, final (m s) = s) → keeps m.
Proof. intros H s. rewrite H. apply grows_refl. Qed.

Lemma deref_final (v : value) (s : state) : final (deref v s) = s.
Proof. unfold deref. destruct v; try done. by destruct (heap s !! a). Qed.

Lemma deref_Ok (v : value) (o : obj) (s s1 : state) :
  deref v s = Ok o s1 → s1 = s ∧ ∃ a, v = VRef a ∧ heap s !! a = Some o.
Proof.
  unfold deref. destruct v as [| | | | | | |a]; try done.
  destruct (heap s !! a) eqn:E; [|done]. intros [= -> ->]. eauto.
Qed.

Lemma proxy_parts_final (v : value) (s : state) : final (proxy_parts v s) = s.
Proof.
  unfold proxy_parts, bind. pose proof (deref_final v s) as H.
  destruct (deref v s) as [o s1|e s1]; simpl in *; [|done]. subst s1.
  by destruct o.
Qed.

Lemma keeps_deref (v : value) : keeps (deref v).
Proof. apply keeps_reads, deref_final. Qed.

Lemma keeps_proxy_parts (v : value) : keeps (proxy_parts v).
Proof. apply keeps_reads, proxy_parts_final. Qed.

Lemma keeps_observableMap_has (v : value) : keeps (observableMap_has v).
Proof. apply keeps_reads. intros s. by destruct v. Qed.

Lemma keeps_isObservable (v : value) : keeps (isObservable v).
Proof.
  unfold isObservable. destruct (decide _);
    [apply keeps_observableMap_has|apply keeps_throw].
Qed.

Lemma keeps_triggerObserver (type : otype) (target path valueNew valueOld : value) :
  keeps (triggerObserver type target path valueNew valueOld).
Proof.
  intros s. destruct (triggerObserver_calls type target path valueNew valueOld s)
    as [L ->]. apply grows_add_calls.
Qed.

Lemma keeps_forM {A} (l : list A) (body : A → M unit) :
  (∀ x, keeps (body x)) → keeps (forM l body).
Proof.
  intros H. induction l as [|x l IH]; simpl; [apply keeps_ret|].
  apply keeps_bind; [apply H|]. intros _. exact IH.
Qed.

(** An operation that dereferences its target and stores an object of the
    same kind there, or throws. *)
Lemma keeps_update {A} (target : nat) (k : obj → M A) :
  (∀ o s, heap s !! target = Some o → grows s (final (k o s))) →
  keeps (bind (deref (VRef target)) k).
Proof.
  intros H s. unfold bind, deref.
  destruct (heap s !! target) as [o|] eqn:E; [by apply H|apply grows_refl].
Qed.

Lemma grows_store (s : state) (x : nat) (o o' : obj) {A} (a : A) :
  heap s !! x = Some o → shape o' = shape o →
  grows s (final ((store x o' ;;; ret a) s)).
Proof. intros Hx Hsh. by apply (grows_with_obj x o). Qed.

Lemma keeps_plain_Reflect_get (target : nat) (p : string) :
  keeps (plain_Reflect_get target p).
Proof.
  apply keeps_update. intros o s _. destruct o; apply grows_refl.
Qed.

Lemma keeps_plain_Reflect_set (target : nat) (p : string) (v : value) :
  keeps (plain_Reflect_set target p v).
Proof.
  apply keeps_update. intros o s Ho.
  destruct o; try apply grows_refl. by apply (grows_store _ _ _ _ _ Ho).
Qed.

Lemma keeps_array_Reflect_get (target : nat) (i : nat) :
  keeps (array_Reflect_get target i).
Proof.
  apply keeps_update. intros o s _. destruct o; apply grows_refl.
Qed.

Lemma keeps_array_Reflect_set (target : nat) (i : nat) (v : value) :
  keeps (array_Reflect_set target i v).
Proof.
  apply keeps_update. intros o s Ho.
  destruct o; try apply grows_refl. by apply (grows_store _ _ _ _ _ Ho).
Qed.

Lemma keeps_plain_get (proxy : value) (p : string) : keeps (plain_get proxy p).
Proof.
  apply keeps_bind; [apply keeps_proxy_parts|].
  intros [t st]. apply keeps_plain_Reflect_get.
Qed.

Lemma keeps_array_get (proxy : value) (i : nat) : keeps (array_get proxy i).
Proof.
  apply keeps_bind; [apply keeps_proxy_parts|].
  intros [t st]. apply keeps_array_Reflect_get.
Qed.

Lemma keeps_plain_keys (proxy : value) : keeps (plain_keys proxy).
Proof.
  apply keeps_bind; [apply keeps_proxy_parts|]. intros [t st].
  apply keeps_update. intros o s _. destruct o; apply grows_refl.
Qed.

Lemma keeps_array_length (proxy : value) : keeps (array_length proxy).
Proof.
  apply keeps_bind; [apply keeps_proxy_parts|]. intros [t st].
  apply keeps_update. intros o s _. destruct o; apply grows_refl.
Qed.

Lemma keeps_set_values (proxy : value) : keeps (set_values proxy).
Proof.
  apply keeps_bind; [apply keeps_proxy_parts|]. intros [t st].
  apply keeps_update. intros o s _. destruct o; apply grows_refl.
Qed.

Lemma keeps_map_entries (proxy : value) : keeps (map_entries proxy).
Proof.
  apply keeps_bind; [apply keeps_proxy_parts|]. intros [t st].
  apply keeps_update. intros o s _. destruct o; apply grows_refl.
Qed.

Lemma grows_then {A B} (m : M A) (k : A → M B) (s : state) :
  grows s (final (m s)) → (∀ a, keeps (k a)) → grows s (final (bind m k s)).
Proof.
  intros Hm Hk. unfold bind. destruct (m s) as [a s1|e s1]; simpl in *; [|done].
  eapply grows_trans; [exact Hm|apply Hk].
Qed.

Lemma grows_set_apply (s : state) (target : nat) (weak : bool) (p : string)
    (args items : list value) :
  heap s !! target = Some (OSet weak items) →
  grows s (final (set_apply target weak p args items s)).
Proof.
  intros Ho. unfold set_apply.
  repeat (destruct (decide _); [|]);
    repeat (match goal with |- context [if ?b then _ else _] => destruct b end);
    first [apply grows_refl | by apply (grows_store _ _ _ _ _ Ho)].
Qed.

Lemma grows_map_apply (s : state) (target : nat) (weak : bool) (p : string)
    (args : list value) (entries : list (value * value)) :
  heap s !! target = Some (OMap weak entries) →
  grows s (final (map_apply target weak p args entries s)).
Proof.
  intros Ho. unfold map_apply.
  repeat (destruct (decide _); [|]);
    repeat (match goal with |- context [if ?b then _ else _] => destruct b end);
    first [apply grows_refl | by apply (grows_store _ _ _ _ _ Ho)].
Qed.

Lemma keeps_set_method (proxy : value) (p : string) (args : list value) :
  keeps (set_method proxy p args).
Proof.
  apply keeps_bind; [apply keeps_proxy_parts|]. intros [t st].
  apply keeps_update. intros o s Ho. destruct o; try apply grows_refl.
  destruct (set_modifying weak p); [|by apply grows_set_apply].
  apply grows_then; [by apply grows_set_apply|]. intros result.
  apply keeps_bind; [|intros _; apply keeps_ret].
  repeat (destruct (decide _)); apply keeps_triggerObserver.
Qed.

Lemma keeps_map_method (proxy : value) (p : string) (args : list value) :
  keeps (map_method proxy p args).
Proof.
  apply keeps_bind; [apply keeps_proxy_parts|]. intros [t st].
  apply keeps_update. intros o s Ho. destruct o; try apply grows_refl.
  destruct (map_modifying weak p); [|by apply grows_map_apply].
  cbv zeta. apply grows_then; [by apply grows_map_apply|]. intros result.
  apply keeps_bind; [|intros _; apply keeps_ret].
  repeat (destruct (decide _)); apply keeps_triggerObserver.
Qed.

Section keeps_traps.
Variable mk : value → value → value → bool → M value.
Hypothesis keeps_mk : ∀ obj name parent strict, keeps (mk obj name parent strict).

Lemma keeps_wrap_assigned (v p receiver : value) (strict : bool) :
  keeps (wrap_assigned mk v p receiver strict).
Proof.
  unfold wrap_assigned. destruct (decide _); [|apply keeps_ret].
  apply keeps_bind; [apply keeps_isObservable|].
  intros [|]; [apply keeps_ret|apply keeps_mk].
Qed.

Lemma keeps_plain_set_with (proxy : value) (p : string) (v : value) :
  keeps (plain_set_with mk proxy p v).
Proof.
  apply keeps_bind; [apply keeps_proxy_parts|]. intros [t st].
  apply keeps_bind; [apply keeps_plain_Reflect_get|]. intros valueOld.
  apply keeps_bind; [apply keeps_wrap_assigned|]. intros valueNew.
  apply keeps_bind; [apply keeps_plain_Reflect_set|]. intros result.
  apply keeps_bind; [apply keeps_triggerObserver|]. intros _. apply keeps_ret.
Qed.

Lemma keeps_array_set_with (proxy : value) (i : nat) (v : value) :
  keeps (array_set_with mk proxy i v).
Proof.
  apply keeps_bind; [apply keeps_proxy_parts|]. intros [t st].
  apply keeps_bind; [apply keeps_array_Reflect_get|]. intros valueOld.
  apply keeps_bind; [apply keeps_wrap_assigned|]. intros valueNew.
  apply keeps_bind; [apply keeps_array_Reflect_set|]. intros result.
  apply keeps_bind; [apply keeps_triggerObserver|]. intros _. apply keeps_ret.
Qed.

Lemma keeps_wrap_set_members (proxy : value) (strict : bool) :
  keeps (wrap_set_members mk proxy strict).
Proof.
  apply keeps_bind; [apply keeps_set_values|]. intros items.
  apply keeps_forM. intros item. unfold wrap_set_member.
  destruct (decide _); [|apply keeps_ret].
  apply keeps_bind; [apply keeps_set_method|]. intros _.
  apply keeps_bind; [apply keeps_mk|]. intros w.
  apply keeps_bind; [apply keeps_set_method|]. intros _. apply keeps_ret.
Qed.

Lemma keeps_wrap_map_members (proxy : value) (strict : bool) :
  keeps (wrap_map_members mk proxy strict).
Proof.
  apply keeps_bind; [apply keeps_map_entries|]. intros items.
  apply keeps_forM. intros [key item]. unfold wrap_map_member.
  destruct (decide _); [|apply keeps_ret].
  apply keeps_bind; [apply keeps_map_method|]. intros _.
  apply keeps_bind; [apply keeps_mk|]. intros w.
  apply keeps_bind; [apply keeps_map_method|]. intros _. apply keeps_ret.
Qed.

Lemma keeps_wrap_array_members (proxy : value) (strict : bool) :
  keeps (wrap_array_members mk proxy strict).
Proof.
  apply keeps_bind; [apply keeps_array_length|]. intros len.
  apply keeps_forM. intros i. unfold wrap_array_member.
  apply keeps_bind; [apply keeps_array_get|]. intros item.
  destruct (decide _); [|apply keeps_ret].
  apply keeps_bind; [apply keeps_array_get|]. intros item'.
  apply keeps_bind; [apply keeps_mk|]. intros w.
  apply keeps_bind; [apply keeps_array_set_with|]. intros _. apply keeps_ret.
Qed.

Lemma keeps_wrap_plain_members (proxy : value) (strict : bool) :
  keeps (wrap_plain_members mk proxy strict).
Proof.
  apply keeps_bind; [apply keeps_plain_keys|]. intros fields.
  apply keeps_forM. intros field. unfold wrap_plain_member.
  apply keeps_bind; [apply keeps_plain_get|]. intros item.
  destruct (decide _); [|apply keeps_ret].
  apply keeps_bind; [apply keeps_plain_get|]. intros item'.
  apply keeps_bind; [apply keeps_mk|]. intros w.
  apply keeps_bind; [apply keeps_plain_set_with|]. intros _. apply keeps_ret.
Qed.
End keeps_traps.

(** A new façade: the proxy is allocated and registered at the end of the
    heap. *)
Lemma keeps_new_proxy {A} (x : nat) (st : bool) (obj name parent : value)
    (k : value → M A) :
  (∀ proxy, keeps (k proxy)) →
  keeps (let* proxy := alloc (OProxy x st) in addInfo proxy obj name parent ;;; k proxy).
Proof.
  intros Hk s. rewrite new_proxy_eq.
  eapply grows_trans; [apply grows_with_proxy|apply Hk].
Qed.

Lemma keeps_makeObservable (fuel : nat) :
  ∀ obj name parent strict, keeps (makeObservable fuel obj name parent strict).
Proof.
  induction fuel as [|fuel IH]; intros obj name parent strict; simpl;
    [apply keeps_throw|].
  destruct (decide _); [|apply keeps_throw].
  apply keeps_bind; [apply keeps_observableMap_has|].
  intros [|]; [apply keeps_ret|].
  destruct obj as [| | | | | | |a]; try apply keeps_throw.
  intros s. unfold bind at 1.
  pose proof (deref_final (VRef a) s) as Hf.
  destruct (deref (VRef a) s) as [o s1|err s1]; simpl in Hf; subst s1;
    [|apply grows_refl].
  destruct o.
  - apply keeps_new_proxy. intros proxy.
    apply keeps_bind; [by apply keeps_wrap_plain_members|].
    intros _. apply keeps_ret.
  - apply keeps_new_proxy. intros proxy.
    apply keeps_bind; [by apply keeps_wrap_array_members|].
    intros _. apply keeps_ret.
  - apply keeps_new_proxy. intros proxy.
    apply keeps_bind; [|intros _; apply keeps_ret].
    destruct weak; [apply keeps_ret|by apply keeps_wrap_set_members].
  - apply keeps_new_proxy. intros proxy.
    apply keeps_bind; [|intros _; apply keeps_ret].
    destruct weak; [apply keeps_ret|by apply keeps_wrap_map_members].
  - apply keeps_new_proxy. intros proxy. apply keeps_ret.
  - apply grows_refl.
  - destruct strict; apply grows_refl.
  - apply grows_refl.
Qed.


(** ** Objects of other classes *)

Lemma forM_skip {A} (l1 l2 : list A) (body : A → M unit) (s : state) :
  (∀ x, x ∈ l1 → body x s = Ok tt s) →
  forM (l1 ++ l2) body s = forM l2 body s.
Proof.
  intros H. induction l1 as [|x l1 IH]; [done|]. simpl.
  rewrite (bind_eq _ _ _ _ _ (H x (list_elem_of_here _ _))).
  apply IH. intros y Hy. apply H. by right.
Qed.

Lemma alist_get_app_l {V} (l1 l2 : list (string * V)) (k : string) :
  k ∈ l1.*1 → ∃ v, alist_get k (l1 ++ l2) = Some v ∧ (k, v) ∈ l1.
Proof.
  induction l1 as [|[k' v'] l1 IH]; simpl; [by intros ?%elem_of_nil|].
  intros Hin. destruct (decide (k = k')) as [->|Hne].
  - exists v'. split; [done|by left].
  - apply elem_of_cons in Hin as [|Hin]; [done|].
    destruct (IH Hin) as (v & Hv & Hvin). exists v. split; [done|by right].
Qed.

Lemma alist_get_app_r {V} (l1 l2 : list (string * V)) (k : string) :
  k ∉ l1.*1 → alist_get k (l1 ++ l2) = alist_get k l2.
Proof.
  induction l1 as [|[k' v'] l1 IH]; simpl; [done|].
  intros Hin. apply not_elem_of_cons in Hin as [Hne Hin].
  rewrite decide_False by done. by apply IH.
Qed.

(** X23: an object of a class that is neither a supported collection nor
    passed through is returned as it is, unregistered, in lenient mode, and
    rejected in strict mode.  At the top level the rejection changes
    nothing.  As a member of a record it makes the wrap of the record fail
    after the façade of the record has been created and registered: the
    failed call leaves that façade behind. *)
Theorem strict_mode_rejects_other_classes (s : state) (x u : nat)
    (props1 props2 : list (string * value)) (f : string) (fuel : nat) :
  heap s !! u = Some OOther →
  is_registered s u = false →
  heap s !! x = Some (OPlain (props1 ++ (f, VRef u) :: props2)) →
  is_registered s x = false →
  Forall (λ e, typeof e.2 ≠ TObject) props1 →
  f ∉ props1.*1 →
  observable (S fuel) (VRef u) false s = Ok (VRef u) s ∧
  observable (S fuel) (VRef u) true s = Throw (Error msg_unsupported) s ∧
  observable (S (S fuel)) (VRef x) true s =
    Throw (Error msg_unsupported)
          (with_proxy x true (mkInfo (VRef x) (VStr "") VNull [] ∅) s).
Proof.
  intros Hu Hregu Hx Hregx Hprim Hf.
  assert (∀ st n p s0, heap s0 !! u = Some OOther → is_registered s0 u = false →
            makeObservable (S fuel) (VRef u) n p st s0 =
              if st then Throw (Error msg_unsupported) s0 else Ok (VRef u) s0) as Hmk.
  { intros st n p s0 Hu0 Hr0. cbn [makeObservable]. rewrite decide_True by done.
    rewrite (bind_eq _ _ _ _ _ (observableMap_has_ref _ _)), Hr0.
    rewrite (bind_eq _ _ _ _ _ (deref_eq _ _ _ Hu0)). by destruct st. }
  remember (S fuel) as n eqn:Hn.
  split; [|split].
  - unfold observable. rewrite (bind_eq _ _ _ _ _ (isObservable_ref _ _)), Hregu.
    by rewrite Hmk.
  - unfold observable. rewrite (bind_eq _ _ _ _ _ (isObservable_ref _ _)), Hregu.
    by rewrite Hmk.
  - unfold observable. rewrite (bind_eq _ _ _ _ _ (isObservable_ref _ _)), Hregx.
    cbn [makeObservable]. rewrite decide_True by done.
    rewrite (bind_eq _ _ _ _ _ (observableMap_has_ref _ _)), Hregx.
    rewrite (bind_eq _ _ _ _ _ (deref_eq _ _ _ Hx)).
    rewrite new_proxy_eq.
    set (s1 := with_proxy x true _ s).
    assert (heap s1 !! length (heap s) = Some (OProxy x true)) as Hm1.
    { simpl. rewrite lookup_app_r by lia. by rewrite Nat.sub_diag. }
    assert (heap s1 !! x = Some (OPlain (props1 ++ (f, VRef u) :: props2))) as Hx1
      by (simpl; by apply lookup_app_l_Some).
    assert (heap s1 !! u = Some OOther) as Hu1
      by (simpl; by apply lookup_app_l_Some).
    assert (is_registered s1 u = false) as Hregu1.
    { unfold is_registered in *. simpl. rewrite lookup_insert_ne; [done|].
      apply lookup_lt_Some in Hu. lia. }
    erewrite bind_throw; [reflexivity|].
    unfold wrap_plain_members.
    rewrite (bind_eq _ _ _ _ _ (plain_keys_eq _ _ _ _ _ Hm1 Hx1)).
    rewrite fmap_app, fmap_cons. simpl fst.
    rewrite forM_skip.
    + assert (default VUndef (alist_get f (props1 ++ (f, VRef u) :: props2)) = VRef u)
        as Hget.
      { rewrite alist_get_app_r by done. simpl. by rewrite decide_True. }
      cbn [forM]. erewrite bind_throw; [reflexivity|].
      unfold wrap_plain_member.
      rewrite (bind_eq _ _ _ _ _ (plain_get_eq _ _ _ _ _ f Hm1 Hx1)), Hget.
      rewrite decide_True by done.
      rewrite (bind_eq _ _ _ _ _ (plain_get_eq _ _ _ _ _ f Hm1 Hx1)), Hget.
      erewrite bind_throw; [reflexivity|].
      by rewrite Hmk.
    + intros k Hk. unfold wrap_plain_member.
      rewrite (bind_eq _ _ _ _ _ (plain_get_eq _ _ _ _ _ k Hm1 Hx1)).
      destruct (alist_get_app_l props1 ((f, VRef u) :: props2) k Hk)
        as (v & -> & Hv).
      rewrite Forall_forall in Hprim. specialize (Hprim _ Hv). simpl in *.
      by rewrite decide_False.
Qed.

(** ** Assigning a raw object *)

Section linked.
Variable rk : nat → nat.
Variable strict : bool.

(** X24: assigning an object that is not yet observable to a property of a
    record façade stores a new façade of the object, not the object: the
    assignment returns [true], reading the property through the record
    façade gives the new façade, which is registered under the name of the
    property with the record façade as its parent and with no callbacks,
    and [raw] of it is the assigned object, which itself stays
    unobservable. *)
Theorem assigned_object_is_linked (s : state) (pr t x : nat)
    (rprops : list (string * value)) (o : obj) (k : string) (fuel : nat) :
  well_formed rk strict s = true →
  is_registered s pr = true →
  heap s !! pr = Some (OProxy t strict) →
  heap s !! t = Some (OPlain rprops) →
  heap s !! x = Some o →
  container o = true →
  is_registered s x = false →
  0 < rk x < fuel →
  ∃ s',
    plain_set fuel (VRef pr) k (VRef x) s = Ok true s' ∧
    plain_get (VRef pr) k s' = Ok (VRef (length (heap s))) s' ∧
    observableMap s' !! length (heap s) =
      Some (mkInfo (VRef x) (VStr k) (VRef pr) [] ∅) ∧
    raw (VRef (length (heap s))) s' = Ok (VRef x) s' ∧
    isObservable (VRef x) s' = Ok false s'.
Proof.
  intros Hwf Hregp Hpr Ht Hx Hcont Hreg Hrk. apply well_formed_Inv in Hwf.
  assert (∃ pinfo, observableMap s !! pr = Some pinfo) as [pinfo Hpinfo].
  { unfold is_registered in Hregp. destruct (observableMap s !! pr); [eauto|done]. }
  assert (passthrough strict o = false) as Hpt.
  { destruct (passthrough strict o) eqn:E; [|done].
    rewrite (passthrough_not_container strict o) in Hcont; [done|by rewrite E]. }
  destruct (makeObservable_spec rk strict fuel x (VStr k) (VRef pr) s fuel _ Hwf)
    as (w & s1 & Hrun & HI1 & He & Hout); try done; try lia.
  { simpl. rewrite Hreg, Hx. unfold supported. rewrite Hcont. simpl. apply andb_True.
    split; apply Is_true_true; [apply Nat.ltb_lt|apply Nat.ltb_lt]; lia. }
  { unfold parent_arg_ok. by rewrite Hregp. }
  unfold outcome in Hout. rewrite Hreg, Hx, Hpt in Hout.
  destruct Hout as (-> & Hinfo & Hprox & _).
  destruct (ext_shape _ _ _ _ He _ _ Ht) as (o1 & Ht1 & Hsh).
  destruct o1 as [rprops1| | | | | | |]; try done.
  pose proof (ext_registry _ _ _ _ _ _ Hwf He) as Hsub.
  assert (observableMap s1 !! pr = Some pinfo) as Hpinfo1
    by (eapply lookup_weaken; eauto).
  assert (wrap_assigned (makeObservable fuel) (VRef x) (VStr k) (VRef pr) strict s
          = Ok (VRef (length (heap s))) s1) as Hassign.
  { unfold wrap_assigned. simpl.
    rewrite (bind_eq _ _ _ _ _ (isObservable_ref _ _)). by rewrite Hreg. }
  destruct (plain_set_with_eq rk strict (makeObservable fuel) _ s pr t pinfo
              rprops rprops1 k (VRef x) _ Hpr Ht s1 Hassign HI1 Ht1 Hpinfo1)
    as (L2 & Hset & _).
  pose proof (ext_proxy _ _ _ _ _ _ _ He Hpr) as Hpr1.
  assert (pr ≠ t) as Hne by (by eapply proxy_not_target).
  eexists. split; [exact Hset|].
  split; [|split; [exact Hinfo|split]].
  - erewrite plain_get_eq;
      [|by rewrite heap_with_obj_ne|by eapply heap_with_obj_eq].
    by rewrite alist_get_set.
  - match goal with |- raw _ ?st = _ => exact (raw_facade st _ _ Hinfo) end.
  - rewrite isObservable_ref. f_equal.
    change (is_registered s1 x = false).
    by eapply raw_stays_unregistered.
Qed.
End linked.

(** ** The further theorems at concrete inputs *)

Lemma map_set_symbol_key_throws_witness :
  check_reg observed_sample = true ∧
  observableMap observed_sample !! 21 =
    Some (mkInfo (VRef 8) (VStr "g") (VRef 13) [] ∅) ∧
  heap observed_sample !! 21 = Some (OProxy 8 true) ∧
  heap observed_sample !! 8 =
    Some (OMap false [(VStr "g1", VNum 7); (VStr "g2", VNum 42); (VStr "g3", VRef 22)]) ∧
  ∃ s', map_method (VRef 21) "set" [VSym "tag"; VNum 0] observed_sample =
          Throw TypeError s' ∧
        heap s' !! 8 =
          Some (OMap false [(VStr "g1", VNum 7); (VStr "g2", VNum 42);
                            (VStr "g3", VRef 22); (VSym "tag", VNum 0)]).
Proof.
  assert (H1 : check_reg observed_sample = true) by (vm_compute; reflexivity).
  assert (H2 : observableMap observed_sample !! 21 =
                 Some (mkInfo (VRef 8) (VStr "g") (VRef 13) [] ∅))
    by (vm_compute; reflexivity).
  assert (H3 : heap observed_sample !! 21 = Some (OProxy 8 true)) by reflexivity.
  assert (H4 : heap observed_sample !! 8 =
                 Some (OMap false [(VStr "g1", VNum 7); (VStr "g2", VNum 42);
                                   (VStr "g3", VRef 22)])) by reflexivity.
  do 4 (split; [assumption|]).
  eexists. split.
  - exact (map_set_symbol_key_throws observed_sample 21 8 13 true _ _ "tag" (VNum 0)
             H1 H2 H3 H4 eq_refl).
  - reflexivity.
Defined.

Lemma pause_silences_only_that_observer_witness :
  check_reg two_observers = true ∧
  observableMap two_observers !! 5 = Some (mkInfo (VRef 0) (VStr "b") (VRef 4) [] ∅) ∧
  ∃ L L',
    triggerObserver Change (VRef 5) (VStr "c") (VNum 2) (VNum 1) two_observers =
      Ok tt (add_calls L two_observers) ∧
    triggerObserver Change (VRef 5) (VStr "c") (VNum 2) (VNum 1)
        (final (pause (mkObserver 4 2) two_observers)) =
      Ok tt (add_calls L' (final (pause (mkObserver 4 2) two_observers))) ∧
    ∀ c o, (c, o) ∈ L' ↔ (c, o) ∈ L ∧ ¬ (c = 2 ∧ o_target o = VRef 4).
Proof.
  assert (H1 : check_reg two_observers = true) by (vm_compute; reflexivity).
  assert (H2 : observableMap two_observers !! 5 =
                 Some (mkInfo (VRef 0) (VStr "b") (VRef 4) [] ∅))
    by (vm_compute; reflexivity).
  do 2 (split; [assumption|]).
  exact (pause_silences_only_that_observer two_observers 4 2 5 _ Change (VStr "c")
           (VNum 2) (VNum 1) H1 H2 (or_intror eq_refl)).
Defined.

Lemma resume_undoes_pause_witness :
  observer (VRef 1) 7 observed_record =
    Ok (mkObserver 1 7) (final (observer (VRef 1) 7 observed_record)) ∧
  resume (mkObserver 1 7)
    (final (pause (mkObserver 1 7) (final (observer (VRef 1) 7 observed_record)))) =
    Ok tt (final (observer (VRef 1) 7 observed_record)).
Proof.
  assert (H : observer (VRef 1) 7 observed_record =
    Ok (mkObserver 1 7) (final (observer (VRef 1) 7 observed_record)))
    by reflexivity.
  split; [exact H|].
  exact (proj2 (resume_undoes_pause _ _ _ _ _ H)).
Defined.

Lemma destroy_removes_only_that_observer_witness :
  check_reg two_observers = true ∧
  observableMap two_observers !! 4 =
    Some (mkInfo (VRef 1) (VStr "a") (VRef 3) [2] {[2 := false]}) ∧
  observableMap two_observers !! 5 = Some (mkInfo (VRef 0) (VStr "b") (VRef 4) [] ∅) ∧
  ∃ s2 L L',
    destroy (mkObserver 4 2) two_observers = Ok tt s2 ∧
    triggerObserver Change (VRef 5) (VStr "c") (VNum 2) (VNum 1) two_observers =
      Ok tt (add_calls L two_observers) ∧
    triggerObserver Change (VRef 5) (VStr "c") (VNum 2) (VNum 1) s2 =
      Ok tt (add_calls L' s2) ∧
    ∀ c o, (c, o) ∈ L' ↔ (c, o) ∈ L ∧ ¬ (c = 2 ∧ o_target o = VRef 4).
Proof.
  assert (H1 : check_reg two_observers = true) by (vm_compute; reflexivity).
  assert (H2 : observableMap two_observers !! 4 =
                 Some (mkInfo (VRef 1) (VStr "a") (VRef 3) [2] {[2 := false]}))
    by (vm_compute; reflexivity).
  assert (H3 : observableMap two_observers !! 5 =
                 Some (mkInfo (VRef 0) (VStr "b") (VRef 4) [] ∅))
    by (vm_compute; reflexivity).
  do 3 (split; [assumption|]).
  destruct (destroy_removes_only_that_observer two_observers 4 2 5 _ _ Change
              (VStr "c") (VNum 2) (VNum 1) H1 H2 (list_elem_of_here _ _) H3
              (or_intror eq_refl))
    as (s2 & L & L' & Hd & Hr & Hr' & Hev & _).
  exists s2, L, L'.
  split; [exact Hd|]. split; [exact Hr|]. split; [exact Hr'|exact Hev].
Defined.

Lemma plain_set_stores_value_witness :
  check_reg two_observers = true ∧
  is_registered two_observers 5 = true ∧
  heap two_observers !! 5 = Some (OProxy 0 true) ∧
  heap two_observers !! 0 = Some (OPlain [("c", VNum 1)]) ∧
  own_key "c" [("c", VNum 1)]
    || (negb (inherited_name "c") && negb (index_like "c")) = true ∧
  ∃ L s',
    plain_set 0 (VRef 5) "c" (VNum 2) two_observers = Ok true s' ∧
    fires two_observers 5 Change (VStr "c") (VNum 2) (VNum 1) L ∧
    plain_get (VRef 5) "c" s' = Ok (VNum 2) s'.
Proof.
  assert (H1 : check_reg two_observers = true) by (vm_compute; reflexivity).
  assert (H2 : is_registered two_observers 5 = true) by (vm_compute; reflexivity).
  assert (H3 : heap two_observers !! 5 = Some (OProxy 0 true)) by reflexivity.
  assert (H4 : heap two_observers !! 0 = Some (OPlain [("c", VNum 1)])) by reflexivity.
  assert (H5 : own_key "c" [("c", VNum 1)]
                 || (negb (inherited_name "c") && negb (index_like "c")) = true)
    by (vm_compute; reflexivity).
  split; [exact H1|]. split; [exact H2|]. split; [exact H3|]. split; [exact H4|].
  split; [exact H5|].
  destruct (plain_set_stores_value two_observers 5 0 true _ "c" (VNum 2) 0
              H1 H2 H3 H4 H5 eq_refl) as (L & s' & Hrun & _ & Hf & Hget).
  exists L, s'. split; [exact Hrun|]. split; [exact Hf|exact Hget].
Defined.

Lemma plain_delete_fires_delete_witness :
  check_reg two_observers = true ∧
  is_registered two_observers 5 = true ∧
  heap two_observers !! 5 = Some (OProxy 0 true) ∧
  heap two_observers !! 0 = Some (OPlain [("c", VNum 1)]) ∧
  inherited_name "c" = false ∧
  ∃ L s',
    plain_deleteProperty (VRef 5) "c" two_observers = Ok true s' ∧
    fires two_observers 5 Delete (VStr "c") VUndef (VNum 1) L ∧
    plain_get (VRef 5) "c" s' = Ok VUndef s'.
Proof.
  assert (H1 : check_reg two_observers = true) by (vm_compute; reflexivity).
  assert (H2 : is_registered two_observers 5 = true) by (vm_compute; reflexivity).
  assert (H3 : heap two_observers !! 5 = Some (OProxy 0 true)) by reflexivity.
  assert (H4 : heap two_observers !! 0 = Some (OPlain [("c", VNum 1)])) by reflexivity.
  assert (H5 : inherited_name "c" = false) by (vm_compute; reflexivity).
  split; [exact H1|]. split; [exact H2|]. split; [exact H3|]. split; [exact H4|].
  split; [exact H5|].
  destruct (plain_delete_fires_delete two_observers 5 0 true _ "c" H1 H2 H3 H4 H5)
    as (L & s' & Hrun & _ & Hf & Hget & _).
  exists L, s'. split; [exact Hrun|]. split; [exact Hf|exact Hget].
Defined.

Lemma array_delete_leaves_hole_witness :
  check_reg observed_sample = true ∧
  is_registered observed_sample 17 = true ∧
  heap observed_sample !! 17 = Some (OProxy 4 true) ∧
  heap observed_sample !! 4 = Some (OArray [VNum 7; VNum 42; VRef 18]) ∧
  ∃ L s',
    array_deleteProperty (VRef 17) 2 observed_sample = Ok true s' ∧
    fires observed_sample 17 Delete (VStr "2") VUndef (VRef 18) L ∧
    array_length (VRef 17) s' = Ok 3 s' ∧
    array_get (VRef 17) 2 s' = Ok VUndef s'.
Proof.
  assert (H1 : check_reg observed_sample = true) by (vm_compute; reflexivity).
  assert (H2 : is_registered observed_sample 17 = true) by (vm_compute; reflexivity).
  assert (H3 : heap observed_sample !! 17 = Some (OProxy 4 true)) by reflexivity.
  assert (H4 : heap observed_sample !! 4 = Some (OArray [VNum 7; VNum 42; VRef 18]))
    by reflexivity.
  do 4 (split; [assumption|]).
  destruct (array_delete_leaves_hole observed_sample 17 4 true _ 2 H1 H2 H3 H4)
    as (L & s' & Hrun & _ & Hf & Hlen & Hget).
  exists L, s'.
  split; [exact Hrun|]. split; [exact Hf|]. split; [exact Hlen|exact Hget].
Defined.

Lemma typed_set_reports_assigned_number_witness :
  check_reg observed_sample = true ∧
  is_registered observed_sample 23 = true ∧
  heap observed_sample !! 23 = Some (OProxy 9 true) ∧
  heap observed_sample !! 9 = Some (OTyped Uint8 [1; 2; 3]%Z) ∧
  ∃ L s',
    typed_set 0 (VRef 23) 2 (VNum 264) observed_sample = Ok true s' ∧
    fires observed_sample 23 Change (VStr "2") (VNum 264) (VNum 3) L ∧
    typed_get (VRef 23) 2 s' = Ok (VNum 8) s'.
Proof.
  assert (H1 : check_reg observed_sample = true) by (vm_compute; reflexivity).
  assert (H2 : is_registered observed_sample 23 = true) by (vm_compute; reflexivity).
  assert (H3 : heap observed_sample !! 23 = Some (OProxy 9 true)) by reflexivity.
  assert (H4 : heap observed_sample !! 9 = Some (OTyped Uint8 [1; 2; 3]%Z))
    by reflexivity.
  do 4 (split; [assumption|]).
  destruct (typed_set_reports_assigned_number observed_sample 23 9 true _ _ 2 264 0
              H1 H2 H3 H4) as (L & s' & Hrun & _ & Hf & Hget).
  exists L, s'. split; [exact Hrun|]. split; [exact Hf|exact Hget].
Defined.

Lemma push_stores_arguments_unwrapped_witness :
  check_reg observed_sample = true ∧
  is_registered observed_sample 17 = true ∧
  heap observed_sample !! 17 = Some (OProxy 4 true) ∧
  heap observed_sample !! 4 = Some (OArray [VNum 7; VNum 42; VRef 18]) ∧
  ∃ L s',
    array_method (VRef 17) "push" [VRef 10; VNum 5] observed_sample =
      Ok (VNum 5) s' ∧
    fires observed_sample 17 Change (VStr "5") (VRef 10) VUndef L ∧
    observableMap s' = observableMap observed_sample ∧
    array_get (VRef 17) 3 s' = Ok (VRef 10) s'.
Proof.
  assert (H1 : check_reg observed_sample = true) by (vm_compute; reflexivity).
  assert (H2 : is_registered observed_sample 17 = true) by (vm_compute; reflexivity).
  assert (H3 : heap observed_sample !! 17 = Some (OProxy 4 true)) by reflexivity.
  assert (H4 : heap observed_sample !! 4 = Some (OArray [VNum 7; VNum 42; VRef 18]))
    by reflexivity.
  do 4 (split; [assumption|]).
  destruct (push_stores_arguments_unwrapped observed_sample 17 4 true _
              [VRef 10; VNum 5] H1 H2 H3 H4)
    as (L & s' & Hrun & _ & Hf & Hom & Hget).
  exists L, s'. split; [exact Hrun|]. split; [exact Hf|]. split; [exact Hom|].
  exact (Hget 0 (VRef 10) eq_refl).
Defined.

Lemma shift_reports_index_zero_witness :
  check_reg observed_sample = true ∧
  is_registered observed_sample 17 = true ∧
  heap observed_sample !! 17 = Some (OProxy 4 true) ∧
  heap observed_sample !! 4 = Some (OArray [VNum 7; VNum 42; VRef 18]) ∧
  ∃ L s',
    array_method (VRef 17) "shift" [] observed_sample = Ok (VNum 7) s' ∧
    fires observed_sample 17 Change (VStr "0") VUndef (VNum 7) L.
Proof.
  assert (H1 : check_reg observed_sample = true) by (vm_compute; reflexivity).
  assert (H2 : is_registered observed_sample 17 = true) by (vm_compute; reflexivity).
  assert (H3 : heap observed_sample !! 17 = Some (OProxy 4 true)) by reflexivity.
  assert (H4 : heap observed_sample !! 4 = Some (OArray [VNum 7; VNum 42; VRef 18]))
    by reflexivity.
  do 4 (split; [assumption|]).
  destruct (shift_reports_index_zero observed_sample 17 4 true _ H1 H2 H3 H4)
    as (L & s' & Hrun & _ & Hf).
  exists L, s'. split; [exact Hrun|exact Hf].
Defined.

Lemma unshift_reports_first_argument_witness :
  check_reg observed_sample = true ∧
  is_registered observed_sample 17 = true ∧
  heap observed_sample !! 17 = Some (OProxy 4 true) ∧
  heap observed_sample !! 4 = Some (OArray [VNum 7; VNum 42; VRef 18]) ∧
  ∃ L s',
    array_method (VRef 17) "unshift" [VNum 1; VNum 2] observed_sample =
      Ok (VNum 5) s' ∧
    fires observed_sample 17 Change (VStr "0") (VNum 1) VUndef L.
Proof.
  assert (H1 : check_reg observed_sample = true) by (vm_compute; reflexivity).
  assert (H2 : is_registered observed_sample 17 = true) by (vm_compute; reflexivity).
  assert (H3 : heap observed_sample !! 17 = Some (OProxy 4 true)) by reflexivity.
  assert (H4 : heap observed_sample !! 4 = Some (OArray [VNum 7; VNum 42; VRef 18]))
    by reflexivity.
  do 4 (split; [assumption|]).
  destruct (unshift_reports_first_argument observed_sample 17 4 true _
              [VNum 1; VNum 2] H1 H2 H3 H4) as (L & s' & Hrun & _ & Hf).
  exists L, s'. split; [exact Hrun|exact Hf].
Defined.

Lemma set_add_always_notifies_witness :
  check_reg observed_sample = true ∧
  is_registered observed_sample 19 = true ∧
  heap observed_sample !! 19 = Some (OProxy 6 true) ∧
  heap observed_sample !! 6 = Some (OSet false [VNum 7; VNum 42; VRef 20]) ∧
  ∃ L s',
    set_method (VRef 19) "add" [VNum 7] observed_sample = Ok (VRef 6) s' ∧
    fires observed_sample 19 Change (VStr "*") (VNum 7) VUndef L ∧
    heap s' = heap observed_sample.
Proof.
  assert (H1 : check_reg observed_sample = true) by (vm_compute; reflexivity).
  assert (H2 : is_registered observed_sample 19 = true) by (vm_compute; reflexivity).
  assert (H3 : heap observed_sample !! 19 = Some (OProxy 6 true)) by reflexivity.
  assert (H4 : heap observed_sample !! 6 = Some (OSet false [VNum 7; VNum 42; VRef 20]))
    by reflexivity.
  do 4 (split; [assumption|]).
  destruct (set_add_always_notifies observed_sample 19 6 true false _ (VNum 7)
              H1 H2 H3 H4 eq_refl) as (L & s' & Hrun & _ & Hf & Hsame & _).
  exists L, s'. split; [exact Hrun|]. split; [exact Hf|].
  apply Hsame. by left.
Defined.

Lemma set_delete_always_notifies_witness :
  check_reg observed_sample = true ∧
  is_registered observed_sample 19 = true ∧
  heap observed_sample !! 19 = Some (OProxy 6 true) ∧
  heap observed_sample !! 6 = Some (OSet false [VNum 7; VNum 42; VRef 20]) ∧
  ∃ L s',
    set_method (VRef 19) "delete" [VNum 5] observed_sample = Ok (VBool false) s' ∧
    fires observed_sample 19 Change (VStr "*") VUndef (VNum 5) L.
Proof.
  assert (H1 : check_reg observed_sample = true) by (vm_compute; reflexivity).
  assert (H2 : is_registered observed_sample 19 = true) by (vm_compute; reflexivity).
  assert (H3 : heap observed_sample !! 19 = Some (OProxy 6 true)) by reflexivity.
  assert (H4 : heap observed_sample !! 6 = Some (OSet false [VNum 7; VNum 42; VRef 20]))
    by reflexivity.
  do 4 (split; [assumption|]).
  destruct (set_delete_always_notifies observed_sample 19 6 true false _ (VNum 5)
              H1 H2 H3 H4) as (L & s' & Hrun & _ & Hf & _).
  exists L, s'. split; [exact Hrun|exact Hf].
Defined.

Lemma map_set_then_get_witness :
  check_reg observed_sample = true ∧
  observableMap observed_sample !! 21 =
    Some (mkInfo (VRef 8) (VStr "g") (VRef 13) [] ∅) ∧
  heap observed_sample !! 21 = Some (OProxy 8 true) ∧
  heap observed_sample !! 8 =
    Some (OMap false [(VStr "g1", VNum 7); (VStr "g2", VNum 42); (VStr "g3", VRef 22)]) ∧
  ∃ L s',
    map_method (VRef 21) "set" [VStr "g1"; VNum 0] observed_sample = Ok (VRef 8) s' ∧
    fires observed_sample 21 Change (VStr "g1") (VNum 0) (VNum 7) L ∧
    map_method (VRef 21) "get" [VStr "g1"] s' = Ok (VNum 0) s'.
Proof.
  assert (H1 : check_reg observed_sample = true) by (vm_compute; reflexivity).
  assert (H2 : observableMap observed_sample !! 21 =
                 Some (mkInfo (VRef 8) (VStr "g") (VRef 13) [] ∅))
    by (vm_compute; reflexivity).
  assert (H3 : heap observed_sample !! 21 = Some (OProxy 8 true)) by reflexivity.
  assert (H4 : heap observed_sample !! 8 =
                 Some (OMap false [(VStr "g1", VNum 7); (VStr "g2", VNum 42);
                                   (VStr "g3", VRef 22)])) by reflexivity.
  do 4 (split; [assumption|]).
  destruct (map_set_then_get observed_sample 21 8 true false _ _ (VStr "g1") (VNum 0)
              H1 H2 H3 H4 eq_refl (or_intror eq_refl))
    as (L & s' & Hrun & _ & Hf & _ & Hget).
  exists L, s'. split; [exact Hrun|]. split; [exact Hf|exact Hget].
Defined.

Lemma set_clear_notifies_witness :
  check_reg observed_sample = true ∧
  is_registered observed_sample 19 = true ∧
  heap observed_sample !! 19 = Some (OProxy 6 true) ∧
  heap observed_sample !! 6 = Some (OSet false [VNum 7; VNum 42; VRef 20]) ∧
  ∃ L,
    set_method (VRef 19) "clear" [] observed_sample =
      Ok VUndef (add_calls L (with_obj 6 (OSet false []) observed_sample)) ∧
    fires observed_sample 19 Change (VStr "*") VUndef VUndef L.
Proof.
  assert (H1 : check_reg observed_sample = true) by (vm_compute; reflexivity).
  assert (H2 : is_registered observed_sample 19 = true) by (vm_compute; reflexivity).
  assert (H3 : heap observed_sample !! 19 = Some (OProxy 6 true)) by reflexivity.
  assert (H4 : heap observed_sample !! 6 = Some (OSet false [VNum 7; VNum 42; VRef 20]))
    by reflexivity.
  do 4 (split; [assumption|]).
  exact (set_clear_notifies observed_sample 19 6 true false _ H1 H2 H3 H4).
Defined.

Lemma map_clear_notifies_witness :
  check_reg observed_sample = true ∧
  is_registered observed_sample 21 = true ∧
  heap observed_sample !! 21 = Some (OProxy 8 true) ∧
  heap observed_sample !! 8 =
    Some (OMap false [(VStr "g1", VNum 7); (VStr "g2", VNum 42); (VStr "g3", VRef 22)]) ∧
  ∃ L,
    map_method (VRef 21) "clear" [] observed_sample =
      Ok VUndef (add_calls L (with_obj 8 (OMap false []) observed_sample)) ∧
    fires observed_sample 21 Change (VStr "*") VUndef VUndef L.
Proof.
  assert (H1 : check_reg observed_sample = true) by (vm_compute; reflexivity).
  assert (H2 : is_registered observed_sample 21 = true) by (vm_compute; reflexivity).
  assert (H3 : heap observed_sample !! 21 = Some (OProxy 8 true)) by reflexivity.
  assert (H4 : heap observed_sample !! 8 =
                 Some (OMap false [(VStr "g1", VNum 7); (VStr "g2", VNum 42);
                                   (VStr "g3", VRef 22)])) by reflexivity.
  do 4 (split; [assumption|]).
  exact (map_clear_notifies observed_sample 21 8 true false _ H1 H2 H3 H4).
Defined.

Lemma typed_fill_reports_range_witness :
  check_reg observed_sample = true ∧
  is_registered observed_sample 23 = true ∧
  heap observed_sample !! 23 = Some (OProxy 9 true) ∧
  heap observed_sample !! 9 = Some (OTyped Uint8 [1; 2; 3]%Z) ∧
  ∃ L s',
    typed_method (VRef 23) "fill" [VNum 7; VNum (-2); VNum 3] observed_sample =
      Ok (VRef 9) s' ∧
    heap s' !! 9 = Some (OTyped Uint8 [1; 7; 7]%Z) ∧
    heap s' !! 24 = Some (OTyped Uint8 [2; 3]%Z) ∧
    heap s' !! 25 = Some (OTyped Uint8 [7; 7]%Z) ∧
    fires observed_sample 23 Change (VNum (-2)) (VRef 25) (VRef 24) L.
Proof.
  assert (H1 : check_reg observed_sample = true) by (vm_compute; reflexivity).
  assert (H2 : is_registered observed_sample 23 = true) by (vm_compute; reflexivity).
  assert (H3 : heap observed_sample !! 23 = Some (OProxy 9 true)) by reflexivity.
  assert (H4 : heap observed_sample !! 9 = Some (OTyped Uint8 [1; 2; 3]%Z))
    by reflexivity.
  do 4 (split; [assumption|]).
  destruct (typed_fill_reports_range observed_sample 23 9 true _ _ 7 (-2) 3
              H1 H2 H3 H4) as (L & s' & Hrun & Hheap & _ & _ & _ & Hf).
  exists L, s'. split; [exact Hrun|].
  rewrite Hheap. split; [reflexivity|]. split; [reflexivity|].
  split; [reflexivity|exact Hf].
Defined.

Lemma typed_reverse_hands_out_raw_witness :
  check_reg observed_sample = true ∧
  is_registered observed_sample 23 = true ∧
  heap observed_sample !! 23 = Some (OProxy 9 true) ∧
  heap observed_sample !! 9 = Some (OTyped Uint8 [1; 2; 3]%Z) ∧
  ∃ L s',
    typed_method (VRef 23) "reverse" [] observed_sample = Ok (VRef 9) s' ∧
    heap s' !! 9 = Some (OTyped Uint8 [3; 2; 1]%Z) ∧
    heap s' !! 24 = Some (OTyped Uint8 [1; 2; 3]%Z) ∧
    fires observed_sample 23 Change (VStr "0") (VRef 9) (VRef 24) L.
Proof.
  assert (H1 : check_reg observed_sample = true) by (vm_compute; reflexivity).
  assert (H2 : is_registered observed_sample 23 = true) by (vm_compute; reflexivity).
  assert (H3 : heap observed_sample !! 23 = Some (OProxy 9 true)) by reflexivity.
  assert (H4 : heap observed_sample !! 9 = Some (OTyped Uint8 [1; 2; 3]%Z))
    by reflexivity.
  do 4 (split; [assumption|]).
  destruct (typed_reverse_hands_out_raw observed_sample 23 9 true _ _ H1 H2 H3 H4)
    as (L & s' & Hrun & Hheap & _ & _ & Hf).
  exists L, s'. split; [exact Hrun|].
  rewrite Hheap. split; [reflexivity|]. split; [reflexivity|exact Hf].
Defined.

Lemma strict_mode_rejects_other_classes_witness :
  heap record_with_instance !! 0 = Some OOther ∧
  heap record_with_instance !! 1 =
    Some (OPlain ([("n", VNum 1)] ++ ("o", VRef 0) :: [])) ∧
  observable 1 (VRef 0) false record_with_instance = Ok (VRef 0) record_with_instance ∧
  observable 1 (VRef 0) true record_with_instance =
    Throw (Error msg_unsupported) record_with_instance ∧
  observable 2 (VRef 1) true record_with_instance =
    Throw (Error msg_unsupported)
          (with_proxy 1 true (mkInfo (VRef 1) (VStr "") VNull [] ∅)
             record_with_instance).
Proof.
  assert (H1 : heap record_with_instance !! 0 = Some OOther) by reflexivity.
  assert (H2 : is_registered record_with_instance 0 = false) by reflexivity.
  assert (H3 : heap record_with_instance !! 1 =
                 Some (OPlain ([("n", VNum 1)] ++ ("o", VRef 0) :: [])))
    by reflexivity.
  assert (H4 : is_registered record_with_instance 1 = false) by reflexivity.
  assert (H5 : Forall (λ e : string * value, typeof e.2 ≠ TObject) [("n", VNum 1)])
    by (repeat constructor; discriminate).
  assert (H6 : "o" ∉ [("n", VNum 1)].*1)
    by (intros Hin; apply list_elem_of_singleton in Hin; discriminate).
  do 2 (split; [assumption|]).
  exact (strict_mode_rejects_other_classes record_with_instance 1 0 _ _ "o" 0
           H1 H2 H3 H4 H5 H6).
Defined.

Lemma assigned_object_is_linked_witness :
  well_formed S true assign_scene = true ∧
  is_registered assign_scene 6 = true ∧
  heap assign_scene !! 6 = Some (OProxy 0 true) ∧
  heap assign_scene !! 0 = Some (OPlain []) ∧
  heap assign_scene !! 4 = Some (OPlain [("y", VRef 3); ("n", VNum 0)]) ∧
  is_registered assign_scene 4 = false ∧
  ∃ s',
    plain_set 6 (VRef 6) "x" (VRef 4) assign_scene = Ok true s' ∧
    plain_get (VRef 6) "x" s' = Ok (VRef 7) s' ∧
    observableMap s' !! 7 = Some (mkInfo (VRef 4) (VStr "x") (VRef 6) [] ∅) ∧
    raw (VRef 7) s' = Ok (VRef 4) s' ∧
    isObservable (VRef 4) s' = Ok false s'.
Proof.
  assert (H1 : well_formed S true assign_scene = true) by (vm_compute; reflexivity).
  assert (H2 : is_registered assign_scene 6 = true) by (vm_compute; reflexivity).
  assert (H3 : heap assign_scene !! 6 = Some (OProxy 0 true)) by reflexivity.
  assert (H4 : heap assign_scene !! 0 = Some (OPlain [])) by reflexivity.
  assert (H5 : heap assign_scene !! 4 = Some (OPlain [("y", VRef 3); ("n", VNum 0)]))
    by reflexivity.
  assert (H6 : is_registered assign_scene 4 = false) by (vm_compute; reflexivity).
  assert (H7 : 0 < 5 < 6) by lia.
  do 6 (split; [assumption|]).
  exact (assigned_object_is_linked S true assign_scene 6 0 4 [] _ "x" 6
           H1 H2 H3 H4 H5 eq_refl H6 H7).
Defined.

(** ** What one callback sees of a propagation *)

Lemma seen_by_app (cb A : nat) (L1 L2 : list (nat * Observation)) :
  seen_by cb A (L1 ++ L2) = seen_by cb A L1 ++ seen_by cb A L2.
Proof. unfold seen_by. apply filter_app. Qed.

Lemma seen_by_none (cb A : nat) (L : list (nat * Observation)) :
  (∀ e, e ∈ L → o_target e.2 ≠ VRef A) → seen_by cb A L = [].
Proof.
  intros H. unfold seen_by. induction L as [|e L IH]; [done|].
  rewrite filter_cons. destruct (decide _) as [[_ Ht]|_].
  - destruct (H e); [by left|done].
  - apply IH. intros e' He'. apply H. by right.
Qed.

Lemma seen_by_deliveries_other (cb A : nat) (info : ObservableInfo) (o : Observation) :
  o_target o ≠ VRef A → seen_by cb A (deliveries info o) = [].
Proof.
  intros Hne. apply seen_by_none. intros e He. unfold deliveries in He.
  apply list_elem_of_fmap in He as (c & -> & _). done.
Qed.

Lemma seen_by_deliveries_self (cb A : nat) (info : ObservableInfo) (o : Observation) :
  NoDup (info_callbacks info) →
  cb ∈ info_callbacks info →
  default false (info_paused info !! cb) = false →
  o_target o = VRef A →
  seen_by cb A (deliveries info o) = [(cb, o)].
Proof.
  intros Hnd Hin Hp Ht. unfold deliveries, seen_by.
  induction (info_callbacks info) as [|c l IH]; [by apply elem_of_nil in Hin|].
  apply NoDup_cons in Hnd as [Hc Hnd].
  rewrite filter_cons. apply elem_of_cons in Hin as [<-|Hin].
  - rewrite decide_True by done. rewrite fmap_cons, filter_cons. simpl.
    rewrite decide_True by done. f_equal.
    change (seen_by cb A ((λ cb0, (cb0, o)) <$>
              filter (λ cb0, default false (info_paused info !! cb0) = false) l) = []).
    unfold seen_by. induction l as [|c' l IHl]; [done|].
    apply not_elem_of_cons in Hc as [Hne Hc]. apply NoDup_cons in Hnd as [_ Hnd].
    rewrite filter_cons. destruct (decide _).
    + rewrite fmap_cons, filter_cons. simpl.
      rewrite decide_False by (intros [? _]; done). by apply IHl.
    + by apply IHl.
  - assert (c ≠ cb) as Hne by (intros ->; done).
    destruct (decide _).
    + rewrite fmap_cons, filter_cons. simpl.
      rewrite decide_False by (intros [? _]; done). by apply IH.
    + by apply IH.
Qed.

(** An event only bubbles to older façades. *)
Lemma bubbles_le (s : state) (b A : nat) (p q : value) :
  registry_ok s →
  bubbles (observableMap s) (VRef b) p (VRef A) q → A ≤ b.
Proof.
  intros Hreg Hb. remember (VRef b) as vb eqn:Eb. remember (VRef A) as vA eqn:EA.
  revert b Eb. induction Hb as [t p|a info n ps p A' q Ha Hpar Hn Hpr Hps Hb IH];
    intros b Eb; subst.
  - injection Eb as ->. done.
  - injection Eb as ->. destruct (Hreg _ _ Ha) as [_ Hok]. unfold parent_ok in Hok.
    destruct (info_parent info) as [| | | | | | |p'] eqn:Hp; try done.
    apply andb_True in Hok as [Hok _]. apply andb_True in Hok as [Hlt _].
    apply Is_true_true, Nat.ltb_lt in Hlt.
    specialize (IH eq_refl p' eq_refl). lia.
Qed.

Lemma bubbles_self (s : state) (a : nat) (p q : value) :
  registry_ok s →
  bubbles (observableMap s) (VRef a) p (VRef a) q → q = p.
Proof.
  intros Hreg Hb. inversion Hb as [|a' info n ps p' A' q' Ha Hpar Hn Hpr Hps Hb']; subst;
    [done|].
  destruct (Hreg _ _ Ha) as [_ Hok]. unfold parent_ok in Hok.
  destruct (info_parent info) as [| | | | | | |p'] eqn:Hp; try done.
  apply andb_True in Hok as [Hok _]. apply andb_True in Hok as [Hlt _].
  apply Is_true_true, Nat.ltb_lt in Hlt.
  pose proof (bubbles_le _ _ _ _ _ Hreg Hb'). lia.
Qed.

(** The callback [cb], registered once and active at the façade [A], is
    invoked exactly once by a propagation that bubbles to [A], with the
    event as it is seen from there. *)
Lemma triggerObserver_rec_seen (type : otype) (valueNew valueOld : value)
    (cb A : nat) (infoA : ObservableInfo) (q : value) (fuel : nat) :
  ∀ (a : nat) (info : ObservableInfo) (path : value) (s : state),
    registry_ok s →
    observableMap s !! a = Some info →
    a < fuel →
    printable path = true →
    bubbles (observableMap s) (VRef a) path (VRef A) q →
    observableMap s !! A = Some infoA →
    NoDup (info_callbacks infoA) →
    cb ∈ info_callbacks infoA →
    default false (info_paused infoA !! cb) = false →
    ∃ L,
      triggerObserver_rec fuel type (VRef a) path valueNew valueOld s =
        Ok tt (add_calls L s) ∧
      seen_by cb A L = [(cb, mkObservation type (VRef A) q valueNew valueOld)].
Proof.
  induction fuel as [|fuel IH];
    intros a info path s Hreg Ha Hlt Hpath Hb HA Hnd Hcb Hp; [lia|].
  destruct (triggerObserver_rec_log type valueNew valueOld (S fuel) a info path s
              Hreg Ha Hlt (or_intror Hpath)) as (L' & Hrun & Hnull & Htg & _).
  eexists. split; [exact Hrun|]. rewrite seen_by_app.
  destruct (decide (a = A)) as [->|Hne].
  - rewrite Ha in HA. injection HA as ->.
    rewrite (bubbles_self _ _ _ _ Hreg Hb).
    rewrite seen_by_deliveries_self by done.
    rewrite (seen_by_none cb A L'); [done|].
    intros e He. destruct (Htg _ He) as (b & -> & Hlt'). intros [= ->]. lia.
  - rewrite seen_by_deliveries_other by (simpl; intros [= ->]; done).
    simpl.
    (* the rest of the log is that of the propagation from the parent *)
    inversion Hb as [|a' info' n ps p' A' q' Ha' Hpar Hn Hpr Hps Hb']; subst;
      [done|].
    rewrite Ha in Ha'. injection Ha' as <-.
    destruct (Hreg _ _ Ha) as [_ Hok]. unfold parent_ok in Hok.
    destruct (info_parent info) as [| | | | | | |p'] eqn:Hpp; try done.
    apply andb_True in Hok as [Hok _]. apply andb_True in Hok as [Hlt' Hregp].
    apply Is_true_true, Nat.ltb_lt in Hlt'.
    unfold is_registered in Hregp.
    destruct (observableMap s !! p') as [pinfo|] eqn:Hpi; [|done].
    set (L0 := deliveries info (mkObservation type (VRef a) path valueNew valueOld))
      in *.
    destruct (IH p' pinfo (VStr (n +:+ "." +:+ ps)) (add_calls L0 s))
      as (L1 & Hrun1 & Hseen1); try done; [lia|].
    (* both runs are the same computation *)
    simpl in Hrun. unfold bind at 1 in Hrun. simpl in Hrun. rewrite Ha in Hrun.
    rewrite (bind_eq _ _ _ _ _ (forM_callbacks _ _ _ _)) in Hrun.
    fold (deliveries info (mkObservation type (VRef a) path valueNew valueOld)) in Hrun.
    fold L0 in Hrun. rewrite Hpp in Hrun.
    rewrite decide_False in Hrun by done.
    unfold js_String in Hrun. rewrite Hn in Hrun. unfold bind at 1 in Hrun.
    simpl in Hrun.
    assert (js_template path (add_calls L0 s) = Ok ps (add_calls L0 s)) as Ht.
    { unfold js_template, js_String. rewrite Hps. by destruct path. }
    rewrite (bind_eq _ _ _ _ _ Ht) in Hrun. rewrite Hrun1 in Hrun.
    rewrite add_calls_app in Hrun. injection Hrun as Hrun.
    apply app_inv_head in Hrun. apply app_inv_head in Hrun. by subst L'.
Qed.

(** ** The walk of [makeObservable] *)

Lemma flat_map_ext_elem {A B} (f g : A → list B) (l : list A) :
  (∀ x, x ∈ l → f x = g x) → flat_map f l = flat_map g l.
Proof.
  intros H. induction l as [|x l IH]; [done|]. simpl.
  rewrite (H x) by (by left). f_equal. apply IH. intros y Hy. apply H. by right.
Qed.

Lemma forallb_ext_elem {A} (f g : A → bool) (l : list A) :
  (∀ x, x ∈ l → f x = g x) → forallb f l = forallb g l.
Proof.
  intros H. induction l as [|x l IH]; [done|]. simpl.
  rewrite (H x) by (by left). f_equal. apply IH. intros y Hy. apply H. by right.
Qed.

Lemma elem_of_flat_map {A B} (f : A → list B) (l : list A) (y : B) :
  y ∈ flat_map f l ↔ ∃ x, x ∈ l ∧ y ∈ f x.
Proof.
  induction l as [|x l IH]; simpl.
  - split; [by intros ?%elem_of_nil|]. intros (x & Hx & _). by apply elem_of_nil in Hx.
  - rewrite elem_of_app, IH. split.
    + intros [H|(x' & Hx' & Hy)]; [exists x; split; [by left|done]|].
      exists x'. split; [by right|done].
    + intros (x' & [->|Hx']%elem_of_cons & Hy); [by left|]. right. eauto.
Qed.

Lemma slots_members (o : obj) (f : string) (c : value) :
  (f, c) ∈ slots o → c ∈ members o.
Proof.
  destruct o; simpl; try (by intros ?%elem_of_nil).
  - intros H. apply elem_of_snd. eauto.
  - intros (i & c' & [= -> ->] & Hi)%elem_of_lookup_imap.
    by eapply list_elem_of_lookup_2.
Qed.

Lemma enters_Some (s : state) (c : value) (b : nat) :
  enters s c = Some b →
  c = VRef b ∧ is_registered s b = false ∧
  ∃ o, heap s !! b = Some o ∧ container o = true.
Proof.
  destruct c as [| | | | | | |a]; simpl; try done.
  destruct (is_registered s a) eqn:Hr; [done|].
  destruct (heap s !! a) as [o|] eqn:Ho; [|done].
  destruct (container o) eqn:Hc; [|done]. intros [= ->]. eauto.
Qed.

Lemma slot_event_of (n : nat) (s : state) (fc : string * value) :
  slot_event (slot_events n s) s fc =
    if decide (typeof fc.2 = TObject)
    then ((λ pv, (fc.1 +:+ "." +:+ pv.1, pv.2)) <$> events_of n s fc.2) ++ [fc]
    else [].
Proof. unfold slot_event, events_of. by destruct (enters s fc.2). Qed.

Lemma nodes_S (n : nat) (s : state) (x : nat) :
  nodes (S n) s x =
    x :: match heap s !! x with
         | Some o => flat_map (nodes_of n s) (members o)
         | None => []
         end.
Proof. reflexivity. Qed.

Lemma set_traps_only_S (n : nat) (s : state) (x : nat) :
  set_traps_only (S n) s x =
    match heap s !! x with
    | Some o => quiet o && forallb (traps_of n s) (members o)
    | None => true
    end.
Proof. reflexivity. Qed.

Section walk.
Variable rk : nat → nat.
Variable strict : bool.

Lemma enters_ext (pend : list nat) (r0 r : nat) (s s' : state) (c : value) :
  Inv rk strict pend s → ext rk r0 s s' →
  okchild rk strict s r c → enters s' c = enters s c.
Proof.
  intros HI He Hok. destruct c as [| | | | | | |a]; simpl in *; try done.
  destruct (is_registered s a) eqn:Hr.
  - assert (is_registered s' a = true) as ->; [|done].
    apply Is_true_true.
    eapply (is_registered_ext rk strict); [exact HI|exact He|by apply Is_true_true].
  - simpl in Hok. destruct (heap s !! a) as [o|] eqn:Ho; [|done].
    pose proof (lookup_lt_Some _ _ _ Ho) as Hlt.
    unfold is_registered in *. rewrite (ext_map _ _ _ _ He) by done. rewrite Hr.
    destruct (ext_shape _ _ _ _ He _ _ Ho) as (o' & -> & Hsh).
    by rewrite (container_shape _ _ Hsh).
Qed.

(** The walked objects have a positive rank, below that of the member
    slot through which they are entered. *)
Lemma nodes_rank (pend : list nat) (s : state) (n : nat) :
  ∀ (c : value) (r a : nat),
    Inv rk strict pend s → okchild rk strict s r c →
    a ∈ nodes_of n s c → 0 < rk a < r.
Proof.
  induction n as [|n IH]; intros c r a HI Hok Ha; unfold nodes_of in Ha.
  - destruct (enters s c); by apply elem_of_nil in Ha.
  - destruct (enters s c) as [b|] eqn:Hen; [|by apply elem_of_nil in Ha].
    destruct (enters_Some _ _ _ Hen) as (-> & Hreg & o & Ho & Hcont).
    simpl in Hok. rewrite Hreg, Ho in Hok. simpl in Hok.
    apply andb_True in Hok as [Hok Hrk2]. apply andb_True in Hok as [_ Hrk1].
    apply Is_true_true, Nat.ltb_lt in Hrk1, Hrk2.
    rewrite nodes_S, Ho in Ha. apply elem_of_cons in Ha as [->|Ha]; [lia|].
    apply elem_of_flat_map in Ha as (c1 & Hc1 & Ha).
    destruct (inv_obj _ _ _ _ HI _ _ Ho Hrk1) as [_ Hoks].
    rewrite Forall_forall in Hoks.
    destruct (IH c1 (rk b) a HI (Hoks _ Hc1) Ha). lia.
Qed.

Lemma nodes_heap (s : state) (n : nat) :
  ∀ (c : value) (a : nat), a ∈ nodes_of n s c → is_Some (heap s !! a).
Proof.
  induction n as [|n IH]; intros c a Ha; unfold nodes_of in Ha.
  - destruct (enters s c); by apply elem_of_nil in Ha.
  - destruct (enters s c) as [b|] eqn:Hen; [|by apply elem_of_nil in Ha].
    destruct (enters_Some _ _ _ Hen) as (-> & Hreg & o & Ho & Hcont).
    rewrite nodes_S, Ho in Ha. apply elem_of_cons in Ha as [->|Ha]; [eauto|].
    apply elem_of_flat_map in Ha as (c1 & Hc1 & Ha). by eapply IH.
Qed.

(** The walk below a member depends on the walked objects only. *)
Lemma member_agree (pend : list nat) (r0 : nat) (s s' : state) (n : nat) :
  Inv rk strict pend s → ext rk r0 s s' →
  ∀ (c : value) (r : nat),
    okchild rk strict s r c →
    (∀ a, a ∈ nodes_of n s c → heap s' !! a = heap s !! a) →
    enters s' c = enters s c ∧
    nodes_of n s' c = nodes_of n s c ∧
    traps_of n s' c = traps_of n s c ∧
    events_of n s' c = events_of n s c.
Proof.
  intros HI He. induction n as [|n IH]; intros c r Hok Hag.
  - pose proof (enters_ext _ _ _ _ _ _ HI He Hok) as Hen.
    unfold nodes_of, traps_of, events_of. rewrite Hen. simpl.
    repeat split; try done; by destruct (enters s c).
  - pose proof (enters_ext _ _ _ _ _ _ HI He Hok) as Hen.
    split; [done|].
    destruct (enters s c) as [b|] eqn:Henb.
    2:{ unfold nodes_of, traps_of, events_of. by rewrite !Hen, !Henb. }
    destruct (enters_Some _ _ _ Henb) as (-> & Hreg & o & Ho & Hcont).
    unfold nodes_of in Hag. rewrite Henb in Hag.
    assert (heap s' !! b = Some o) as Ho'.
    { rewrite Hag; [done|]. rewrite nodes_S. by left. }
    simpl in Hok. rewrite Hreg, Ho in Hok. simpl in Hok.
    apply andb_True in Hok as [Hok _]. apply andb_True in Hok as [_ Hrk1].
    apply Is_true_true, Nat.ltb_lt in Hrk1.
    destruct (inv_obj _ _ _ _ HI _ _ Ho Hrk1) as [_ Hoks].
    rewrite Forall_forall in Hoks.
    assert (∀ c1, c1 ∈ members o →
              enters s' c1 = enters s c1 ∧
              nodes_of n s' c1 = nodes_of n s c1 ∧
              traps_of n s' c1 = traps_of n s c1 ∧
              events_of n s' c1 = events_of n s c1) as Hmem.
    { intros c1 Hc1. apply (IH c1 (rk b) (Hoks _ Hc1)).
      intros a Ha. apply Hag. rewrite nodes_S, Ho. right.
      apply elem_of_flat_map. eauto. }
    assert (nodes (S n) s' b = nodes (S n) s b) as Hn.
    { rewrite !nodes_S, Ho, Ho'. f_equal.
      apply flat_map_ext_elem. intros c1 Hc1. by apply Hmem. }
    assert (set_traps_only (S n) s' b = set_traps_only (S n) s b) as Ht.
    { rewrite !set_traps_only_S, Ho, Ho'. f_equal.
      apply forallb_ext_elem. intros c1 Hc1. by apply Hmem. }
    assert (slot_events (S n) s' b = slot_events (S n) s b) as Hs.
    { simpl. rewrite Ho, Ho'.
      apply flat_map_ext_elem. intros [f1 c1] Hin.
      rewrite !slot_event_of. cbn [fst snd].
      destruct (Hmem c1) as (_ & _ & _ & ->); [|done]. by eapply slots_members. }
    unfold nodes_of, traps_of, events_of.
    rewrite !Hen, !Henb, Hn, Ht, Hs. done.
Qed.
End walk.

(** ** The events of a wrapped structure, in order *)

Lemma alist_get_set_ne {V} (l : list (string * V)) (k k' : string) (v : V) :
  k' ≠ k → alist_get k' (alist_set k v l) = alist_get k' l.
Proof.
  intros Hne. induction l as [|[k0 v0] l IH]; simpl.
  - by rewrite decide_False.
  - destruct (decide (k = k0)) as [->|Hk]; simpl.
    + by rewrite !decide_False.
    + destruct (decide (k' = k0)); [done|]. apply IH.
Qed.

Lemma slot_log_prefix (strict : bool) (s : state) (cb A : nat) (pre f : string)
    (L : list (nat * Observation)) (E : list (string * value)) :
  slot_log strict s cb A (pre +:+ f +:+ ".") L E →
  slot_log strict s cb A pre L ((λ pv, (f +:+ "." +:+ pv.1, pv.2)) <$> E).
Proof.
  unfold slot_log. intros H. apply Forall2_fmap_r.
  eapply Forall2_impl; [exact H|]. intros e pv (w & -> & Hw). exists w. simpl.
  by rewrite !string_app_assoc.
Qed.

(** What has been put in a slot stays what it is when the state goes on:
    façades are never modified and the registry only grows. *)
Lemma wrapped_as_mono (strict : bool) (s s' : state) (c w : value) :
  (∀ a, is_registered s a → is_registered s' a) →
  (∀ a o, heap s !! a = Some o →
          ∃ o', heap s' !! a = Some o' ∧ shape o' = shape o) →
  wrapped_as strict s c w → wrapped_as strict s' c w.
Proof.
  intros Hreg Hsh [Hset Hw]. split.
  - destruct w as [| | | | | | |b]; simpl in *; try done.
    apply orb_True in Hset as [Hr|Hraw]; apply orb_True; [left; by apply Hreg|].
    right. destruct (heap s !! b) as [o|] eqn:Ho; [|done].
    destruct (Hsh _ _ Ho) as (o' & -> & Hs).
    by rewrite (passthrough_shape _ _ _ Hs).
  - destruct Hw as [->|(a & b & -> & -> & Ha)]; [by left|]. right.
    exists a, b. do 2 (split; [done|]).
    destruct (Hsh _ _ Ha) as (o' & Ho' & Hs).
    by rewrite (shape_proxy _ _ _ Hs) in Ho'.
Qed.

Lemma slot_log_mono (strict : bool) (s s' : state) (cb A : nat) (pre : string)
    (L : list (nat * Observation)) (E : list (string * value)) :
  (∀ a, is_registered s a → is_registered s' a) →
  (∀ a o, heap s !! a = Some o →
          ∃ o', heap s' !! a = Some o' ∧ shape o' = shape o) →
  slot_log strict s cb A pre L E → slot_log strict s' cb A pre L E.
Proof.
  intros Hreg Hsh H. unfold slot_log in *.
  eapply Forall2_impl; [exact H|]. intros e pv (w & -> & Hw). exists w.
  split; [done|]. by eapply wrapped_as_mono.
Qed.

Lemma slot_log_ext (rk : nat → nat) (strict : bool) (pend : list nat) (r : nat)
    (s s' : state) (cb A : nat) (pre : string)
    (L : list (nat * Observation)) (E : list (string * value)) :
  Inv rk strict pend s → ext rk r s s' →
  slot_log strict s cb A pre L E → slot_log strict s' cb A pre L E.
Proof.
  intros HI He. apply slot_log_mono.
  - intros a. by apply (is_registered_ext rk strict pend r).
  - intros a o. apply (ext_shape _ _ _ _ He).
Qed.

Lemma wrapped_as_ext (rk : nat → nat) (strict : bool) (pend : list nat) (r : nat)
    (s s' : state) (c w : value) :
  Inv rk strict pend s → ext rk r s s' →
  wrapped_as strict s c w → wrapped_as strict s' c w.
Proof.
  intros HI He. apply wrapped_as_mono.
  - intros a. by apply (is_registered_ext rk strict pend r).
  - intros a o. apply (ext_shape _ _ _ _ He).
Qed.

Section log.
Variable rk : nat → nat.
Variable strict : bool.
Variable cb A : nat.
Variable infoA : ObservableInfo.
Hypothesis HcbND : NoDup (info_callbacks infoA).
Hypothesis Hcb : cb ∈ info_callbacks infoA.
Hypothesis Hnp : default false (info_paused infoA !! cb) = false.

(** An event that reaches [A] is seen once by [cb]. *)
Lemma trigger_seen_stored (pend : list nat) (type : otype) (vn vo : value)
    (m x : nat) (o' : obj) (info : ObservableInfo) (p q : string) (s : state) :
  Inv rk strict pend s →
  observableMap s !! m = Some info →
  bubbles (observableMap s) (VRef m) (VStr p) (VRef A) (VStr q) →
  observableMap s !! A = Some infoA →
  ∃ L,
    triggerObserver type (VRef m) (VStr p) vn vo (with_obj x o' s) =
      Ok tt (add_calls L (with_obj x o' s)) ∧
    seen_by cb A L = [(cb, mkObservation type (VRef A) (VStr q) vn vo)].
Proof.
  intros HI Hm Hb HA. unfold triggerObserver, bind, get_state.
  apply (triggerObserver_rec_seen type vn vo cb A infoA (VStr q) _ m info
           (VStr p) (with_obj x o' s)); try done.
  - apply registry_ok_with_obj. intros a i Ha. by apply (inv_reg _ _ _ _ HI).
  - simpl. rewrite length_insert. apply (inv_reg _ _ _ _ HI) in Hm as [? _]. lia.
Qed.

(** A member that is not walked is returned as it is. *)
Lemma not_entered_run (pend : list nat) (n r m : nat) (s s1 : state)
    (c name w : value) :
  0 < n → r ≤ n →
  Inv rk strict pend s → okchild rk strict s r c → typeof c = TObject →
  is_registered s m → nameable name →
  enters s c = None →
  makeObservable n c name (VRef m) strict s = Ok w s1 →
  s1 = s.
Proof.
  intros Hn Hr HI Hok Hty Hm Hname Hen Hrun.
  destruct c as [| | | | | | |b]; try done.
  destruct (makeObservable_spec rk strict n b name (VRef m) s r pend HI Hok Hr Hn)
    as (w' & s' & Hrun' & _ & _ & Hout).
  { unfold parent_arg_ok. apply andb_True. done. }
  rewrite Hrun in Hrun'. injection Hrun' as <- <-.
  unfold outcome in Hout. simpl in Hen, Hok.
  destruct (is_registered s b) eqn:Hreg; [by destruct Hout|].
  destruct (heap s !! b) as [o|] eqn:Ho; [|done].
  destruct (container o) eqn:Hc; [done|].
  simpl in Hok. apply andb_True in Hok as [Hok _]. apply andb_True in Hok as [Hsup _].
  unfold supported in Hsup. rewrite Hc in Hsup. simpl in Hsup.
  apply Is_true_true in Hsup. rewrite Hsup in Hout. by destruct Hout.
Qed.

(** What a member is replaced with: the member itself when it is
    observable or passed through, and a new façade around it otherwise. *)
Lemma wrap_result (pend : list nat) (n r m : nat) (s s1 : state)
    (c name w : value) :
  0 < n → r ≤ n →
  Inv rk strict pend s → okchild rk strict s r c → typeof c = TObject →
  is_registered s m → nameable name →
  makeObservable n c name (VRef m) strict s = Ok w s1 →
  wrapped_as strict s1 c w.
Proof.
  intros Hn Hr HI Hok Hty Hm Hname Hrun.
  destruct c as [| | | | | | |b]; try done.
  destruct (makeObservable_spec rk strict n b name (VRef m) s r pend HI Hok Hr Hn)
    as (w' & s' & Hrun' & _ & _ & Hout).
  { unfold parent_arg_ok. apply andb_True. done. }
  rewrite Hrun in Hrun'. injection Hrun' as <- <-.
  unfold outcome in Hout. simpl in Hok.
  destruct (is_registered s b) eqn:Hreg.
  { destruct Hout as [-> ->]. split; [|by left]. simpl. by rewrite Hreg. }
  destruct (heap s !! b) as [o|] eqn:Ho; [|done].
  destruct (passthrough strict o) eqn:Hpt.
  { destruct Hout as [-> ->]. split; [|by left]. simpl. by rewrite Hreg, Ho, Hpt. }
  destruct Hout as (-> & Hinfo & Hprox & _). split.
  - simpl. unfold is_registered. by rewrite Hinfo.
  - right. by exists (length (heap s)), b.
Qed.

Section loops.
Variable n : nat.
Hypothesis Hn : 0 < n.
Hypothesis IHlog : log_spec rk strict cb A infoA n.

(** The events of one member slot: those of the walk below it. *)
Lemma member_log (pend pend0 : list nat) (r0 m rx : nat) (pre f0 : string)
    (s0 s s1 : state) (c0 w : value) :
  Inv rk strict pend0 s0 → ext rk r0 s0 s →
  Inv rk strict pend s →
  okchild rk strict s0 rx c0 → typeof c0 = TObject → rx ≤ n →
  (∀ a, a ∈ nodes_of n s0 c0 → heap s !! a = heap s0 !! a) →
  is_registered s m →
  (∀ p, bubbles (observableMap s) (VRef m) (VStr p) (VRef A) (VStr (pre +:+ p))) →
  observableMap s !! A = Some infoA →
  traps_of n s0 c0 = true →
  NoDup (nodes_of n s0 c0) →
  makeObservable n c0 (VStr f0) (VRef m) strict s = Ok w s1 →
  ∃ L1,
    calls s1 = calls s ++ L1 ∧
    slot_log strict s1 cb A pre (seen_by cb A L1)
      ((λ pv, (f0 +:+ "." +:+ pv.1, pv.2)) <$> events_of n s0 c0) ∧
    (∀ a o, heap s !! a = Some o → a ∉ nodes_of n s0 c0 → heap s1 !! a = Some o).
Proof.
  intros HI0 He0 HI Hok0 Hty Hrx Hag Hm Hpre HA Htr Hnd Hrun.
  destruct (member_agree rk strict _ _ _ _ n HI0 He0 c0 rx Hok0 Hag)
    as (Hen & Hno & Htr0 & Hev0).
  pose proof (okchild_ext rk strict _ _ _ _ _ _ HI0 He0 Hok0) as Hok.
  destruct (enters s0 c0) as [b|] eqn:Hb0.
  - destruct (enters_Some _ _ _ Hen) as (-> & Hreg & o & Ho & Hcont).
    unfold nodes_of, traps_of, events_of in *. rewrite Hen in Hno, Htr0, Hev0.
    rewrite Hb0 in *.
    destruct (IHlog b f0 m (pre +:+ f0 +:+ ".") s rx pend HI Hen Hok Hrx Hn Hm)
      as (s1' & L1 & Hrun' & Hc1 & Hlog1 & Hfr1).
    + intros p. specialize (Hpre (f0 +:+ "." +:+ p)).
      by rewrite !string_app_assoc.
    + done.
    + by rewrite Htr0.
    + by rewrite Hno.
    + rewrite Hrun in Hrun'. injection Hrun' as -> <-.
      exists L1. split; [done|]. split.
      * apply slot_log_prefix. by rewrite <- Hev0.
      * intros a o' Ha Hnin. apply Hfr1; [done|]. by rewrite Hno.
  - assert (s1 = s) as ->.
    { eapply (not_entered_run pend n rx m s s1 c0 (VStr f0) w); eauto. }
    exists []. split; [by rewrite app_nil_r|]. unfold events_of. rewrite Hb0.
    split; [constructor|]. done.
Qed.

(** *** Plain objects *)

Lemma plain_loop_log (pend pend0 : list nat) (r0 m x : nat)
    (info0 : ObservableInfo) (pre : string) (s0 : state)
    (rest : list (string * value)) :
  Inv rk strict pend0 s0 → rk x < r0 →
  ∀ (s : state) (props : list (string * value)),
    ext rk r0 s0 s →
    Inv rk strict (m :: pend) s →
    heap s !! m = Some (OProxy x strict) →
    observableMap s !! m = Some info0 →
    heap s !! x = Some (OPlain props) →
    0 < rk x → rk x ≤ n →
    NoDup rest.*1 →
    (∀ f c, (f, c) ∈ rest → alist_get f props = Some c) →
    (∀ f c, (f, c) ∈ rest → okchild rk strict s0 (rk x) c) →
    (∀ f c a, (f, c) ∈ rest → a ∈ nodes_of n s0 c → heap s !! a = heap s0 !! a) →
    (∀ p, bubbles (observableMap s) (VRef m) (VStr p) (VRef A) (VStr (pre +:+ p))) →
    observableMap s !! A = Some infoA →
    (∀ f c, (f, c) ∈ rest → traps_of n s0 c = true) →
    NoDup (flat_map (nodes_of n s0) rest.*2) →
    ∃ s' L,
      forM rest.*1 (wrap_plain_member (makeObservable n) (VRef m) strict) s =
        Ok tt s' ∧
      calls s' = calls s ++ L ∧
      slot_log strict s' cb A pre (seen_by cb A L)
        (flat_map (slot_event (slot_events n s0) s0) rest) ∧
      (∀ a o, heap s !! a = Some o → a ≠ x →
              a ∉ flat_map (nodes_of n s0) rest.*2 → heap s' !! a = Some o).
Proof.
  intros HI0 Hr0.
  induction rest as [|[f0 c0] rest IHr];
    intros s props He0 HI Hm Hinfo Hx Hrk Hrkn Hnd Hget Hok0 Hag Hpre HA Htr Hdis.
  - exists s, []. simpl. split; [done|]. split; [by rewrite app_nil_r|].
    split; [constructor|]. done.
  - rewrite fmap_cons in Hnd. cbn [fst] in Hnd.
    apply NoDup_cons in Hnd as [Hf0 Hnd].
    rewrite fmap_cons in Hdis. cbn [snd flat_map] in Hdis.
    apply NoDup_app in Hdis as (Hnd0 & Hdisj & Hdis).
    pose proof (Hget f0 c0 (list_elem_of_here _ _)) as Hget0.
    pose proof (plain_get_eq s m x strict props f0 Hm Hx) as Hread.
    rewrite Hget0 in Hread. simpl in Hread.
    pose proof (Hok0 f0 c0 (list_elem_of_here _ _)) as Hc00.
    assert (∀ f c, (f, c) ∈ rest → (f, c) ∈ (f0, c0) :: rest) as Hin
      by (intros; by right).
    rewrite !fmap_cons. cbn [fst snd flat_map].
    change (forM (f0 :: ?ks) ?b s) with (bind (b f0) (λ _, forM ks b) s).
    rewrite slot_event_of. cbn [fst snd].
    destruct (decide (typeof c0 = TObject)) as [Hty|Hty].
    + (* the member is an object *)
      pose proof (okchild_ext rk strict _ _ _ _ _ _ HI0 He0 Hc00) as Hc0.
      assert (is_registered s m) as Hregm
        by (unfold is_registered; by rewrite Hinfo).
      destruct (wrap_member rk strict n (makeObservable_spec rk strict n) Hn
                  _ _ m c0 (VStr f0) _ HI Hc0 Hty Hrkn Hregm)
        as (w & s1 & Hrun & HI1 & He1 & Hset & Hokw & Htyw & Hassign); [done|].
      destruct (member_log (m :: pend) pend0 r0 m (rk x) pre f0 s0 s s1 c0 w
                  HI0 He0 HI Hc00 Hty Hrkn) as (L1 & HL1 & Hlog1 & Hfr1);
        try done.
      { intros a Ha. by eapply Hag; [left|]. }
      { by eapply Htr; left. }
      assert (heap s1 !! x = Some (OPlain props)) as Hx1
        by (eapply ext_frame; eauto).
      pose proof (ext_proxy _ _ _ _ _ _ _ He1 Hm) as Hm1.
      assert (observableMap s1 !! m = Some info0) as Hinfo1.
      { rewrite (ext_map _ _ _ _ He1); [done|]. by eapply lookup_lt_Some. }
      assert (observableMap s1 !! A = Some infoA) as HA1.
      { rewrite (ext_map _ _ _ _ He1); [done|].
        by apply (inv_reg _ _ _ _ HI) in HA as [? _]. }
      pose proof (ext_registry _ _ _ _ _ _ HI He1) as Hsub1.
      set (props2 := alist_set f0 w props) in *.
      destruct (trigger_seen_stored (m :: pend) Change w c0 m x (OPlain props2)
                  info0 f0 (pre +:+ f0) s1 HI1 Hinfo1
                  (bubbles_mono _ _ _ _ _ _ Hsub1 (Hpre f0)) HA1)
        as (L2 & Htrig & Hseen2).
      set (s2 := with_obj x (OPlain props2) s1) in *.
      assert (plain_set_with (makeObservable n) (VRef m) f0 w s1 =
                Ok true (add_calls L2 s2)) as Hset2.
      { unfold plain_set_with.
        rewrite (bind_eq _ _ _ _ _ (proxy_parts_eq _ _ _ _ Hm1)).
        rewrite (bind_eq _ _ _ _ _ (plain_Reflect_get_eq _ _ _ _ Hx1)).
        rewrite (bind_eq _ _ _ _ _ Hassign).
        rewrite (bind_eq _ _ _ _ _ (plain_Reflect_set_eq _ _ _ _ _ Hx1)).
        rewrite Hget0. simpl default.
        by rewrite (bind_eq _ _ _ _ _ Htrig). }
      destruct (inv_obj _ _ _ _ HI _ _ Hx Hrk) as [Hwf Hok]. simpl in Hwf, Hok.
      apply bool_decide_unpack in Hwf.
      pose proof (alist_get_elem_of _ _ _ Hget0) as Hin0.
      assert (f0 ∈ props.*1) as Hf0in.
      { apply list_elem_of_fmap. by exists (f0, c0). }
      assert (Inv rk strict (m :: pend) s2) as HI2.
      { apply (Inv_with_obj rk strict _ x (OPlain props) (OPlain props2) s1 HI1 Hx1);
          [done|done|done| | |].
        - simpl. apply bool_decide_pack. unfold props2.
          by rewrite alist_set_fst.
        - simpl. apply Forall_forall. intros c [k Hk]%elem_of_snd.
          apply elem_of_alist_set_weak in Hk as [[-> ->]|Hk]; [done|].
          apply (okchild_ext rk strict _ _ _ s s1 _ HI He1).
          rewrite Forall_forall in Hok. apply Hok, elem_of_snd. eauto.
        - simpl. intros c [k Hk]%elem_of_snd.
          apply elem_of_alist_set_weak in Hk as [[-> ->]|Hk]; [by right|].
          left. apply elem_of_snd. eauto. }
      assert (ext rk (S (rk x)) s1 s2) as He2.
      { apply (ext_with_obj rk _ x (OPlain props) _ s1 Hx1); [done|lia]. }
      pose proof (Inv_add_calls _ _ _ L2 _ HI2) as HI3.
      assert (ext rk r0 s0 (add_calls L2 s2)) as He03.
      { eapply ext_trans; [exact He0|].
        eapply ext_trans; [eapply ext_weaken; [|exact He1]; lia|].
        eapply ext_trans; [eapply ext_weaken; [|exact He2]; lia|].
        apply ext_add_calls. }
      assert (∀ f c a, (f, c) ∈ rest → a ∈ nodes_of n s0 c →
                a ≠ x ∧ (a ∉ nodes_of n s0 c0) ∧ is_Some (heap s0 !! a)) as Hnodes.
      { intros f c a Hfc Ha. split; [|split].
        - intros ->.
          destruct (nodes_rank rk strict _ _ _ _ _ _ HI0 (Hok0 _ _ (Hin _ _ Hfc)) Ha).
          lia.
        - intros Ha0. apply (Hdisj _ Ha0). apply elem_of_flat_map.
          exists c. split; [|done]. apply elem_of_snd. eauto.
        - by eapply nodes_heap. }
      destruct (IHr (add_calls L2 s2) props2 He03 HI3)
        as (s' & L' & Hloop & Hcalls' & Hlog' & Hfr'); try done.
      { simpl. rewrite list_lookup_insert_ne; [done|].
        intros <-. rewrite Hm1 in Hx1. done. }
      { simpl. rewrite list_lookup_insert_eq; [done|]. by eapply lookup_lt_Some. }
      { intros f c Hfc. unfold props2. rewrite alist_get_set_ne; [by apply Hget, Hin|].
        intros ->. apply Hf0. apply list_elem_of_fmap. by exists (f0, c). }
      { intros f c Hfc. by apply (Hok0 f c), Hin. }
      { intros f c a Hfc Ha.
        destruct (Hnodes f c a Hfc Ha) as (Hax & Ha0 & [o Ho]).
        rewrite <- (Hag f c a (Hin _ _ Hfc) Ha) in Ho.
        simpl. rewrite list_lookup_insert_ne by done.
        rewrite (Hfr1 a o Ho Ha0). rewrite <- Ho. by eapply Hag; [apply Hin|]. }
      { intros p. simpl. eapply bubbles_mono; [exact Hsub1|]. apply Hpre. }
      { intros f c Hfc. by apply (Htr f c), Hin. }
      assert (ext rk (S (rk x)) s1 s') as He1'.
      { destruct (plain_loop rk strict n (makeObservable_spec rk strict n) Hn
                    pend m x info0 rest.*1 (add_calls L2 s2) props2 HI3)
          as (s'' & props'' & Hloop'' & _ & He'' & _); try done.
        { simpl. rewrite list_lookup_insert_ne; [done|].
          intros <-. rewrite Hm1 in Hx1. done. }
        { simpl. rewrite list_lookup_insert_eq; [done|]. by eapply lookup_lt_Some. }
        rewrite Hloop in Hloop''. injection Hloop'' as <-.
        eapply ext_trans; [exact He2|].
        eapply ext_trans; [apply ext_add_calls|exact He'']. }
      assert (wrapped_as strict s1 c0 w) as Hw
        by (eapply (wrap_result (m :: pend) n (rk x) m s s1); eauto; done).
      exists s', (L1 ++ L2 ++ L'). split.
      { erewrite bind_eq; [exact Hloop|]. unfold wrap_plain_member.
        rewrite (bind_eq _ _ _ _ _ Hread). rewrite decide_True by done.
        rewrite (bind_eq _ _ _ _ _ Hread).
        rewrite (bind_eq _ _ _ _ _ Hrun).
        by rewrite (bind_eq _ _ _ _ _ Hset2). }
      split.
      { rewrite Hcalls'. simpl. rewrite HL1. by rewrite <- !app_assoc. }
      split.
      { rewrite !seen_by_app.
        apply (slot_log_ext rk strict _ _ _ _ cb A pre _ _ HI1 He1') in Hlog1.
        apply (wrapped_as_ext rk strict _ _ _ _ _ _ HI1 He1') in Hw.
        unfold slot_log in *.
        rewrite <- app_assoc. apply Forall2_app; [done|].
        apply Forall2_app; [|done]. rewrite Hseen2.
        constructor; [|constructor]. by exists w. }
      intros a o Ha Hax Hnin. apply not_elem_of_app in Hnin as [Hn0 Hnin].
      apply Hfr'; [|done|done]. simpl. rewrite list_lookup_insert_ne by done.
      by apply Hfr1.
    + (* the member is not an object *)
      destruct (IHr s props He0 HI Hm Hinfo Hx Hrk Hrkn Hnd)
        as (s' & L' & Hloop & Hcalls' & Hlog' & Hfr'); try done.
      { intros f c Hfc. by apply Hget, Hin. }
      { intros f c Hfc. by apply (Hok0 f c), Hin. }
      { intros f c a Hfc Ha. by eapply Hag; [apply Hin|]. }
      { intros f c Hfc. by apply (Htr f c), Hin. }
      exists s', L'. split.
      { erewrite bind_eq; [exact Hloop|]. unfold wrap_plain_member.
        rewrite (bind_eq _ _ _ _ _ Hread). by rewrite decide_False. }
      split; [done|]. split; [done|].
      intros a o Ha Hax Hnin. apply not_elem_of_app in Hnin as [Hn0 Hnin].
      by apply Hfr'.
Qed.

(** *** Arrays *)

Lemma array_loop_log (pend pend0 : list nat) (r0 m x : nat)
    (info0 : ObservableInfo) (pre : string) (s0 : state)
    (rest : list (nat * value)) :
  Inv rk strict pend0 s0 → rk x < r0 →
  ∀ (s : state) (elems : list value),
    ext rk r0 s0 s →
    Inv rk strict (m :: pend) s →
    heap s !! m = Some (OProxy x strict) →
    observableMap s !! m = Some info0 →
    heap s !! x = Some (OArray elems) →
    0 < rk x → rk x ≤ n →
    NoDup rest.*1 →
    (∀ i c, (i, c) ∈ rest → elems !! i = Some c) →
    (∀ i c, (i, c) ∈ rest → okchild rk strict s0 (rk x) c) →
    (∀ i c a, (i, c) ∈ rest → a ∈ nodes_of n s0 c → heap s !! a = heap s0 !! a) →
    (∀ p, bubbles (observableMap s) (VRef m) (VStr p) (VRef A) (VStr (pre +:+ p))) →
    observableMap s !! A = Some infoA →
    (∀ i c, (i, c) ∈ rest → traps_of n s0 c = true) →
    NoDup (flat_map (nodes_of n s0) rest.*2) →
    ∃ s' L,
      forM rest.*1 (wrap_array_member (makeObservable n) (VRef m) strict) s =
        Ok tt s' ∧
      calls s' = calls s ++ L ∧
      slot_log strict s' cb A pre (seen_by cb A L)
        (flat_map (slot_event (slot_events n s0) s0)
           ((λ ic, (pretty ic.1, ic.2)) <$> rest)) ∧
      (∀ a o, heap s !! a = Some o → a ≠ x →
              a ∉ flat_map (nodes_of n s0) rest.*2 → heap s' !! a = Some o).
Proof.
  intros HI0 Hr0.
  induction rest as [|[i0 c0] rest IHr];
    intros s elems He0 HI Hm Hinfo Hx Hrk Hrkn Hnd Hget Hok0 Hag Hpre HA Htr Hdis.
  - exists s, []. simpl. split; [done|]. split; [by rewrite app_nil_r|].
    split; [constructor|]. done.
  - rewrite fmap_cons in Hnd. cbn [fst] in Hnd.
    apply NoDup_cons in Hnd as [Hf0 Hnd].
    rewrite fmap_cons in Hdis. cbn [snd flat_map] in Hdis.
    apply NoDup_app in Hdis as (Hnd0 & Hdisj & Hdis).
    pose proof (Hget i0 c0 (list_elem_of_here _ _)) as Hget0.
    pose proof (array_get_eq s m x strict elems i0 Hm Hx) as Hread.
    rewrite Hget0 in Hread. simpl in Hread.
    pose proof (lookup_lt_Some _ _ _ Hget0) as Hi0.
    pose proof (Hok0 i0 c0 (list_elem_of_here _ _)) as Hc00.
    assert (∀ i c, (i, c) ∈ rest → (i, c) ∈ (i0, c0) :: rest) as Hin
      by (intros; by right).
    rewrite !fmap_cons. cbn [fst snd flat_map].
    change (forM (i0 :: ?ks) ?b s) with (bind (b i0) (λ _, forM ks b) s).
    rewrite slot_event_of. cbn [fst snd].
    destruct (decide (typeof c0 = TObject)) as [Hty|Hty].
    + (* the element is an object *)
      pose proof (okchild_ext rk strict _ _ _ _ _ _ HI0 He0 Hc00) as Hc0.
      assert (is_registered s m) as Hregm
        by (unfold is_registered; by rewrite Hinfo).
      destruct (wrap_member rk strict n (makeObservable_spec rk strict n) Hn
                  _ _ m c0 (VStr (pretty i0)) _ HI Hc0 Hty Hrkn Hregm)
        as (w & s1 & Hrun & HI1 & He1 & Hset & Hokw & Htyw & Hassign); [done|].
      destruct (member_log (m :: pend) pend0 r0 m (rk x) pre (pretty i0)
                  s0 s s1 c0 w HI0 He0 HI Hc00 Hty Hrkn)
        as (L1 & HL1 & Hlog1 & Hfr1); try done.
      { intros a Ha. by eapply Hag; [left|]. }
      { by eapply Htr; left. }
      assert (heap s1 !! x = Some (OArray elems)) as Hx1
        by (eapply ext_frame; eauto).
      pose proof (ext_proxy _ _ _ _ _ _ _ He1 Hm) as Hm1.
      assert (observableMap s1 !! m = Some info0) as Hinfo1.
      { rewrite (ext_map _ _ _ _ He1); [done|]. by eapply lookup_lt_Some. }
      assert (observableMap s1 !! A = Some infoA) as HA1.
      { rewrite (ext_map _ _ _ _ He1); [done|].
        by apply (inv_reg _ _ _ _ HI) in HA as [? _]. }
      pose proof (ext_registry _ _ _ _ _ _ HI He1) as Hsub1.
      set (elems2 := <[i0 := w]> elems) in *.
      destruct (trigger_seen_stored (m :: pend) Change w c0 m x (OArray elems2)
                  info0 (pretty i0) (pre +:+ pretty i0) s1 HI1 Hinfo1
                  (bubbles_mono _ _ _ _ _ _ Hsub1 (Hpre (pretty i0))) HA1)
        as (L2 & Htrig & Hseen2).
      set (s2 := with_obj x (OArray elems2) s1) in *.
      assert (array_set_with (makeObservable n) (VRef m) i0 w s1 =
                Ok true (add_calls L2 s2)) as Hset2.
      { unfold array_set_with.
        rewrite (bind_eq _ _ _ _ _ (proxy_parts_eq _ _ _ _ Hm1)).
        assert (array_Reflect_get x i0 s1 = Ok c0 s1) as Hg.
        { unfold array_Reflect_get.
          rewrite (bind_eq _ _ _ _ _ (deref_eq _ _ _ Hx1)). by rewrite Hget0. }
        rewrite (bind_eq _ _ _ _ _ Hg).
        rewrite (bind_eq _ _ _ _ _ Hassign).
        assert (array_Reflect_set x i0 w s1 = Ok true s2) as Hs.
        { unfold array_Reflect_set.
          rewrite (bind_eq _ _ _ _ _ (deref_eq _ _ _ Hx1)).
          unfold array_write. by rewrite decide_True. }
        rewrite (bind_eq _ _ _ _ _ Hs).
        by rewrite (bind_eq _ _ _ _ _ Htrig). }
      destruct (inv_obj _ _ _ _ HI _ _ Hx Hrk) as [_ Hok]. simpl in Hok.
      assert (Inv rk strict (m :: pend) s2) as HI2.
      { apply (Inv_with_obj rk strict _ x (OArray elems) (OArray elems2) s1 HI1 Hx1);
          [done|done|done|done| |].
        - simpl. apply Forall_forall. intros c [->|Hc]%elem_of_list_insert_inv; [done|].
          apply (okchild_ext rk strict _ _ _ s s1 _ HI He1).
          rewrite Forall_forall in Hok. by apply Hok.
        - simpl. intros c [->|Hc]%elem_of_list_insert_inv; [by right|by left]. }
      assert (ext rk (S (rk x)) s1 s2) as He2.
      { apply (ext_with_obj rk _ x (OArray elems) _ s1 Hx1); [done|lia]. }
      pose proof (Inv_add_calls _ _ _ L2 _ HI2) as HI3.
      assert (ext rk r0 s0 (add_calls L2 s2)) as He03.
      { eapply ext_trans; [exact He0|].
        eapply ext_trans; [eapply ext_weaken; [|exact He1]; lia|].
        eapply ext_trans; [eapply ext_weaken; [|exact He2]; lia|].
        apply ext_add_calls. }
      assert (∀ i c a, (i, c) ∈ rest → a ∈ nodes_of n s0 c →
                a ≠ x ∧ (a ∉ nodes_of n s0 c0) ∧ is_Some (heap s0 !! a)) as Hnodes.
      { intros i c a Hfc Ha. split; [|split].
        - intros ->.
          destruct (nodes_rank rk strict _ _ _ _ _ _ HI0 (Hok0 _ _ (Hin _ _ Hfc)) Ha).
          lia.
        - intros Ha0. apply (Hdisj _ Ha0). apply elem_of_flat_map.
          exists c. split; [|done]. apply elem_of_snd. eauto.
        - by eapply nodes_heap. }
      destruct (IHr (add_calls L2 s2) elems2 He03 HI3)
        as (s' & L' & Hloop & Hcalls' & Hlog' & Hfr'); try done.
      { simpl. rewrite list_lookup_insert_ne; [done|].
        intros <-. rewrite Hm1 in Hx1. done. }
      { simpl. rewrite list_lookup_insert_eq; [done|]. by eapply lookup_lt_Some. }
      { intros i c Hfc. unfold elems2.
        rewrite list_lookup_insert_ne; [by apply Hget, Hin|].
        intros ->. apply Hf0. apply list_elem_of_fmap. by exists (i, c). }
      { intros i c Hfc. by apply (Hok0 i c), Hin. }
      { intros i c a Hfc Ha.
        destruct (Hnodes i c a Hfc Ha) as (Hax & Ha0 & [o Ho]).
        rewrite <- (Hag i c a (Hin _ _ Hfc) Ha) in Ho.
        simpl. rewrite list_lookup_insert_ne by done.
        rewrite (Hfr1 a o Ho Ha0). rewrite <- Ho. by eapply Hag; [apply Hin|]. }
      { intros p. simpl. eapply bubbles_mono; [exact Hsub1|]. apply Hpre. }
      { intros i c Hfc. by apply (Htr i c), Hin. }
      assert (ext rk (S (rk x)) s1 s') as He1'.
      { destruct (array_loop rk strict n (makeObservable_spec rk strict n) Hn
                    pend m x info0 rest.*1 (add_calls L2 s2) elems2 HI3)
          as (s'' & elems'' & Hloop'' & _ & He'' & _); try done.
        { simpl. rewrite list_lookup_insert_ne; [done|].
          intros <-. rewrite Hm1 in Hx1. done. }
        { simpl. rewrite list_lookup_insert_eq; [done|]. by eapply lookup_lt_Some. }
        { intros i Hi. apply list_elem_of_fmap in Hi as ([i' c] & -> & Hic).
          unfold elems2. rewrite length_insert.
          eapply lookup_lt_Some, Hget. right. exact Hic. }
        rewrite Hloop in Hloop''. injection Hloop'' as <-.
        eapply ext_trans; [exact He2|].
        eapply ext_trans; [apply ext_add_calls|exact He'']. }
      assert (wrapped_as strict s1 c0 w) as Hw
        by (eapply (wrap_result (m :: pend) n (rk x) m s s1); eauto; done).
      exists s', (L1 ++ L2 ++ L'). split.
      { erewrite bind_eq; [exact Hloop|]. unfold wrap_array_member.
        rewrite (bind_eq _ _ _ _ _ Hread). rewrite decide_True by done.
        rewrite (bind_eq _ _ _ _ _ Hread).
        rewrite (bind_eq _ _ _ _ _ Hrun).
        by rewrite (bind_eq _ _ _ _ _ Hset2). }
      split.
      { rewrite Hcalls'. simpl. rewrite HL1. by rewrite <- !app_assoc. }
      split.
      { rewrite !seen_by_app.
        apply (slot_log_ext rk strict _ _ _ _ cb A pre _ _ HI1 He1') in Hlog1.
        apply (wrapped_as_ext rk strict _ _ _ _ _ _ HI1 He1') in Hw.
        unfold slot_log in *.
        rewrite <- app_assoc. apply Forall2_app; [done|].
        apply Forall2_app; [|done]. rewrite Hseen2.
        constructor; [|constructor]. by exists w. }
      intros a o Ha Hax Hnin. apply not_elem_of_app in Hnin as [Hn0 Hnin].
      apply Hfr'; [|done|done]. simpl. rewrite list_lookup_insert_ne by done.
      by apply Hfr1.
    + (* the element is not an object *)
      destruct (IHr s elems He0 HI Hm Hinfo Hx Hrk Hrkn Hnd)
        as (s' & L' & Hloop & Hcalls' & Hlog' & Hfr'); try done.
      { intros i c Hfc. by apply Hget, Hin. }
      { intros i c Hfc. by apply (Hok0 i c), Hin. }
      { intros i c a Hfc Ha. by eapply Hag; [apply Hin|]. }
      { intros i c Hfc. by apply (Htr i c), Hin. }
      exists s', L'. split.
      { erewrite bind_eq; [exact Hloop|]. unfold wrap_array_member.
        rewrite (bind_eq _ _ _ _ _ Hread). by rewrite decide_False. }
      split; [done|]. split; [done|].
      intros a o Ha Hax Hnin. apply not_elem_of_app in Hnin as [Hn0 Hnin].
      by apply Hfr'.
Qed.
End loops.

Lemma imap_pair_fst {V} (l : list V) :
  (imap (λ i c, (i, c)) l).*1 = seq 0 (length l).
Proof.
  rewrite fmap_imap. etrans; [|apply list_fmap_id].
  by rewrite <- (imap_seq_0 l id).
Qed.

Lemma imap_pair_snd {V} (l : list V) : (imap (λ i c, (i, c)) l).*2 = l.
Proof.
  rewrite fmap_imap. etrans; [|apply list_fmap_id].
  by rewrite <- (imap_const id l).
Qed.

Lemma quiet_member (o : obj) (c : value) :
  match o with OPlain _ | OArray _ => False | _ => True end →
  quiet o = true → c ∈ members o → typeof c ≠ TObject.
Proof.
  intros Hk Hq Hc. assert (negb (bool_decide (typeof c = TObject)) = true) as H.
  { destruct o as [| |[] items|[] entries| | | |]; try done; simpl in Hq, Hc;
      try (by apply elem_of_nil in Hc);
      by apply (proj1 (forallb_forall _ _) Hq), list_elem_of_In. }
  apply negb_true_iff, bool_decide_eq_false in H. done.
Qed.

(** The events that the callback sees while a structure is made
    observable: those of its slots that hold an object, in the order of
    the slots, each after the events of the structure below the slot. *)
Lemma wrap_log (n : nat) : log_spec rk strict cb A infoA n.
Proof.
  induction n as [|n IH];
    intros x nm pm pre s r pend HI Hen Hok Hr Hn Hpm Hpre HA Htr Hnd; [lia|].
  destruct (enters_Some _ _ _ Hen) as (_ & Hreg & o & Hx & Hcont).
  simpl in Hok. rewrite Hreg, Hx in Hok. simpl in Hok.
  apply andb_True in Hok as [Hok Hrk2]. apply andb_True in Hok as [Hsup Hrk1].
  apply Is_true_true, Nat.ltb_lt in Hrk1, Hrk2.
  assert (0 < n) as Hn' by lia. assert (rk x ≤ n) as Hrkn by lia.
  rewrite (makeObservable_raw n x (VStr nm) (VRef pm) strict s o Hreg Hx).
  assert (parent_arg_ok s (VStr nm) (VRef pm)) as Hpar.
  { unfold parent_arg_ok. apply andb_True. done. }
  destruct (fresh_proxy rk strict pend s x o (VStr nm) (VRef pm) HI Hx Hpar)
    as (HI1 & Hm1 & Hinfo1 & Hx1 & Hsub1 & He1).
  set (m := length (heap s)) in *.
  set (info0 := mkInfo (VRef x) (VStr nm) (VRef pm) [] ∅) in *.
  set (s1 := with_proxy x strict info0 s) in *.
  rewrite nodes_S, Hx in Hnd. apply NoDup_cons in Hnd as [Hxn Hnd].
  rewrite set_traps_only_S, Hx in Htr. apply andb_true_iff in Htr as [Hq Htr].
  destruct (inv_obj _ _ _ _ HI _ _ Hx Hrk1) as [Hwf Hoks].
  rewrite Forall_forall in Hoks.
  assert (∀ p, bubbles (observableMap s1) (VRef m) (VStr p) (VRef A)
                 (VStr (pre +:+ p))) as Hpre1.
  { intros p. apply (bubbles_up _ m info0 nm p (VStr p) (VRef A) _ Hinfo1);
      try done.
    eapply bubbles_mono; [exact Hsub1|]. apply Hpre. }
  pose proof (lookup_weaken _ _ _ _ HA Hsub1) as HA1.
  assert (∀ c a, c ∈ members o → a ∈ nodes_of n s c →
            heap s1 !! a = heap s !! a) as Hag.
  { intros c a Hc Ha. destruct (nodes_heap _ _ _ _ Ha) as [oa Hoa].
    rewrite Hoa. simpl. by apply lookup_app_l_Some. }
  assert (∀ c, c ∈ members o → traps_of n s c = true) as Htrs.
  { intros c Hc. apply (proj1 (forallb_forall _ _) Htr), list_elem_of_In. done. }
  assert (slots o = [] →
            calls s1 = calls s ++ [] ∧
            slot_log strict s1 cb A pre (seen_by cb A []) (slot_events (S n) s x) ∧
            (∀ a oa, heap s !! a = Some oa →
                    a ∉ nodes (S n) s x → heap s1 !! a = Some oa)) as Hnone.
  { intros Hsl. split; [by rewrite app_nil_r|]. split.
    - simpl. rewrite Hx, Hsl. constructor.
    - intros a oa Ha _. simpl. by apply lookup_app_l_Some. }
  destruct o as [props|elems|weak items|weak entries|k data|k| |t st];
    try done.
  - (* plain object *)
    rewrite new_proxy_eq. fold s1 m.
    destruct (plain_loop_log n Hn' IH pend pend (S (rk x)) m x info0 pre s props
                HI (Nat.lt_succ_diag_r _) s1 props (He1 _) HI1 Hm1 Hinfo1 Hx1
                Hrk1 Hrkn)
      as (s' & L & Hloop & Hcalls & Hlog & Hfr); try done.
    { simpl in Hwf. by apply bool_decide_unpack in Hwf. }
    { intros f c Hfc. apply elem_of_alist_get; [|done].
      simpl in Hwf. by apply bool_decide_unpack in Hwf. }
    { intros f c Hfc. apply Hoks. simpl. apply elem_of_snd. eauto. }
    { intros f c a Hfc Ha. apply (Hag c a); [|done]. simpl.
      apply elem_of_snd. eauto. }
    { intros f c Hfc. apply Htrs. simpl. apply elem_of_snd. eauto. }
    assert (wrap_plain_members (makeObservable n) (VRef m) strict s1 = Ok tt s')
      as Hpass.
    { unfold wrap_plain_members.
      by rewrite (bind_eq _ _ _ _ _ (plain_keys_eq _ _ _ _ _ Hm1 Hx1)). }
    rewrite (bind_eq _ _ _ _ _ Hpass). exists s', L.
    split; [done|]. split; [done|]. split.
    { simpl. by rewrite Hx. }
    intros a oa Ha Hnin. rewrite nodes_S, Hx in Hnin.
    apply not_elem_of_cons in Hnin as [Hax Hnin].
    apply Hfr; [|done|done]. simpl. by apply lookup_app_l_Some.
  - (* array *)
    rewrite new_proxy_eq. fold s1 m.
    destruct (array_loop_log n Hn' IH pend pend (S (rk x)) m x info0 pre s
                (imap (λ i c, (i, c)) elems)
                HI (Nat.lt_succ_diag_r _) s1 elems (He1 _) HI1 Hm1 Hinfo1 Hx1
                Hrk1 Hrkn)
      as (s' & L & Hloop & Hcalls & Hlog & Hfr); try done.
    { rewrite imap_pair_fst. apply NoDup_seq. }
    { by intros i c (j & c' & [= -> ->] & Hj)%elem_of_lookup_imap. }
    { intros i c (j & c' & [= -> ->] & Hj)%elem_of_lookup_imap.
      apply Hoks. simpl. by eapply list_elem_of_lookup_2. }
    { intros i c a (j & c' & [= -> ->] & Hj)%elem_of_lookup_imap Ha.
      apply (Hag c' a); [|done]. simpl. by eapply list_elem_of_lookup_2. }
    { intros i c (j & c' & [= -> ->] & Hj)%elem_of_lookup_imap.
      apply Htrs. simpl. by eapply list_elem_of_lookup_2. }
    { by rewrite imap_pair_snd. }
    rewrite imap_pair_fst, imap_pair_snd in *.
    rewrite fmap_imap in Hlog.
    assert (wrap_array_members (makeObservable n) (VRef m) strict s1 = Ok tt s')
      as Hpass.
    { unfold wrap_array_members.
      by rewrite (bind_eq _ _ _ _ _ (array_length_eq _ _ _ _ _ Hm1 Hx1)). }
    rewrite (bind_eq _ _ _ _ _ Hpass). exists s', L.
    split; [done|]. split; [done|]. split.
    { simpl. by rewrite Hx. }
    intros a oa Ha Hnin. rewrite nodes_S, Hx in Hnin.
    apply not_elem_of_cons in Hnin as [Hax Hnin].
    apply Hfr; [|done|done]. simpl. by apply lookup_app_l_Some.
  - (* Set and WeakSet *)
    rewrite new_proxy_eq. fold s1 m. exists s1, [].
    split; [|by apply Hnone].
    destruct weak; [done|].
    assert (wrap_set_members (makeObservable n) (VRef m) strict s1 = Ok tt s1)
      as Hpass.
    { unfold wrap_set_members.
      rewrite (bind_eq _ _ _ _ _ (set_values_eq _ _ _ _ _ _ Hm1 Hx1)).
      rewrite <- (app_nil_r items). rewrite forM_skip; [done|].
      intros c Hc. unfold wrap_set_member. rewrite decide_False; [done|].
      by apply (quiet_member (OSet false items)). }
    by rewrite (bind_eq _ _ _ _ _ Hpass).
  - (* Map and WeakMap *)
    rewrite new_proxy_eq. fold s1 m. exists s1, [].
    split; [|by apply Hnone].
    destruct weak; [done|].
    assert (wrap_map_members (makeObservable n) (VRef m) strict s1 = Ok tt s1)
      as Hpass.
    { unfold wrap_map_members.
      rewrite (bind_eq _ _ _ _ _ (map_entries_eq _ _ _ _ _ _ Hm1 Hx1)).
      rewrite <- (app_nil_r entries). rewrite forM_skip; [done|].
      intros [key c] Hc. unfold wrap_map_member. rewrite decide_False; [done|].
      apply (quiet_member (OMap false entries)); [done|done|].
      simpl. apply elem_of_snd. eauto. }
    by rewrite (bind_eq _ _ _ _ _ Hpass).
  - (* typed array *)
    rewrite new_proxy_eq. fold s1 m. exists s1, [].
    split; [done|]. by apply Hnone.
Qed.
End log.

(** ** Assigning a nested structure *)

Section assign_log.
Variable rk : nat → nat.
Variable strict : bool.

End assign_log.

(** The slots of the record [{y: {z: {}}, n: 0}] that the assignment to
    [root.a.x] replaces, innermost first, and the objects that get a
    façade. *)
Lemma assign_nested_slots :
  slot_events 6 assign_scene 4 = [("y.z", VRef 2); ("y", VRef 3)] ∧
  nodes 6 assign_scene 4 = [4; 3; 2] ∧
  seen_by 7 5 (calls (final (assign_nested assign_scene))) =
    [ (7, mkObservation Change (VRef 5) (VStr "a.x.y.z") (VRef 9) (VRef 2));
      (7, mkObservation Change (VRef 5) (VStr "a.x.y") (VRef 8) (VRef 3));
      (7, mkObservation Change (VRef 5) (VStr "a.x") (VRef 7) VUndef) ].
Proof. vm_compute. done. Qed.

